(** * Payload walkers and size formatting of [server/mcp_toolkit.py]

    A shallow embedding of the Gmail payload helpers of the toolkit
    ([extract_text_from_payload], [extract_email_body], [strip_html_tags],
    [get_attachment_info], both definitions of [format_file_size]) and of
    the tool handlers that call them ([gmail_read_attchment_content],
    [gmail_find_messages_with_attachments], [drive_list_all_files]),
    followed by the properties established about them.

    Conventions.
    - A Python [str] is the list of its code points, a [bytes] object the
      list of its octets; both are lists of [Z].
    - A JSON object with a fixed set of optional keys is a record of
      [option] fields: [None] is an absent key, so [d.get(k)] is the field
      itself and [d[k]] raises [KeyError] on [None].
    - Code that can raise returns [Res]; [try]/[except] is [catch].
    - Remote services and third-party libraries are fields of a record
      that is passed in, and [html.unescape] is a parameter of the
      functions that call it, so that every statement holds for all of
      them. *)

From Stdlib Require Import ZArith List Bool String Ascii Lia QArith DecimalN.
Import ListNotations.

Local Open Scope Z_scope.

(* ================================================================== *)
(** * Python values *)
(* ================================================================== *)

Definition pystr := list Z.
Definition bytes := list Z.

(** The code points of an ASCII literal. *)
Definition str (s : string) : pystr :=
  map (fun a => Z.of_N (N_of_ascii a)) (list_ascii_of_string s).

Fixpoint str_eqb (a b : pystr) : bool :=
  match a, b with
  | [], [] => true
  | x :: a', y :: b' => (x =? y) && str_eqb a' b'
  | _, _ => false
  end.

(** [x == y] where [x] comes from [dict.get] and [y] is a [str]. *)
Definition opt_str_eqb (x : option pystr) (y : pystr) : bool :=
  match x with Some s => str_eqb s y | None => false end.

(** Truth value of a [str]: non-empty. *)
Definition nonempty (s : pystr) : bool :=
  match s with [] => false | _ :: _ => true end.

(** Truth value of [d.get(k)] for a string-valued key. *)
Definition truthy (x : option pystr) : bool :=
  match x with Some s => nonempty s | None => false end.

(** Exceptions, as far as the modelled code can tell them apart. *)
Inductive exn :=
| KeyError (key : pystr)
| ValueError
| OverflowError
| BinasciiError
| NameError (name : pystr)
| HttpError (msg : pystr)
| LibraryError (msg : pystr).

Inductive Res (A : Type) :=
| Ret (a : A)
| Raise (e : exn).
Arguments Ret {A} a.
Arguments Raise {A} e.

Definition bind {A B} (m : Res A) (k : A -> Res B) : Res B :=
  match m with Ret a => k a | Raise e => Raise e end.

Notation "x <- m ;; k" := (bind m (fun x => k))
  (at level 61, m at next level, right associativity).

(** [try: m  except: h e]. *)
Definition catch {A} (m : Res A) (h : exn -> A) : A :=
  match m with Ret a => a | Raise e => h e end.

(** [d[k]]. *)
Definition getitem {A} (key : string) (x : option A) : Res A :=
  match x with Some a => Ret a | None => Raise (KeyError (str key)) end.

(* ------------------------------------------------------------------ *)
(** ** [str] methods *)

(** [str.isspace] on one code point (the set used by [strip], by [int]
    and by [\s] in a [str] pattern). *)
Definition isspace (c : Z) : bool :=
  ((9 <=? c) && (c <=? 13)) || ((28 <=? c) && (c <=? 32))
  || (c =? 133) || (c =? 160) || (c =? 5760)
  || ((8192 <=? c) && (c <=? 8202))
  || (c =? 8232) || (c =? 8233) || (c =? 8239) || (c =? 8287)
  || (c =? 12288).

(** Dropping the leading, then also the trailing, code points that
    satisfy [sp]. *)
Fixpoint lstrip_by (sp : Z -> bool) (s : pystr) : pystr :=
  match s with
  | c :: s' => if sp c then lstrip_by sp s' else s
  | [] => []
  end.

Definition strip_by (sp : Z -> bool) (s : pystr) : pystr :=
  rev (lstrip_by sp (rev (lstrip_by sp s))).

(** [s.strip()]. *)
Definition strip (s : pystr) : pystr := strip_by isspace s.

(** [s.strip] of the double-quote character. *)
Definition strip_quotes (s : pystr) : pystr := strip_by (Z.eqb 34) s.

(** [s.lower()] on ASCII letters; other code points are left as they
    are. *)
Definition lower_char (c : Z) : Z :=
  if (65 <=? c) && (c <=? 90) then c + 32 else c.

Definition lower (s : pystr) : pystr := map lower_char s.

Fixpoint startswith (s p : pystr) : bool :=
  match p, s with
  | [], _ => true
  | x :: p', y :: s' => (x =? y) && startswith s' p'
  | _ :: _, [] => false
  end.

(** [s.endswith(p)]. *)
Definition endswith (s p : pystr) : bool := startswith (rev s) (rev p).

(** [c in s]. *)
Definition contains_char (c : Z) (s : pystr) : bool :=
  existsb (Z.eqb c) s.

(* ------------------------------------------------------------------ *)
(** ** [str(int)] and [int(str)] *)

Fixpoint uint_codes (d : Decimal.uint) : pystr :=
  match d with
  | Decimal.Nil => []
  | Decimal.D0 r => 48 :: uint_codes r
  | Decimal.D1 r => 49 :: uint_codes r
  | Decimal.D2 r => 50 :: uint_codes r
  | Decimal.D3 r => 51 :: uint_codes r
  | Decimal.D4 r => 52 :: uint_codes r
  | Decimal.D5 r => 53 :: uint_codes r
  | Decimal.D6 r => 54 :: uint_codes r
  | Decimal.D7 r => 55 :: uint_codes r
  | Decimal.D8 r => 56 :: uint_codes r
  | Decimal.D9 r => 57 :: uint_codes r
  end.

(** [str(n)] for an [int]. *)
Definition dec (n : Z) : pystr :=
  if n <? 0 then 45 :: uint_codes (N.to_uint (Z.to_N (- n)))
  else uint_codes (N.to_uint (Z.to_N n)).

Definition isdigit_char (c : Z) : bool := (48 <=? c) && (c <=? 57).

(** [s.isdigit()], for strings whose digits are ASCII. *)
Definition isdigit (s : pystr) : bool :=
  nonempty s && forallb isdigit_char s.

(** The digits-and-underscores part of an integer literal: it starts and
    ends with a digit and underscores stand alone between digits.
    [prev] tells whether the previous character was a digit. *)
Fixpoint int_digits (s : pystr) (prev : bool) (acc : Z) : Res Z :=
  match s with
  | [] => if prev then Ret acc else Raise ValueError
  | c :: s' =>
      if isdigit_char c then int_digits s' true (10 * acc + (c - 48))
      else if (c =? 95) && prev then int_digits s' false acc
      else Raise ValueError
  end.

(** White space that [int] skips around the literal: [isspace] without
    the four separators U+001C to U+001F. *)
Definition int_space (c : Z) : bool :=
  isspace c && negb ((28 <=? c) && (c <=? 31)).

(** [int(s)] in base 10, for strings whose digits are ASCII: surrounding
    white space, an optional sign, digits with single underscores.  The
    interpreter's limit on the number of digits is not modelled. *)
Definition py_int (s : pystr) : Res Z :=
  match strip_by int_space s with
  | 45 :: r => n <- int_digits r false 0 ;; Ret (- n)
  | 43 :: r => int_digits r false 0
  | r => int_digits r false 0
  end.

(* ------------------------------------------------------------------ *)
(** ** Floats

    A finite [float] is the rational it denotes.  The only floats the
    modelled code builds are an [int] converted or divided by a power of
    two, and such a float divided by 1024 again, so one rounding to a
    53-bit significand is all there is. *)

(** Nearest integer with a 53-bit significand, ties to even ([a >= 0]). *)
Definition round53 (a : Z) : Z :=
  let bits := Z.log2 a + 1 in
  if bits <=? 53 then a
  else
    let sh := bits - 53 in
    let m := Z.shiftr a sh in
    let r := a - Z.shiftl m sh in
    let half := Z.shiftl 1 (sh - 1) in
    let m' := if (half <? r) || ((r =? half) && Z.odd m) then m + 1 else m in
    Z.shiftl m' sh.

(** [n / 2**k] for an [int] [n] (true division; [float(n)] when [k = 0]):
    the correctly rounded quotient, [OverflowError] at [2**1024]. *)
Definition int_truediv_pow2 (n k : Z) : Res Q :=
  let a := round53 (Z.abs n) in
  if Z.shiftl 1 (1024 + k) <=? a then Raise OverflowError
  else Ret (Qmake (Z.sgn n * a) (Z.to_pos (2 ^ k))).

(** Nearest integer to [n / d], ties to even ([n >= 0], [d > 0]). *)
Definition round_half_even (n d : Z) : Z :=
  let t := n / d in
  let r := n mod d in
  if 2 * r <? d then t
  else if d <? 2 * r then t + 1
  else if Z.even t then t else t + 1.

(** [f"{q:.1f}"] for a [float]. *)
Definition format_1f (q : Q) : pystr :=
  let t := round_half_even (10 * Z.abs (Qnum q)) (Zpos (Qden q)) in
  (if Qnum q <? 0 then [45] else [])
    ++ dec (t / 10) ++ [46] ++ dec (t mod 10).

(** The value of a variable that starts as an [int] and becomes a
    [float] once divided. *)
Inductive pynum :=
| PInt (n : Z)
| PFloat (q : Q).

(** [size < 1024]. *)
Definition num_lt_1024 (x : pynum) : bool :=
  match x with
  | PInt n => n <? 1024
  | PFloat q => Qnum q <? 1024 * Zpos (Qden q)
  end.

(** [size / 1024]. *)
Definition num_div_1024 (x : pynum) : Res pynum :=
  match x with
  | PInt n => q <- int_truediv_pow2 n 10 ;; Ret (PFloat q)
  | PFloat q => Ret (PFloat (Qmake (Qnum q) (Qden q * 1024)))
  end.

(** [f"{size:.1f}"]: an [int] is converted to [float] first. *)
Definition num_format_1f (x : pynum) : Res pystr :=
  match x with
  | PInt n => q <- int_truediv_pow2 n 0 ;; Ret (format_1f q)
  | PFloat q => Ret (format_1f q)
  end.

(* ================================================================== *)
(** * The two definitions of [format_file_size] *)
(* ================================================================== *)

(** The definition at line 869. *)
Module FirstDef.

Definition format_file_size_body (size_str : pystr) : Res pystr :=
  if str_eqb size_str (str "N/A") || negb (nonempty size_str)
     || negb (isdigit size_str)
  then Ret (str "Size unknown")
  else
    size_bytes <- py_int size_str ;;
    if size_bytes <? 1024 then Ret (dec size_bytes ++ str " B")
    else if size_bytes <? 1024 * 1024 then
      q <- int_truediv_pow2 size_bytes 10 ;; Ret (format_1f q ++ str " KB")
    else if size_bytes <? 1024 * 1024 * 1024 then
      q <- int_truediv_pow2 size_bytes 20 ;; Ret (format_1f q ++ str " MB")
    else
      q <- int_truediv_pow2 size_bytes 30 ;; Ret (format_1f q ++ str " GB").

Definition format_file_size (size_str : pystr) : pystr :=
  catch (format_file_size_body size_str) (fun _ => str "Size unknown").

End FirstDef.

(** The definition at line 931. *)
Module SecondDef.

(** [for unit in units: ...] followed by the final [return]. *)
Fixpoint unit_loop (units : list pystr) (size : pynum) : Res pystr :=
  match units with
  | unit :: rest =>
      if num_lt_1024 size then
        s <- num_format_1f size ;; Ret (s ++ str " " ++ unit)
      else
        size' <- num_div_1024 size ;; unit_loop rest size'
  | [] => s <- num_format_1f size ;; Ret (s ++ str " TB")
  end.

Definition format_file_size (size_str : pystr) : pystr :=
  catch
    (size <- py_int size_str ;;
     unit_loop [str "B"; str "KB"; str "MB"; str "GB"] (PInt size))
    (fun _ => size_str).

End SecondDef.

(** ** The module's global names

    Running the module executes its [def] statements in source order;
    each binds its name in the module's globals, and a later one rebinds
    it.  A call looks the name up when the call runs, which for every
    tool is after the whole module has been executed. *)

Definition globals := string -> option (pystr -> pystr).

Definition def_stmt (name : string) (f : pystr -> pystr) (g : globals)
  : globals :=
  fun n => if String.eqb n name then Some f else g n.

Definition module_globals : globals :=
  def_stmt "format_file_size" SecondDef.format_file_size     (* line 931 *)
    (def_stmt "format_file_size" FirstDef.format_file_size   (* line 869 *)
       (fun _ => None)).

(** [name(arg)] at a call site. *)
Definition call_global (name : string) (arg : pystr) : Res pystr :=
  match module_globals name with
  | Some f => Ret (f arg)
  | None => Raise (NameError (str name))
  end.

(* ================================================================== *)
(** * Library functions with a closed form *)
(* ================================================================== *)

(** ** [bytes.decode('utf-8', errors='ignore')]

    Octets that do not start a well-formed sequence are dropped, and
    decoding resumes at the next octet. *)

Definition is_cont (b : Z) : bool := (128 <=? b) && (b <=? 191).

(** The range of the second octet, which depends on the first. *)
Definition second_ok (b0 b1 : Z) : bool :=
  if b0 =? 224 then (160 <=? b1) && (b1 <=? 191)
  else if b0 =? 237 then (128 <=? b1) && (b1 <=? 159)
  else if b0 =? 240 then (144 <=? b1) && (b1 <=? 191)
  else if b0 =? 244 then (128 <=? b1) && (b1 <=? 143)
  else is_cont b1.

Fixpoint decode_utf8_ignore (bs : bytes) : pystr :=
  match bs with
  | [] => []
  | b0 :: r0 =>
      if (0 <=? b0) && (b0 <? 128) then b0 :: decode_utf8_ignore r0
      else if (194 <=? b0) && (b0 <=? 223) then
        match r0 with
        | b1 :: r1 =>
            if is_cont b1
            then ((b0 - 192) * 64 + (b1 - 128)) :: decode_utf8_ignore r1
            else decode_utf8_ignore r0
        | [] => []
        end
      else if (224 <=? b0) && (b0 <=? 239) then
        match r0 with
        | b1 :: b2 :: r2 =>
            if second_ok b0 b1 && is_cont b2
            then ((b0 - 224) * 4096 + (b1 - 128) * 64 + (b2 - 128))
                   :: decode_utf8_ignore r2
            else decode_utf8_ignore r0
        | _ => decode_utf8_ignore r0
        end
      else if (240 <=? b0) && (b0 <=? 244) then
        match r0 with
        | b1 :: b2 :: b3 :: r3 =>
            if second_ok b0 b1 && is_cont b2 && is_cont b3
            then ((b0 - 240) * 262144 + (b1 - 128) * 4096
                  + (b2 - 128) * 64 + (b3 - 128))
                   :: decode_utf8_ignore r3
            else decode_utf8_ignore r0
        | _ => decode_utf8_ignore r0
        end
      else decode_utf8_ignore r0
  end.

(** ** [base64.urlsafe_b64decode]

    The argument is encoded to ASCII ([ValueError] otherwise), [-] and
    [_] are read as [+] and [/], and the result goes through the
    lenient decoder: characters outside the alphabet are skipped, a
    padding character that completes a group ends the input, and a
    group left open at the end is an error. *)

Definition b64_value (c : Z) : option Z :=
  if (65 <=? c) && (c <=? 90) then Some (c - 65)
  else if (97 <=? c) && (c <=? 122) then Some (c - 71)
  else if (48 <=? c) && (c <=? 57) then Some (c + 4)
  else if (c =? 43) || (c =? 45) then Some 62
  else if (c =? 47) || (c =? 95) then Some 63
  else None.

Definition emit (b : Z) (m : Res bytes) : Res bytes :=
  r <- m ;; Ret (b :: r).

Fixpoint a2b_base64 (s : pystr) (quad_pos leftchar pads : Z) : Res bytes :=
  match s with
  | [] => if quad_pos =? 0 then Ret [] else Raise BinasciiError
  | c :: s' =>
      if c =? 61 then
        if 2 <=? quad_pos then
          if 4 <=? quad_pos + (pads + 1) then Ret []
          else a2b_base64 s' quad_pos leftchar (pads + 1)
        else a2b_base64 s' quad_pos leftchar pads
      else
        match b64_value c with
        | None => a2b_base64 s' quad_pos leftchar pads
        | Some v =>
            if quad_pos =? 0 then a2b_base64 s' 1 v 0
            else if quad_pos =? 1 then
              emit (Z.lor (Z.shiftl leftchar 2) (Z.shiftr v 4))
                   (a2b_base64 s' 2 (Z.land v 15) 0)
            else if quad_pos =? 2 then
              emit (Z.lor (Z.shiftl leftchar 4) (Z.shiftr v 2))
                   (a2b_base64 s' 3 (Z.land v 3) 0)
            else
              emit (Z.lor (Z.shiftl leftchar 6) v) (a2b_base64 s' 0 0 0)
        end
  end.

Definition urlsafe_b64decode (s : pystr) : Res bytes :=
  if forallb (fun c => (0 <=? c) && (c <? 128)) s
  then a2b_base64 s 0 0 0
  else Raise ValueError.

(** ** The two regular-expression substitutions *)

(** Does a [>] follow before the end of the line?  ([.] matches every
    code point but the line feed.) *)
Fixpoint closes (s : pystr) : bool :=
  match s with
  | [] => false
  | c :: s' => (c =? 62) || (negb (c =? 10) && closes s')
  end.

(** [re.sub('<.*?>', '', s)], scanning left to right; [inside] holds
    between the [<] of a match and its [>], the first one that
    follows. *)
Fixpoint sub_tags (inside : bool) (s : pystr) : pystr :=
  match s with
  | [] => []
  | c :: s' =>
      if inside then
        if c =? 62 then sub_tags false s' else sub_tags true s'
      else if (c =? 60) && closes s' then sub_tags true s'
      else c :: sub_tags false s'
  end.

(** [re.sub(r'\s+', ' ', s)]; [in_run] holds after a white-space code
    point. *)
Fixpoint sub_spaces (in_run : bool) (s : pystr) : pystr :=
  match s with
  | [] => []
  | c :: s' =>
      if isspace c then
        if in_run then sub_spaces true s' else 32 :: sub_spaces true s'
      else c :: sub_spaces false s'
  end.

(* ================================================================== *)
(** * The message payload *)
(* ================================================================== *)

(** [payload['body']]. *)
Record Body := mkBody {
  data : option pystr;
  attachmentId : option pystr;
  size : option Z
}.

(** One entry of [payload['headers']]. *)
Record Header := mkHeader {
  name : option pystr;
  value : option pystr
}.

(** A message part; [parts = None] is a part without the ['parts']
    key. *)
#[local] Unset Elimination Schemes.
Inductive Payload := mkPayload {
  mimeType : option pystr;
  filename : option pystr;
  headers : option (list Header);
  body : option Body;
  parts : option (list Payload)
}.
#[local] Set Elimination Schemes.

(** [d.get(k, default)]. *)
Definition get_or {A} (x : option A) (default : A) : A :=
  match x with Some a => a | None => default end.

(** [{}] as a body and as a payload. *)
Definition empty_body : Body := mkBody None None None.
Definition empty_payload : Payload := mkPayload None None None None None.

(* ================================================================== *)
(** * Body extraction *)
(* ================================================================== *)

Section BodyExtractor.

(** [html.unescape]. *)
Variable unescape : pystr -> pystr.

Definition strip_html_tags (html_content : pystr) : pystr :=
  if negb (nonempty html_content) then []
  else
    let clean := sub_tags false html_content in
    let clean := unescape clean in
    strip (sub_spaces false clean).

(** [base64.urlsafe_b64decode(data).decode('utf-8', errors='ignore')]. *)
Definition decode_data (d : pystr) : Res pystr :=
  b <- urlsafe_b64decode d ;; Ret (decode_utf8_ignore b).

(** The result is [None] or a [str]; [Raise] is an exception that
    leaves the function.  [for_parts] is the loop over
    [payload.get('parts', [])]. *)
Fixpoint extract_text_from_payload (payload : Payload) (mime_type : pystr)
  : Res (option pystr) :=
  match payload with
  | mkPayload mimeType' _ _ body' parts' =>
      let for_parts :=
        match parts' with
        | None => Ret None
        | Some ps =>
            (fix for_parts (ps : list Payload) : Res (option pystr) :=
               match ps with
               | [] => Ret None
               | part :: rest =>
                   result <- extract_text_from_payload part mime_type ;;
                   if truthy result then Ret result else for_parts rest
               end) ps
        end in
      if opt_str_eqb mimeType' mime_type then
        let d := data (get_or body' empty_body) in
        if truthy d then
          catch (s <- decode_data (get_or d []) ;; Ret (Ret (Some s)))
                (fun _ => Ret None)
        else for_parts
      else for_parts
  end.

Definition extract_email_body (payload : Payload) : Res pystr :=
  plain_text <- extract_text_from_payload payload (str "text/plain") ;;
  if truthy plain_text then Ret (get_or plain_text [])
  else
    html_text <- extract_text_from_payload payload (str "text/html") ;;
    if truthy html_text then Ret (strip_html_tags (get_or html_text []))
    else Ret (str "No readable text content found.").

End BodyExtractor.

(* ================================================================== *)
(** * Attachment listing *)
(* ================================================================== *)

(** One entry of the list [get_attachment_info] returns. *)
Module Att.
Record t := mk {
  filename : pystr;
  mime_type : pystr;
  size : pystr;
  attachment_id : pystr
}.
End Att.

(** The body of the loop of [process_parts] for one [part], with the
    loop itself for the nested call; [attachments] is the list the
    closure appends to. *)
Fixpoint process_part (part : Payload) (attachments : list Att.t)
  : Res (list Att.t) :=
  match part with
  | mkPayload mimeType' filename' _ body' parts' =>
      match parts' with
      | Some ps =>
          (fix process_parts (ps : list Payload) (acc : list Att.t)
             : Res (list Att.t) :=
             match ps with
             | [] => Ret acc
             | p :: rest =>
                 acc' <- process_part p acc ;; process_parts rest acc'
             end) ps attachments
      | None =>
          if truthy filename' then
            b <- getitem "body" body' ;;
            if truthy (attachmentId b) then
              fn <- getitem "filename" filename' ;;
              mt <- getitem "mimeType" mimeType' ;;
              sz <- call_global "format_file_size"
                      (dec (get_or (size b) 0)) ;;
              aid <- getitem "attachmentId" (attachmentId b) ;;
              Ret (attachments ++ [Att.mk fn mt sz aid])
            else Ret attachments
          else Ret attachments
      end
  end.

Fixpoint process_parts (ps : list Payload) (attachments : list Att.t)
  : Res (list Att.t) :=
  match ps with
  | [] => Ret attachments
  | part :: rest =>
      acc <- process_part part attachments ;; process_parts rest acc
  end.

Definition get_attachment_info (payload : Payload) : Res (list Att.t) :=
  match parts payload with
  | Some ps => process_parts ps []
  | None => Ret []
  end.

(* ================================================================== *)
(** * Remote services and third-party libraries *)
(* ================================================================== *)

(** A message as [messages().get(..., format='full')] returns it. *)
Record Message := mkMessage {
  payload : option Payload;
  snippet : option pystr
}.

(** One entry of the ['messages'] list of a search result. *)
Record MsgRef := mkMsgRef {
  id : option pystr
}.

(** One entry of the ['files'] list of a Drive listing. *)
Module DriveFile.
Record t := mk {
  id : option pystr;
  name : option pystr;
  mimeType : option pystr;
  size : option pystr;
  modifiedTime : option pystr;
  shared : option bool
}.
End DriveFile.

(** What the handlers call outside the module.  Every call can raise.
    - [tiktoken_get_encoding]: [tiktoken.get_encoding("cl100k_base")],
      as the function [text |-> len(encoding.encode(text))];
    - [messages_get id]: the Gmail message [id], in full format;
    - [messages_list maxResults q]: the ['messages'] list of a Gmail
      search, [[]] when the key is absent;
    - [attachments_get messageId id]: the ['data'] key of the attachment;
    - [pdf_pages data]: [page.extract_text()] for each page of
      [PdfReader(data)];
    - [docx_paragraphs data]: [para.text] for each paragraph of
      [Document(data)];
    - [files_list q pageSize orderBy]: the ['files'] list of a Drive
      listing, [[]] when the key is absent;
    - [exn_str e]: [str(e)]. *)
Record Services := mkServices {
  tiktoken_get_encoding : Res (pystr -> Res Z);
  messages_get : pystr -> Res Message;
  messages_list : Z -> pystr -> Res (list MsgRef);
  attachments_get : pystr -> pystr -> Res (option pystr);
  pdf_pages : bytes -> Res (list (option pystr));
  docx_paragraphs : bytes -> Res (list pystr);
  files_list : pystr -> Z -> pystr -> Res (list DriveFile.t);
  exn_str : exn -> pystr
}.

(* ================================================================== *)
(** * Reading one attachment *)
(* ================================================================== *)

Section ReadAttachment.

Variable svc : Services.

Definition MAX_TOKENS : Z := 30000.

(** [filename.endswith((".pdf", ".docx", ".txt"))]. *)
Definition supported (filename : pystr) : bool :=
  endswith filename (str ".pdf") || endswith filename (str ".docx")
  || endswith filename (str ".txt").

(** The loop of the branch [if not attachment_id]: the pair
    [(matched_part, attachment_id)] it leaves, if any. *)
Fixpoint auto_select (parts : list Payload)
  : Res (option (Payload * pystr)) :=
  match parts with
  | [] => Ret None
  | part :: rest =>
      let filename := lower (get_or (filename part) []) in
      if supported filename
         && truthy (attachmentId (get_or (body part) empty_body))
      then
        b <- getitem "body" (body part) ;;
        attachment_id <- getitem "attachmentId" (attachmentId b) ;;
        Ret (Some (part, attachment_id))
      else auto_select rest
  end.

(** The loop of the [else] branch. *)
Fixpoint select_by_id (parts : list Payload) (attachment_id : pystr)
  : option Payload :=
  match parts with
  | [] => None
  | part :: rest =>
      if opt_str_eqb (attachmentId (get_or (body part) empty_body))
                     attachment_id
      then Some part
      else select_by_id rest attachment_id
  end.

(** The text of the attachment [data] named [filename]; [None] stands
    for the early return on an unsupported file type. *)
Definition extract_text (filename : pystr) (data : bytes)
  : Res (option pystr) :=
  if endswith filename (str ".pdf") then
    pages <- pdf_pages svc data ;;
    Ret (Some (List.concat (map (fun t => get_or t []) pages)))
  else if endswith filename (str ".docx") then
    paragraphs <- docx_paragraphs svc data ;;
    Ret (Some (List.concat (map (fun t => t ++ [10]) paragraphs)))
  else if endswith filename (str ".txt") then
    Ret (Some (decode_utf8_ignore data))
  else Ret None.

(** From the download on. *)
Definition read_matched (encoding : pystr -> Res Z) (message_id : pystr)
    (matched_part : Payload) (attachment_id : pystr) : Res pystr :=
  let filename := lower (get_or (filename matched_part) (str "attachment")) in
  attachment <- attachments_get svc message_id attachment_id ;;
  encoded <- getitem "data" attachment ;;
  data <- urlsafe_b64decode encoded ;;
  extracted <- extract_text filename data ;;
  match extracted with
  | None => Ret (str "Unsupported file type: " ++ filename)
  | Some extracted_text =>
      if negb (nonempty (strip extracted_text)) then
        Ret (str "Attachment was processed but no extractable text was found.")
      else
        token_count <- encoding extracted_text ;;
        if MAX_TOKENS <? token_count then
          Ret (str "File '" ++ filename ++ str "' is too large ("
               ++ dec token_count ++ str " tokens). Maximum allowed is "
               ++ dec MAX_TOKENS
               ++ str " tokens. The file will not be loaded.")
        else Ret (strip extracted_text)
  end.

(** The body of the [try]. *)
Definition read_attachment_body (message_id : pystr)
    (attachment_id : option pystr) : Res pystr :=
  encoding <- tiktoken_get_encoding svc ;;
  message <- messages_get svc message_id ;;
  let parts := get_or (parts (get_or (payload message) empty_payload)) [] in
  if negb (truthy attachment_id) then
    selected <- auto_select parts ;;
    match selected with
    | None =>
        Ret (str "No supported attachment (.pdf, .docx, .txt) found in this message.")
    | Some (matched_part, attachment_id) =>
        read_matched encoding message_id matched_part attachment_id
    end
  else
    let attachment_id := get_or attachment_id [] in
    match select_by_id parts attachment_id with
    | None =>
        Ret (str "No attachment with ID " ++ attachment_id
             ++ str " found in message " ++ message_id ++ str ".")
    | Some matched_part =>
        read_matched encoding message_id matched_part attachment_id
    end.

Definition gmail_read_attchment_content (message_id : pystr)
    (attachment_id : option pystr) : pystr :=
  catch (read_attachment_body message_id attachment_id)
        (fun e => str "Error extracting attachment text: " ++ exn_str svc e).

End ReadAttachment.

(* ================================================================== *)
(** * Searching messages with attachments *)
(* ================================================================== *)

(** [s.split(c)[0]]. *)
Fixpoint before_char (c : Z) (s : pystr) : pystr :=
  match s with
  | [] => []
  | x :: s' => if x =? c then [] else x :: before_char c s'
  end.

(** What follows the first [c] in [s]; [[]] when there is none. *)
Fixpoint after_char (c : Z) (s : pystr) : pystr :=
  match s with
  | [] => []
  | x :: s' => if x =? c then s' else after_char c s'
  end.

(** [sep.join(l)]. *)
Fixpoint join (sep : pystr) (l : list pystr) : pystr :=
  match l with
  | [] => []
  | [x] => x
  | x :: rest => x ++ sep ++ join sep rest
  end.

(** A [dict] with [str] keys: the latest binding of a key comes first. *)
Definition dict := list (pystr * pystr).

Definition dict_set (k v : pystr) (d : dict) : dict := (k, v) :: d.

Definition dict_find (d : dict) (k : pystr) : option pystr :=
  option_map snd (find (fun kv => str_eqb (fst kv) k) d).

Definition get_export_mime_type (google_mime_type : pystr) : pystr :=
  get_or
    (dict_find
       [ (str "application/vnd.google-apps.document", str "text/markdown");
         (str "application/vnd.google-apps.spreadsheet", str "text/csv");
         (str "application/vnd.google-apps.presentation", str "text/plain");
         (str "application/vnd.google-apps.drawing", str "image/png") ]
       google_mime_type)
    (str "text/plain").

Definition ATTACHMENT_MIME_TYPES : dict :=
  map (fun kv => (str (fst kv), str (snd kv)))
    [ ("pdf", "application/pdf");
      ("doc", "application/msword");
      ("docx", "application/vnd.openxmlformats-officedocument.wordprocessingml.document");
      ("rtf", "application/rtf");
      ("odt", "application/vnd.oasis.opendocument.text");
      ("xls", "application/vnd.ms-excel");
      ("xlsx", "application/vnd.openxmlformats-officedocument.spreadsheetml.sheet");
      ("ods", "application/vnd.oasis.opendocument.spreadsheet");
      ("csv", "text/csv");
      ("ppt", "application/vnd.ms-powerpoint");
      ("pptx", "application/vnd.openxmlformats-officedocument.presentationml.presentation");
      ("odp", "application/vnd.oasis.opendocument.presentation");
      ("txt", "text/plain");
      ("md", "text/markdown");
      ("json", "application/json");
      ("xml", "application/xml");
      ("html", "text/html");
      ("css", "text/css");
      ("js", "text/javascript");
      ("jpg", "image/jpeg");
      ("jpeg", "image/jpeg");
      ("png", "image/png");
      ("gif", "image/gif");
      ("bmp", "image/bmp");
      ("tiff", "image/tiff");
      ("tif", "image/tiff");
      ("svg", "image/svg+xml");
      ("webp", "image/webp");
      ("zip", "application/zip");
      ("rar", "application/x-rar-compressed");
      ("7z", "application/x-7z-compressed");
      ("tar", "application/x-tar");
      ("gz", "application/gzip");
      ("mp3", "audio/mpeg");
      ("wav", "audio/wav");
      ("flac", "audio/flac");
      ("aac", "audio/aac");
      ("ogg", "audio/ogg");
      ("mp4", "video/mp4");
      ("avi", "video/x-msvideo");
      ("mov", "video/quicktime");
      ("wmv", "video/x-ms-wmv");
      ("flv", "video/x-flv");
      ("mkv", "video/x-matroska");
      ("gdoc", "application/vnd.google-apps.document");
      ("gsheet", "application/vnd.google-apps.spreadsheet");
      ("gslides", "application/vnd.google-apps.presentation");
      ("gdraw", "application/vnd.google-apps.drawing");
      ("gform", "application/vnd.google-apps.form");
      ("gsite", "application/vnd.google-apps.site") ]%string.

(** The [attachment_info] dictionary. *)
Module Found.
Record t := mk {
  filename : pystr;
  mime_type : pystr;
  size_bytes : Z;
  attachment_id : pystr;
  is_google_workspace : bool;
  export_mime_type : option pystr
}.
End Found.

(** The [message_data] dictionary. *)
Module MessageData.
Record t := mk {
  message_id : pystr;
  subject : pystr;
  from : pystr;
  from_full : pystr;
  to : pystr;
  date : pystr;
  snippet : pystr;
  attachments : list Found.t;
  attachment_count : Z;
  total_size_bytes : Z
}.
End MessageData.

(** The object handed to [json.dumps]; of the error objects only the
    ['error'] text is kept. *)
Inductive find_result :=
| FindSuccess (count : Z) (search_query : pystr)
              (messages : list MessageData.t)
| FindUnsupported (error : pystr) (supported_types : list pystr)
| FindHttpError (error : pystr)
| FindUnexpected (error : pystr).

(** [x and x.strip()] as a condition. *)
Definition given (x : option pystr) : bool :=
  truthy x && nonempty (strip (get_or x [])).

Definition stripped (x : option pystr) : pystr := strip (get_or x []).

Section FindMessages.

Variable svc : Services.

Variable max_results : Z.
Variables query sender subject_contains date_after date_before
          attachment_type mime_type : option pystr.

(** The filter computed first; [Raise]-free, [inr] is the early
    return on an attachment type outside the table. *)
Definition filter_mime_type : option pystr + find_result :=
  if given mime_type then inl (Some (stripped mime_type))
  else if given attachment_type then
    let ext := lower (stripped attachment_type) in
    match dict_find ATTACHMENT_MIME_TYPES ext with
    | Some m => inl (Some m)
    | None =>
        inr (FindUnsupported
               (str "Unsupported attachment type: "
                ++ get_or attachment_type [])
               (map fst ATTACHMENT_MIME_TYPES))
    end
  else inl None.

Definition search_query : pystr :=
  join (str " ")
    ([str "has:attachment"]
     ++ (if given query then [stripped query] else [])
     ++ (if given sender
         then [str "from:(" ++ stripped sender ++ str ")"] else [])
     ++ (if given subject_contains
         then [str "subject:(" ++ stripped subject_contains ++ str ")"]
         else [])
     ++ (if given date_after
         then [str "after:" ++ stripped date_after] else [])
     ++ (if given date_before
         then [str "before:" ++ stripped date_before] else [])).

Section PerMessage.

Variable filter : option pystr.

(** [extract_attachments_recursive], with [found_attachments]
    threaded through. *)
Fixpoint extract_attachments_recursive (payload : Payload)
    (found_attachments : list Found.t) : list Found.t :=
  match payload with
  | mkPayload mimeType' filename' _ body' parts' =>
      match parts' with
      | Some ps =>
          (fix each (ps : list Payload) (acc : list Found.t)
             : list Found.t :=
             match ps with
             | [] => acc
             | part :: rest =>
                 each rest (extract_attachments_recursive part acc)
             end) ps found_attachments
      | None =>
          let filename := strip (get_or filename' []) in
          if nonempty filename then
            let actual_mime := get_or mimeType' [] in
            if truthy filter && negb (opt_str_eqb filter actual_mime)
            then found_attachments
            else
              let b := get_or body' empty_body in
              let workspace :=
                startswith actual_mime (str "application/vnd.google-apps") in
              found_attachments
                ++ [Found.mk filename actual_mime
                      (get_or (size b) 0)
                      (get_or (attachmentId b) [])
                      workspace
                      (if workspace
                       then Some (get_export_mime_type actual_mime)
                       else None)]
          else found_attachments
      end
  end.

(** [headers_dict] after the loop over the headers. *)
Fixpoint headers_loop (hs : list Header) (headers_dict : dict)
  : Res dict :=
  match hs with
  | [] => Ret headers_dict
  | header :: rest =>
      v <- getitem "value" (value header) ;;
      k <- getitem "name" (name header) ;;
      headers_loop rest (dict_set k v headers_dict)
  end.

Definition sender_name (from_field : pystr) : pystr :=
  if contains_char 60 from_field && contains_char 62 from_field then
    let name_part := strip_quotes (strip (before_char 60 from_field)) in
    let email_part :=
      before_char 62 (before_char 60 (after_char 60 from_field)) in
    if nonempty name_part then name_part else email_part
  else from_field.

(** The body of the inner [try] for one [msg_ref]: [Ret None] is the
    [continue] on a message without matching attachment. *)
Definition process_message (msg_ref : MsgRef)
  : Res (option MessageData.t) :=
  msg_id <- getitem "id" (id msg_ref) ;;
  full_message <- messages_get svc msg_id ;;
  let root := get_or (payload full_message) empty_payload in
  headers_dict <- headers_loop (get_or (headers root) []) [] ;;
  let from_field :=
    get_or (dict_find headers_dict (str "From")) (str "Unknown Sender") in
  let found_attachments := extract_attachments_recursive root [] in
  if negb (match found_attachments with [] => false | _ => true end)
  then Ret None
  else
    Ret (Some
      (MessageData.mk msg_id
         (get_or (dict_find headers_dict (str "Subject")) (str "No Subject"))
         (sender_name from_field)
         from_field
         (get_or (dict_find headers_dict (str "To")) [])
         (get_or (dict_find headers_dict (str "Date")) [])
         (get_or (snippet full_message) [])
         found_attachments
         (Z.of_nat (List.length found_attachments))
         (fold_left Z.add (map Found.size_bytes found_attachments) 0))).

(** The loop over [message_list], with [valid_messages] threaded
    through; the first test is the [break]. *)
Fixpoint message_loop (message_list : list MsgRef)
    (valid_messages : list MessageData.t) : list MessageData.t :=
  match message_list with
  | [] => valid_messages
  | msg_ref :: rest =>
      if max_results <=? Z.of_nat (List.length valid_messages)
      then valid_messages
      else
        match process_message msg_ref with
        | Ret (Some message_data) =>
            message_loop rest (valid_messages ++ [message_data])
        | Ret None => message_loop rest valid_messages
        | Raise _ => message_loop rest valid_messages
        end
  end.

End PerMessage.

Definition gmail_find_messages_with_attachments : find_result :=
  match filter_mime_type with
  | inr early => early
  | inl filter =>
      match messages_list svc (max_results * 5) search_query with
      | Raise (HttpError m) =>
          FindHttpError (str "Gmail API error: " ++ exn_str svc (HttpError m))
      | Raise e => FindUnexpected (str "Unexpected error: " ++ exn_str svc e)
      | Ret [] => FindSuccess 0 search_query []
      | Ret message_list =>
          let valid_messages := message_loop filter message_list [] in
          FindSuccess (Z.of_nat (List.length valid_messages)) search_query
                      valid_messages
      end
  end.

End FindMessages.

(* ================================================================== *)
(** * Listing Drive files *)
(* ================================================================== *)

Definition file_type_queries : dict :=
  map (fun kv => (str (fst kv), str (snd kv)))
    [ ("folder", "mimeType='application/vnd.google-apps.folder'");
      ("document", "mimeType='application/vnd.google-apps.document'");
      ("spreadsheet", "mimeType='application/vnd.google-apps.spreadsheet'");
      ("presentation", "mimeType='application/vnd.google-apps.presentation'");
      ("pdf", "mimeType='application/pdf'");
      ("image", "mimeType contains 'image/'");
      ("video", "mimeType contains 'video/'");
      ("audio", "mimeType contains 'audio/'");
      ("text", "mimeType contains 'text/'") ]%string.

(** One line of the response: a folder or a file. *)
Record drive_line := mkLine {
  line_name : pystr;
  line_id : pystr;
  line_mime : pystr;
  line_size_info : option pystr;
  line_modified : pystr;
  line_shared : bool
}.

(** What the response says; its text is a rendering of this value: the
    two early returns, the message for an empty listing, the error
    message, or the header, one line for each folder, one line for each
    file, and the summary. *)
Inductive drive_response :=
| DriveUnsupportedFilter (file_type : pystr)
| DriveNoFiles
| DriveListing (shown : Z) (folders files : list drive_line)
               (total_size : option pystr)
| DriveError (msg : pystr).

Section DriveListAll.

Variable svc : Services.

Definition folder_mime : pystr := str "application/vnd.google-apps.folder".

(** The loop that separates folders from files. *)
Fixpoint separate (items : list DriveFile.t)
  : Res (list DriveFile.t * list DriveFile.t) :=
  match items with
  | [] => Ret ([], [])
  | item :: rest =>
      m <- getitem "mimeType" (DriveFile.mimeType item) ;;
      fr <- separate rest ;;
      if str_eqb m folder_mime
      then Ret (item :: fst fr, snd fr)
      else Ret (fst fr, item :: snd fr)
  end.

Definition modified_date (f : DriveFile.t) : pystr :=
  firstn 10 (get_or (DriveFile.modifiedTime f) (str "Unknown")).

Definition folder_line (folder : DriveFile.t) : Res drive_line :=
  n <- getitem "name" (DriveFile.name folder) ;;
  i <- getitem "id" (DriveFile.id folder) ;;
  Ret (mkLine n i folder_mime None (modified_date folder)
         (get_or (DriveFile.shared folder) false)).

Definition file_line (file : DriveFile.t) : Res drive_line :=
  size_info <-
    (if truthy (DriveFile.size file) then
       s <- call_global "format_file_size"
              (get_or (DriveFile.size file) (str "N/A")) ;;
       Ret (Some s)
     else Ret None) ;;
  m <- getitem "mimeType" (DriveFile.mimeType file) ;;
  n <- getitem "name" (DriveFile.name file) ;;
  i <- getitem "id" (DriveFile.id file) ;;
  Ret (mkLine n i m size_info (modified_date file)
         (get_or (DriveFile.shared file) false)).

Fixpoint each {A B} (f : A -> Res B) (l : list A) : Res (list B) :=
  match l with
  | [] => Ret []
  | x :: rest => y <- f x ;; ys <- each f rest ;; Ret (y :: ys)
  end.

(** [total_size] and [size_count] after the summary loop. *)
Fixpoint size_totals (items : list DriveFile.t) : Res (Z * Z) :=
  match items with
  | [] => Ret (0, 0)
  | item :: rest =>
      let sz := get_or (DriveFile.size item) [] in
      if truthy (DriveFile.size item) && isdigit sz then
        n <- py_int sz ;;
        tc <- size_totals rest ;;
        Ret (n + fst tc, 1 + snd tc)
      else size_totals rest
  end.

(** The body of the [try], after the filter has been accepted. *)
Definition list_all_body (query : pystr) (max_results : Z)
    (order_by : pystr) : Res drive_response :=
  let max_results := Z.min max_results 1000 in
  items <- files_list svc query max_results order_by ;;
  match items with
  | [] => Ret DriveNoFiles
  | _ =>
      ff <- separate items ;;
      folders <- each folder_line (fst ff) ;;
      files <- each file_line (snd ff) ;;
      tc <- size_totals items ;;
      total <-
        (if 0 <? snd tc then
           s <- call_global "format_file_size" (dec (fst tc)) ;;
           Ret (Some s)
         else Ret None) ;;
      Ret (DriveListing (Z.of_nat (List.length items)) folders files total)
  end.

Definition drive_list_all_files (max_results : Z)
    (file_type : option pystr) (order_by : pystr) : drive_response :=
  let base := str "trashed=false" in
  let checked :=
    if truthy file_type then
      match dict_find file_type_queries (lower (get_or file_type [])) with
      | Some q => inl (base ++ str " and " ++ q)
      | None => inr (DriveUnsupportedFilter (get_or file_type []))
      end
    else inl base in
  match checked with
  | inr early => early
  | inl query =>
      catch (list_all_body query max_results order_by)
            (fun e => DriveError (str "Error listing all files: "
                                  ++ exn_str svc e))
  end.

End DriveListAll.

(** The items a response lists. *)
Definition drive_items (r : drive_response) : list drive_line :=
  match r with
  | DriveListing _ folders files _ => folders ++ files
  | _ => []
  end.

(** The messages a search result holds. *)
Definition found_messages (r : find_result) : list MessageData.t :=
  match r with
  | FindSuccess _ _ messages => messages
  | _ => []
  end.

(* ================================================================== *)
(** * Vocabulary of the statements *)
(* ================================================================== *)

(** ** Walking a payload *)

Definition children (p : Payload) : list Payload := get_or (parts p) [].

(** The nodes of a tree in depth-first pre-order: a node, then the
    subtrees of its children from left to right. *)
Fixpoint preorder (p : Payload) : list Payload :=
  match p with
  | mkPayload _ _ _ _ parts' =>
      p :: match parts' with
           | None => []
           | Some ps => flat_map preorder ps
           end
  end.

(** The nodes strictly below the root, in the same order. *)
Definition below (p : Payload) : list Payload :=
  flat_map preorder (children p).

Definition body_data (n : Payload) : option pystr :=
  data (get_or (body n) empty_body).

Definition body_attachment_id (n : Payload) : option pystr :=
  attachmentId (get_or (body n) empty_body).

(** The invariant of the data model: only leaves carry inline body data,
    that is, a node with body data has no child. *)
Definition data_on_leaf (n : Payload) : bool :=
  negb (truthy (body_data n))
  || match children n with [] => true | _ => false end.

Definition leaf_data (p : Payload) : bool :=
  forallb data_on_leaf (preorder p).

(** ** What a node contributes to body extraction *)

(** The non-empty text node [n] holds for the content type [mime_type]:
    its type is [mime_type], it has body data, and the data decodes to
    a non-empty string. *)
Definition yields (mime_type : pystr) (n : Payload) : option pystr :=
  if opt_str_eqb (mimeType n) mime_type && truthy (body_data n) then
    match decode_data (get_or (body_data n) []) with
    | Ret (c :: s) => Some (c :: s)
    | _ => None
    end
  else None.

Fixpoint first_some {A B} (f : A -> option B) (l : list A) : option B :=
  match l with
  | [] => None
  | x :: rest =>
      match f x with Some y => Some y | None => first_some f rest end
  end.

(** The text of the first node in pre-order that holds one. *)
Definition first_text (mime_type : pystr) (p : Payload) : option pystr :=
  first_some (yields mime_type) (preorder p).

(** A node whose body data does not decode. *)
Definition malformed (n : Payload) : bool :=
  truthy (body_data n)
  && match decode_data (get_or (body_data n) []) with
     | Raise _ => true
     | Ret _ => false
     end.

(** The tree without the body data of its malformed nodes; everything
    else, and the shape, is kept. *)
Fixpoint without_malformed (p : Payload) : Payload :=
  match p with
  | mkPayload mt fn hd bd ps =>
      mkPayload mt fn hd
        (if malformed p
         then option_map
                (fun b => mkBody None (attachmentId b) (size b)) bd
         else bd)
        (option_map (map without_malformed) ps)
  end.

(** ** What a node contributes to the attachment list *)

(** The test of the specification: a non-empty filename and a body
    reference, inline data or an attachment id. *)
Definition spec_attachment (n : Payload) : bool :=
  truthy (filename n)
  && (truthy (body_data n) || truthy (body_attachment_id n)).

(** The test of [process_parts]: no ['parts'] key, a non-empty
    filename, a non-empty attachment id. *)
Definition listed (n : Payload) : bool :=
  match parts n with
  | Some _ => false
  | None => truthy (filename n) && truthy (body_attachment_id n)
  end.

(** The keys [process_parts] reads with [part[...]]: a named leaf has a
    body, and a listed one a content type. *)
Definition keys_present (n : Payload) : bool :=
  match parts n with
  | Some _ => true
  | None =>
      if truthy (filename n) then
        match body n with
        | None => false
        | Some _ =>
            if truthy (body_attachment_id n)
            then match mimeType n with Some _ => true | None => false end
            else true
        end
      else true
  end.

(** The record appended for a listed node. *)
Definition record_of (n : Payload) : Att.t :=
  Att.mk (get_or (filename n) []) (get_or (mimeType n) [])
         (SecondDef.format_file_size
            (dec (get_or (size (get_or (body n) empty_body)) 0)))
         (get_or (body_attachment_id n) []).

(** The test of the automatic selection on one part. *)
Definition selectable (n : Payload) : bool :=
  supported (lower (get_or (filename n) []))
  && truthy (body_attachment_id n).

(** ** A reference for [html.unescape]

    [html.unescape] on the five references [&nbsp;] [&amp;] [&lt;]
    [&gt;] [&quot;] written with their semicolon; every other code
    point, and so every string without an ampersand, is copied. *)

Definition basic_entities : list (pystr * Z) :=
  [ (str "nbsp;", 160); (str "amp;", 38); (str "lt;", 60);
    (str "gt;", 62); (str "quot;", 34) ].

Fixpoint unescape_from (skip : nat) (s : pystr) : pystr :=
  match s with
  | [] => []
  | c :: s' =>
      match skip with
      | S k => unescape_from k s'
      | O =>
          if c =? 38 then
            match find (fun e => startswith s' (fst e)) basic_entities with
            | Some e => snd e :: unescape_from (List.length (fst e)) s'
            | None => c :: unescape_from 0 s'
            end
          else c :: unescape_from 0 s'
      end
  end.

Definition unescape_basic (s : pystr) : pystr := unescape_from 0 s.

(** ** Loops, selections and messages named in the statements *)

(** ** Tags left in a text *)

(** Is some [<] followed by a [>] on its line? *)
Fixpoint has_tag (s : pystr) : bool :=
  match s with
  | [] => false
  | c :: s' => ((c =? 60) && closes s') || has_tag s'
  end.

(** The loop of [extract_text_from_payload] over a list of parts. *)
Definition for_parts (mime_type : pystr)
  : list Payload -> Res (option pystr) :=
  fix for_parts (ps : list Payload) : Res (option pystr) :=
    match ps with
    | [] => Ret None
    | part :: rest =>
        result <- extract_text_from_payload part mime_type ;;
        if truthy result then Ret result else for_parts rest
    end.

(** What a caller that tests the result for truth sees of it. *)
Definition content (r : option pystr) : option pystr :=
  if truthy r then r else None.

(** The contract of the Drive listing: a page holds at most [pageSize]
    files. *)
Definition honours_page_size (svc : Services) : Prop :=
  forall q n o items,
    files_list svc q n o = Ret items ->
    Z.of_nat (List.length items) <= Z.max 0 n.

(** The top-level parts of a message. *)
Definition message_parts (message : Message) : list Payload :=
  get_or (parts (get_or (payload message) empty_payload)) [].

(** The part the handler settles on, with the attachment id it goes on
    with. *)
Definition selected_part (ps : list Payload) (attachment_id : option pystr)
  : option (Payload * pystr) :=
  if truthy attachment_id then
    option_map (fun n => (n, get_or attachment_id []))
               (select_by_id ps (get_or attachment_id []))
  else
    option_map (fun n => (n, get_or (body_attachment_id n) []))
               (find selectable ps).

(** The message for a text over the limit. *)
Definition too_large (filename : pystr) (token_count : Z) : pystr :=
  str "File '" ++ filename ++ str "' is too large (" ++ dec token_count
  ++ str " tokens). Maximum allowed is " ++ dec MAX_TOKENS
  ++ str " tokens. The file will not be loaded.".

(* ================================================================== *)
(** * Sample messages and services *)
(* ================================================================== *)

(** A part with an empty filename, and a part with a filename. *)
Definition leaf (mime : string) (b : Body) : Payload :=
  mkPayload (Some (str mime)) (Some []) None (Some b) None.

Definition named (mime fname : string) (b : Body) : Payload :=
  mkPayload (Some (str mime)) (Some (str fname)) None (Some b) None.

Definition multipart (mime : string) (ps : list Payload) : Payload :=
  mkPayload (Some (str mime)) (Some []) None (Some (mkBody None None (Some 0)))
            (Some ps).

Definition inline (d : string) (n : Z) : Body :=
  mkBody (Some (str d)) None (Some n).

Definition remote (aid : string) (n : Z) : Body :=
  mkBody None (Some (str aid)) (Some n).

(** The scenario of the specification: a plain-text part that reads
    Hello and a PDF attachment. *)
Definition hello_with_pdf : Payload :=
  multipart "multipart/mixed"
    [ leaf "text/plain" (inline "SGVsbG8=" 5);
      named "application/pdf" "r.pdf" (remote "att1" 2048) ].

(** A named part whose content is inline. *)
Definition inline_named : Payload :=
  multipart "multipart/mixed"
    [ named "text/plain" "a.txt" (inline "SGVsbG8=" 5) ].

(** A signed message: the PDF sits one level below the top-level parts,
    next to the text, and the signature is a top-level part. *)
Definition signed_mail : Payload :=
  multipart "multipart/signed"
    [ multipart "multipart/mixed"
        [ leaf "text/plain" (inline "SGVsbG8=" 5);
          named "application/pdf" "r.pdf" (remote "att1" 2048) ];
      named "application/pkcs7-signature" "smime.p7s"
           (remote "att2" 3000) ].

(** A plain-text part whose only octet, 0xFF, is not UTF-8: it decodes
    to the empty string. *)
Definition empty_plain : Payload :=
  multipart "multipart/mixed"
    [ leaf "text/plain" (inline "/w==" 1) ].

(** No text part at all. *)
Definition no_text : Payload :=
  multipart "multipart/mixed"
    [ named "image/png" "image.png" (remote "att1" 10) ].

(** The same empty plain-text part, next to an HTML part that reads
    x in bold. *)
Definition empty_plain_with_html : Payload :=
  multipart "multipart/alternative"
    [ leaf "text/plain" (inline "/w==" 1);
      leaf "text/html" (inline "PGI-eDwvYj4=" 8) ].

(** A plain-text part that reads Hello next to an HTML part that reads
    x in bold. *)
Definition plain_and_html : Payload :=
  multipart "multipart/alternative"
    [ leaf "text/plain" (inline "SGVsbG8=" 5);
      leaf "text/html" (inline "PGI-eDwvYj4=" 8) ].

(** A plain-text part with a padding error, before a sound one. *)
Definition bad_then_hello : Payload :=
  multipart "multipart/mixed"
    [ leaf "text/plain" (inline "SGVsbG8" 5);
      leaf "text/plain" (inline "SGVsbG8=" 5) ].

(** An attachment without the ['mimeType'] key. *)
Definition untyped_attachment : Payload :=
  multipart "multipart/mixed"
    [ mkPayload None (Some (str "r.pdf")) None (Some (remote "att1" 2048))
                None ].

(** Services that know one message and one attachment; [count] stands
    for the tokenizer. *)
Definition one_message (root : Payload) (attachment : option pystr)
    (count : pystr -> Z) (listing : Z -> list DriveFile.t) : Services :=
  mkServices
    (Ret (fun text => Ret (count text)))
    (fun _ => Ret (mkMessage (Some root) None))
    (fun n _ => Ret (map (fun _ => mkMsgRef (Some (str "m1")))
                         (seq 0 (Z.to_nat n))))
    (fun _ _ => Ret attachment)
    (fun _ => Raise (LibraryError (str "not a PDF")))
    (fun _ => Raise (LibraryError (str "not a DOCX")))
    (fun _ n _ => Ret (listing n))
    (fun _ => str "error").

(** A tokenizer none of whose tokens spans more than 128 code points,
    at its most economical. *)
Definition count_by_128 (text : pystr) : Z :=
  (Z.of_nat (List.length text) + 127) / 128.

(** [k] groups of three spaces, in base 64. *)
Definition spaces_b64 (k : nat) : pystr :=
  List.concat (repeat (str "ICAg") k).

(** A message with one text attachment that holds [3 * k] spaces. *)
Definition blank_txt : Payload :=
  multipart "multipart/mixed"
    [ named "text/plain" "blank.txt" (remote "att1" 3840129) ].

Definition blank_services_of (k : nat) : Services :=
  one_message blank_txt (Some (spaces_b64 k)) count_by_128 (fun _ => []).

Definition blank_services : Services :=
  blank_services_of (Z.to_nat 1280043).

(** A text attachment that reads Hello, and a tokenizer that counts
    40000 tokens in anything. *)
Definition hello_txt : Payload :=
  multipart "multipart/mixed"
    [ named "text/plain" "Notes.TXT" (remote "att1" 5) ].

Definition greedy_services : Services :=
  one_message hello_txt (Some (str "SGVsbG8=")) (fun _ => 40000)
              (fun _ => []).

(** A Drive that holds [k] files and returns the first [pageSize]. *)
Definition drive_file (i : nat) : DriveFile.t :=
  DriveFile.mk (Some (dec (Z.of_nat i))) (Some (str "file"))
               (Some (str "text/plain")) (Some (str "2048"))
               (Some (str "2024-01-01T00:00:00Z")) None.

Definition paged_services (k : nat) : Services :=
  one_message hello_with_pdf None (fun _ => 0)
              (fun n => firstn (Z.to_nat n) (map drive_file (seq 0 k))).

(* ================================================================== *)
(** * Other helpers and handlers of the module *)
(* ================================================================== *)

Definition nl : pystr := [10].

(** [s.replace(c, rep)] for a pattern of one code point. *)
Definition replace_char (c : Z) (rep s : pystr) : pystr :=
  flat_map (fun x => if x =? c then rep else [x]) s.

(** ** [get_file_type_emoji] *)

Definition emoji_map : dict :=
  [ (str "application/vnd.google-apps.folder", [128193]);
    (str "application/vnd.google-apps.document", [128221]);
    (str "application/vnd.google-apps.spreadsheet", [128202]);
    (str "application/vnd.google-apps.presentation", [128253; 65039]);
    (str "application/vnd.google-apps.drawing", [127912]);
    (str "application/pdf", [128196]);
    (str "image/", [128444; 65039]);
    (str "video/", [127909]);
    (str "audio/", [127925]);
    (str "text/", [128196]);
    (str "application/zip", [128230]);
    (str "application/json", [128295]) ].

Definition get_file_type_emoji (mime_type : pystr) : pystr :=
  match dict_find emoji_map mime_type with
  | Some emoji => emoji
  | None =>
      match find (fun kv => endswith (fst kv) (str "/")
                            && startswith mime_type (fst kv)) emoji_map with
      | Some kv => snd kv
      | None => [128196]
      end
  end.

(** ** [drive_search]: the query sent to the service *)

(** [query.replace(backslash, two backslashes).replace(quote,
    backslash quote)]. *)
Definition escaped_query (query : pystr) : pystr :=
  replace_char 39 [92; 39] (replace_char 92 [92; 92] query).

Definition formatted_query (query : pystr) : pystr :=
  str "fullText contains '" ++ escaped_query query ++ str "'".

(** ** Headers and sender names *)

(** [next((h['value'] for h in headers if h['name'] == wanted),
    default)]. *)
Fixpoint header_value (hs : list Header) (wanted default : pystr)
  : Res pystr :=
  match hs with
  | [] => Ret default
  | h :: rest =>
      n <- getitem "name" (name h) ;;
      if str_eqb n wanted then getitem "value" (value h)
      else header_value rest wanted default
  end.

(** The sender as the listing, reading and summary tools show it. *)
Definition sender_clean (from_addr : pystr) : pystr :=
  if contains_char 60 from_addr
  then strip_quotes (strip (before_char 60 from_addr))
  else from_addr.

(** ** [gmail_list_messages] *)

Section ListMessages.

(** The list call with the parameters [params], as its ['messages']
    list ([[]] when the key is absent), where [params] has the key ['q']
    when the second argument is given; and the get call in metadata
    format. *)
Variable list_call : Z -> option pystr -> Res (list MsgRef).
Variable get_metadata : pystr -> Res Message.
Variable exn_text : exn -> pystr.

(** The body of the inner [try]. *)
Definition list_entry_body (msg : MsgRef) : Res pystr :=
  msg_id <- getitem "id" (id msg) ;;
  full_msg <- get_metadata msg_id ;;
  let hs := get_or (headers (get_or (payload full_msg) empty_payload)) [] in
  subject <- header_value hs (str "Subject") (str "No Subject") ;;
  from_addr <- header_value hs (str "From") (str "Unknown Sender") ;;
  to_addr <- header_value hs (str "To") (str "Unknown Recipient") ;;
  date <- header_value hs (str "Date") (str "Unknown Date") ;;
  Ret (str "ID: " ++ msg_id ++ nl
       ++ str "Subject: " ++ subject ++ nl
       ++ str "From: " ++ sender_clean from_addr ++ nl
       ++ str "To: " ++ to_addr ++ nl
       ++ str "Date: " ++ date ++ nl).

(** One turn of the loop: the entry appended to [message_list]; the
    handler reads [msg['id']] again. *)
Definition list_entry (msg : MsgRef) : Res pystr :=
  match list_entry_body msg with
  | Ret entry => Ret entry
  | Raise e =>
      msg_id <- getitem "id" (id msg) ;;
      Ret (str "ID: " ++ msg_id ++ nl
           ++ str "Error: Could not fetch details - " ++ exn_text e ++ nl)
  end.

(** [Raise] is an exception that leaves the tool: the outer handler
    takes [HttpError] only. *)
Definition gmail_list_messages (max_results : Z) (query : option pystr)
  : Res pystr :=
  match list_call max_results (if truthy query then query else None) with
  | Raise (HttpError m) =>
      Ret (str "Gmail API Error: " ++ exn_text (HttpError m))
  | Raise e => Raise e
  | Ret [] => Ret (str "No messages found.")
  | Ret messages =>
      match each list_entry messages with
      | Ret message_list =>
          Ret (nl ++ repeat 61 50 ++ join nl message_list)
      | Raise (HttpError m) =>
          Ret (str "Gmail API Error: " ++ exn_text (HttpError m))
      | Raise e => Raise e
      end
  end.

End ListMessages.

(** ** [gmail_read_message_without_attachments] *)

Section ReadMessage.

Variable unescape : pystr -> pystr.
Variable svc : Services.
(** [users().getProfile(userId='me').execute().get('emailAddress')]. *)
Variable get_profile : Res (option pystr).

(** One line of the attachment summary, numbered from [i]. *)
Fixpoint attachment_lines (i : Z) (attachments : list Att.t) : pystr :=
  match attachments with
  | [] => []
  | att :: rest =>
      dec i ++ str ". " ++ Att.filename att ++ str " (" ++ Att.size att
      ++ str ", " ++ Att.mime_type att ++ str ")" ++ nl
      ++ attachment_lines (i + 1) rest
  end.

(** The response before the attachment summary. *)
Definition message_details (message_id subject sender recipient date
                            body : pystr) : pystr :=
  str "EMAIL DETAILS:" ++ nl
  ++ str "Message ID: " ++ message_id ++ nl
  ++ str "Subject: " ++ subject ++ nl
  ++ str "From: " ++ sender_clean sender ++ nl
  ++ str "To: " ++ recipient ++ nl
  ++ str "Date: " ++ date ++ nl ++ nl
  ++ str "BODY:" ++ nl ++ body ++ nl.

(** The outer [try] after the profile check. *)
Definition read_message_body (message_id : pystr)
    (include_attachments_info : bool) : Res pystr :=
  message <- messages_get svc message_id ;;
  let root := get_or (payload message) empty_payload in
  let hs := get_or (headers root) [] in
  subject <- header_value hs (str "Subject") (str "No Subject") ;;
  sender <- header_value hs (str "From") (str "Unknown Sender") ;;
  recipient <- header_value hs (str "To") (str "Unknown Recipient") ;;
  date <- header_value hs (str "Date") (str "Unknown Date") ;;
  body <- extract_email_body unescape root ;;
  let response :=
    message_details message_id subject sender recipient date body in
  if include_attachments_info then
    attachments <- get_attachment_info root ;;
    match attachments with
    | [] => Ret (response ++ nl ++ str "No attachments found." ++ nl)
    | _ =>
        Ret (response ++ nl ++ str "ATTACHMENTS ("
             ++ dec (Z.of_nat (List.length attachments)) ++ str "):" ++ nl
             ++ attachment_lines 1 attachments)
    end
  else Ret response.

Definition gmail_read_message_without_attachments (message_id : pystr)
    (include_attachments_info : bool) : pystr :=
  match get_profile with
  | Raise e => str "Gmail API authentication failed: " ++ exn_str svc e
  | Ret _ =>
      match read_message_body message_id include_attachments_info with
      | Ret response => response
      | Raise (HttpError m) =>
          str "Gmail API Error: " ++ exn_str svc (HttpError m)
      | Raise e => str "Error reading message: " ++ exn_str svc e
      end
  end.

End ReadMessage.

(** ** [gmail_search_and_summarize] *)

(** The query text built from the four optional criteria. *)
Definition gmail_query (query sender recipient subject_contains
                        : option pystr) : pystr :=
  let search_parts :=
    (if truthy sender
     then [str "from:(" ++ get_or sender [] ++ str ")"] else [])
    ++ (if truthy recipient
        then [str "to:(" ++ get_or recipient [] ++ str ")"] else [])
    ++ (if truthy subject_contains
        then [str "subject:(" ++ get_or subject_contains [] ++ str ")"]
        else [])
    ++ (if truthy query
        then [str "(" ++ get_or query [] ++ str ")"] else []) in
  match search_parts with
  | [] => str "in:inbox"
  | _ => join (str " ") search_parts
  end.

(** [body[:200].replace(line feed, space).strip() + "..."] for a body of
    more than 200 code points, the body itself otherwise. *)
Definition body_preview (body : pystr) : pystr :=
  if 200 <? Z.of_nat (List.length body)
  then strip (replace_char 10 [32] (firstn 200 body)) ++ str "..."
  else body.

Section SearchAndSummarize.

Variable unescape : pystr -> pystr.
Variable svc : Services.

(** The body of the inner [try] for the [i]-th message. *)
Definition summary_entry_body (i : Z) (msg : MsgRef) : Res pystr :=
  msg_id <- getitem "id" (id msg) ;;
  message <- messages_get svc msg_id ;;
  root <- getitem "payload" (payload message) ;;
  let hs := get_or (headers root) [] in
  subject <- header_value hs (str "Subject") (str "No Subject") ;;
  sender <- header_value hs (str "From") (str "Unknown") ;;
  date <- header_value hs (str "Date") (str "Unknown") ;;
  body <- extract_email_body unescape root ;;
  Ret (dec i ++ str ". " ++ subject ++ nl
       ++ str "   From: " ++ sender_clean sender ++ nl
       ++ str "   Date: " ++ date ++ nl
       ++ str "   Preview: " ++ body_preview body ++ nl
       ++ str "   ID: " ++ msg_id ++ nl ++ nl).

(** What one turn of the loop appends to [response]. *)
Definition summary_entry (i : Z) (msg : MsgRef) : Res pystr :=
  match summary_entry_body i msg with
  | Ret entry => Ret entry
  | Raise e =>
      msg_id <- getitem "id" (id msg) ;;
      Ret (dec i ++ str ". Error processing email " ++ msg_id ++ str ": "
           ++ exn_str svc e ++ nl ++ nl)
  end.

(** [for i, msg in enumerate(messages, i)]. *)
Fixpoint summary_loop (i : Z) (messages : list MsgRef) (response : pystr)
  : Res pystr :=
  match messages with
  | [] => Ret response
  | msg :: rest =>
      entry <- summary_entry i msg ;;
      summary_loop (i + 1) rest (response ++ entry)
  end.

Definition gmail_search_and_summarize
    (query sender recipient subject_contains : option pystr)
    (max_results : Z) : pystr :=
  let q := gmail_query query sender recipient subject_contains in
  catch
    (messages <- messages_list svc max_results q ;;
     match messages with
     | [] => Ret (str "No emails found for query: " ++ q)
     | _ =>
         summary_loop 1 messages
           (str "SEARCH RESULTS ("
            ++ dec (Z.of_nat (List.length messages)) ++ str " emails):" ++ nl
            ++ str "Query: " ++ q ++ nl ++ nl)
     end)
    (fun e => str "Search error: " ++ exn_str svc e).

End SearchAndSummarize.

(** ** [drive_list_folder_contents] *)

(** The [item_info] dictionary, without the owner, which is computed
    and not shown. *)
Record item_info := mkInfo {
  info_name : pystr;
  info_id : pystr;
  info_mime : pystr;
  info_size : pystr;
  info_modified : pystr
}.

(** A line of a subfolder: the emoji, the name and the id. *)
Record sub_line := mkSubLine {
  sub_emoji : pystr;
  sub_name : pystr;
  sub_id : pystr
}.

(** What the response holds for one subfolder: the title line with the
    number of items, if it was written; the item lines written; the
    number in the line for the items left out, if any; and whether the
    line for a failure closes the block. *)
Record sub_section := mkSub {
  sub_title : option (pystr * Z);
  sub_lines : list sub_line;
  sub_more : option Z;
  sub_failed : bool
}.

(** What the response says; its text is a rendering of this value. *)
Inductive folder_response :=
| FolderEmpty
| FolderContents (folder_name : pystr) (total n_folders n_files : Z)
                 (folders : list item_info)
                 (files : list (pystr * item_info * option pystr))
                 (subfolders : option (list sub_section * option Z))
| FolderError (msg : pystr).

Section ListFolder.

Variable svc : Services.
(** [files().get(fileId=folder_id, fields='name').execute().get('name')]
    and [files().list(q=..., pageSize=..., fields=...)
    .execute().get('files', [])] without an order. *)
Variable folder_name_of : pystr -> Res (option pystr).
Variable list_unordered : pystr -> Z -> Res (list DriveFile.t).

Definition parents_query (folder_id : pystr) : pystr :=
  str "'" ++ folder_id ++ str "' in parents and trashed=false".

(** The loop that builds [item_info] and separates folders from files. *)
Fixpoint separate_infos (items : list DriveFile.t)
  : Res (list item_info * list item_info) :=
  match items with
  | [] => Ret ([], [])
  | item :: rest =>
      n <- getitem "name" (DriveFile.name item) ;;
      i <- getitem "id" (DriveFile.id item) ;;
      let info :=
        mkInfo n i (get_or (DriveFile.mimeType item) [])
               (get_or (DriveFile.size item) (str "N/A"))
               (get_or (DriveFile.modifiedTime item) (str "Unknown")) in
      m <- getitem "mimeType" (DriveFile.mimeType item) ;;
      fr <- separate_infos rest ;;
      if str_eqb m folder_mime
      then Ret (info :: fst fr, snd fr)
      else Ret (fst fr, info :: snd fr)
  end.

Definition folder_file_line (file : item_info)
  : Res (pystr * item_info * option pystr) :=
  size_info <-
    (if negb (str_eqb (info_size file) (str "N/A")) then
       s <- call_global "format_file_size" (info_size file) ;; Ret (Some s)
     else Ret None) ;;
  Ret (get_file_type_emoji (info_mime file), file, size_info).

(** The lines written for the items of a subfolder before an item
    without a key stops the loop, and whether one did. *)
Fixpoint sub_item_lines (items : list DriveFile.t)
  : list sub_line * bool :=
  match items with
  | [] => ([], false)
  | item :: rest =>
      match (m <- getitem "mimeType" (DriveFile.mimeType item) ;;
             let emoji := if str_eqb m folder_mime then [128193]
                          else get_file_type_emoji m in
             n <- getitem "name" (DriveFile.name item) ;;
             i <- getitem "id" (DriveFile.id item) ;;
             Ret (mkSubLine emoji n i)) with
      | Ret line =>
          let r := sub_item_lines rest in (line :: fst r, snd r)
      | Raise _ => ([], true)
      end
  end.

(** One turn of the loop over [folders[:3]]. *)
Definition sub_section_of (folder : item_info) : sub_section :=
  match list_unordered (parents_query (info_id folder)) 20 with
  | Raise _ => mkSub None [] None true
  | Ret [] => mkSub None [] None false
  | Ret subfolder_items =>
      let n := Z.of_nat (List.length subfolder_items) in
      let r := sub_item_lines (firstn 10 subfolder_items) in
      if snd r then mkSub (Some (info_name folder, n)) (fst r) None true
      else mkSub (Some (info_name folder, n)) (fst r)
                 (if 10 <? n then Some (n - 10) else None) false
  end.

(** The name shown for the folder. *)
Definition shown_folder_name (folder_id : pystr) : pystr :=
  if str_eqb folder_id (str "root") then str "My Drive (Root)"
  else
    catch (n <- folder_name_of folder_id ;;
           Ret (get_or n (str "Unknown Folder")))
          (fun _ => str "Folder ID: " ++ folder_id).

Definition list_folder_body (folder_id : pystr) (include_subfolders : bool)
  : Res folder_response :=
  items <- files_list svc (parents_query folder_id) 100
             (str "folder,name") ;;
  match items with
  | [] => Ret FolderEmpty
  | _ =>
      let folder_name := shown_folder_name folder_id in
      ff <- separate_infos items ;;
      let folders := fst ff in
      files <- each folder_file_line (snd ff) ;;
      Ret (FolderContents folder_name
             (Z.of_nat (List.length items))
             (Z.of_nat (List.length folders))
             (Z.of_nat (List.length (snd ff)))
             folders files
             (if include_subfolders
                 && match folders with [] => false | _ => true end
              then
                Some (map sub_section_of (firstn 3 folders),
                      if 3 <? Z.of_nat (List.length folders)
                      then Some (Z.of_nat (List.length folders) - 3)
                      else None)
              else None))
  end.

Definition drive_list_folder_contents (folder_id : pystr)
    (include_subfolders : bool) : folder_response :=
  catch (list_folder_body folder_id include_subfolders)
        (fun e => FolderError (str "Error listing folder contents: "
                               ++ exn_str svc e)).

End ListFolder.

(** ** Vocabulary of the further statements *)

(** The test of [extract_attachments_recursive] on one node under the
    filter [flt]: no ['parts'] key, a filename that is not blank, and
    the content type of the filter if there is one. *)
Definition found_test (flt : option pystr) (n : Payload) : bool :=
  match parts n with
  | Some _ => false
  | None =>
      nonempty (strip (get_or (filename n) []))
      && negb (truthy flt
               && negb (opt_str_eqb flt (get_or (mimeType n) [])))
  end.

(** The dictionary appended for such a node. *)
Definition found_of (n : Payload) : Found.t :=
  let mime := get_or (mimeType n) [] in
  let workspace := startswith mime (str "application/vnd.google-apps") in
  Found.mk (strip (get_or (filename n) [])) mime
           (get_or (size (get_or (body n) empty_body)) 0)
           (get_or (body_attachment_id n) [])
           workspace
           (if workspace then Some (get_export_mime_type mime) else None).

(** The candidates that can be fetched and hold a matching attachment,
    with their [message_data], in the order of the search result. *)
Definition kept_messages (svc : Services) (flt : option pystr)
    (message_list : list MsgRef) : list MessageData.t :=
  flat_map (fun msg_ref =>
              match process_message svc flt msg_ref with
              | Ret (Some message_data) => [message_data]
              | _ => []
              end) message_list.

(** A text in which white space is single spaces between other code
    points: no white space first, and each white-space code point is a
    space followed by a code point that is not white space. *)
Fixpoint spaces_inside (s : pystr) : bool :=
  match s with
  | [] => true
  | c :: s' =>
      (if isspace c
       then (c =? 32)
            && match s' with [] => false | d :: _ => negb (isspace d) end
       else true)
      && spaces_inside s'
  end.

Definition ws_normal (s : pystr) : bool :=
  match s with [] => true | c :: _ => negb (isspace c) end
  && spaces_inside s.

(** Reading a quoted literal of a Drive query from behind its opening
    quote: a backslash takes the next code point as it is, and the first
    quote without one ends the literal.  The result is the text of the
    literal and what follows its closing quote. *)
Fixpoint read_literal (escaped : bool) (s : pystr)
  : option (pystr * pystr) :=
  match s with
  | [] => None
  | c :: s' =>
      if escaped then
        option_map (fun r => (c :: fst r, snd r)) (read_literal false s')
      else if c =? 92 then read_literal true s'
      else if c =? 39 then Some ([], s')
      else option_map (fun r => (c :: fst r, snd r)) (read_literal false s')
  end.

(** Dropping the trailing code points that satisfy [sp], from the
    front. *)
Fixpoint rstrip_by (sp : Z -> bool) (s : pystr) : pystr :=
  match s with
  | [] => []
  | c :: s' =>
      match rstrip_by sp s' with
      | [] => if sp c then [] else [c]
      | r => c :: r
      end
  end.

(** Each white-space code point is a space and is not followed by white
    space. *)
Fixpoint spaces_single (s : pystr) : bool :=
  match s with
  | [] => true
  | c :: s' =>
      (if isspace c
       then (c =? 32)
            && match s' with [] => true | d :: _ => negb (isspace d) end
       else true)
      && spaces_single s'
  end.

Definition starts_clean (s : pystr) : bool :=
  match s with [] => true | c :: _ => negb (isspace c) end.

(** The size [n] in the largest unit that keeps the number at 1 or
    above, up to TB, with one decimal. *)
Definition scaled_text (n : Z) : pystr :=
  if n <? 1024 then format_1f (Qmake n 1) ++ str " B"
  else if n <? 1048576 then format_1f (Qmake n 1024) ++ str " KB"
  else if n <? 1073741824 then format_1f (Qmake n 1048576) ++ str " MB"
  else if n <? 1099511627776
       then format_1f (Qmake n 1073741824) ++ str " GB"
  else format_1f (Qmake n 1099511627776) ++ str " TB".

(** What [process_message] keeps of a message. *)
Definition well_counted (flt : option pystr) (md : MessageData.t) : Prop :=
  MessageData.attachments md <> []
  /\ MessageData.attachment_count md
     = Z.of_nat (List.length (MessageData.attachments md))
  /\ MessageData.total_size_bytes md
     = fold_left Z.add
         (map Found.size_bytes (MessageData.attachments md)) 0
  /\ (truthy flt = true ->
      Forall (fun a => Found.mime_type a = get_or flt [])
             (MessageData.attachments md)).

(** The two failures of [get_attachment_info] on a part that lacks a
    key. *)
Definition missing_key (r : Res (list Att.t)) : Prop :=
  r = Raise (KeyError (str "body")) \/ r = Raise (KeyError (str "mimeType")).

(** The test of the Drive handlers for a folder. *)
Definition is_folder (item : DriveFile.t) : bool :=
  opt_str_eqb (DriveFile.mimeType item) folder_mime.

(** A service for the listing: two messages, of which the second cannot
    be fetched. *)
Definition two_refs : list MsgRef :=
  [mkMsgRef (Some (str "m1")); mkMsgRef (Some (str "m2"))].

Definition second_fails (i : pystr) : Res Message :=
  if str_eqb i (str "m1")
  then Ret (mkMessage (Some hello_with_pdf) None)
  else Raise (HttpError (str "404")).

(** What holds of the block of one subfolder. *)
Definition sub_section_bounded (sec : sub_section) : Prop :=
  (List.length (sub_lines sec) <= 10)%nat
  /\ (sub_title sec = None -> sub_lines sec = [] /\ sub_more sec = None)
  /\ (forall m, sub_more sec = Some m ->
        sub_failed sec = false
        /\ List.length (sub_lines sec) = 10%nat
        /\ exists title, sub_title sec = Some (title, m + 10) /\ 0 < m).

(** A folder that holds four subfolders and one file; every subfolder
    holds the twelve files [drive_file 0] to [drive_file 11]. *)
Definition drive_folder (i : nat) : DriveFile.t :=
  DriveFile.mk (Some (dec (Z.of_nat i))) (Some (str "folder"))
               (Some folder_mime) None
               (Some (str "2024-01-01T00:00:00Z")) None.

Definition shelf_services : Services :=
  one_message hello_with_pdf None (fun _ => 0)
              (fun _ => map drive_folder (seq 0 4) ++ [drive_file 4]).

Definition shelf_name (folder_id : pystr) : Res (option pystr) :=
  Ret (Some (str "Shelf")).

Definition twelve_files (q : pystr) (page_size : Z)
  : Res (list DriveFile.t) :=
  Ret (firstn (Z.to_nat page_size) (map drive_file (seq 0 12))).

Definition shelf_folders : list item_info :=
  Eval vm_compute in
    match drive_list_folder_contents shelf_services shelf_name twelve_files
            (str "shelf") true with
    | FolderContents _ _ _ _ folders _ _ => folders
    | _ => []
    end.

Definition shelf_files : list (pystr * item_info * option pystr) :=
  Eval vm_compute in
    match drive_list_folder_contents shelf_services shelf_name twelve_files
            (str "shelf") true with
    | FolderContents _ _ _ _ _ files _ => files
    | _ => []
    end.

Definition shelf_sections : list sub_section :=
  Eval vm_compute in
    match drive_list_folder_contents shelf_services shelf_name twelve_files
            (str "shelf") true with
    | FolderContents _ _ _ _ _ _ (Some (sections, _)) => sections
    | _ => []
    end.

(** A body of 251 characters that starts with a line feed. *)
Definition long_body : pystr := 10 :: repeat 97 250.

(** The entries of a summary are numbered from [i], one for each
    reference, and each holds the id of its message after the number. *)
Fixpoint numbered_from (i : Z) (refs : list MsgRef) (entries : list pystr)
  : Prop :=
  match refs, entries with
  | [], [] => True
  | r :: refs', e :: entries' =>
      (exists before after,
         e = dec i ++ str ". " ++ before ++ get_or (id r) [] ++ after)
      /\ numbered_from (i + 1) refs' entries'
  | _, _ => False
  end.

(** The header of a summary of [n] messages for the query text [q]. *)
Definition summary_header (n : nat) (q : pystr) : pystr :=
  str "SEARCH RESULTS (" ++ dec (Z.of_nat n) ++ str " emails):" ++ nl
  ++ str "Query: " ++ q ++ nl ++ nl.

(** The services [svc] with a message list that answers [refs]. *)
Definition with_refs (refs : list MsgRef) (svc : Services) : Services :=
  mkServices (tiktoken_get_encoding svc) (messages_get svc)
             (fun _ _ => Ret refs) (attachments_get svc) (pdf_pages svc)
             (docx_paragraphs svc) (files_list svc) (exn_str svc).


(* ================================================================== *)
(** * Properties *)
(* ================================================================== *)

(** ** Strings and monadic plumbing *)

Lemma str_eqb_eq (a b : pystr) : str_eqb a b = true <-> a = b.
Proof.
  revert b; induction a as [|x a IH]; intros [|y b]; simpl;
    try (split; [discriminate | congruence]); try tauto.
  rewrite andb_true_iff, Z.eqb_eq, IH. split.
  - intros [-> ->]; reflexivity.
  - intros E; injection E; auto.
Qed.

(** ** The two definitions of [format_file_size] *)

Lemma below_1024_checked :
  forallb
    (fun n =>
       str_eqb (SecondDef.format_file_size (dec n)) (dec n ++ str ".0 B")
       && str_eqb (FirstDef.format_file_size (dec n)) (dec n ++ str " B"))
    (map Z.of_nat (seq 0 1024)) = true.
Proof. vm_compute. reflexivity. Qed.

Lemma below_1024 (n : Z) :
  0 <= n < 1024 ->
  SecondDef.format_file_size (dec n) = dec n ++ str ".0 B"
  /\ FirstDef.format_file_size (dec n) = dec n ++ str " B".
Proof.
  intros Hn.
  pose proof below_1024_checked as H.
  rewrite forallb_forall in H.
  specialize (H n).
  rewrite andb_true_iff, !str_eqb_eq in H.
  apply H.
  apply in_map_iff. exists (Z.to_nat n). split; [lia|].
  apply in_seq. lia.
Qed.

(** C10.  The module defines [format_file_size] twice: the second
    definition rebinds the name, so every call resolves to it; the two
    disagree on the string N/A (the first answers Size unknown, the
    second returns its argument), hence are different functions; and the
    second, the one in force, writes sizes below 1024 with a decimal
    point and 2048 as 2.0 KB. *)
Theorem format_file_size_second_definition_in_force :
  (forall arg,
     call_global "format_file_size" arg
     = Ret (SecondDef.format_file_size arg))
  /\ FirstDef.format_file_size (str "N/A") = str "Size unknown"
  /\ SecondDef.format_file_size (str "N/A") = str "N/A"
  /\ FirstDef.format_file_size <> SecondDef.format_file_size
  /\ SecondDef.format_file_size (str "2048") = str "2.0 KB"
  /\ (forall n, 0 <= n < 1024 ->
        SecondDef.format_file_size (dec n) = dec n ++ str ".0 B"
        /\ FirstDef.format_file_size (dec n) = dec n ++ str " B").
Proof.
  split; [intros arg; reflexivity|].
  split; [vm_compute; reflexivity|].
  split; [vm_compute; reflexivity|].
  split.
  - intros E.
    apply (f_equal (fun f => f (str "N/A"))) in E.
    vm_compute in E. discriminate.
  - split; [vm_compute; reflexivity | exact below_1024].
Qed.

Lemma format_file_size_second_definition_in_force_witness :
  0 <= 500 < 1024
  /\ SecondDef.format_file_size (dec 500) = str "500.0 B"
  /\ FirstDef.format_file_size (dec 500) = str "500 B".
Proof.
  split; [lia|].
  exact (proj2 (proj2 (proj2 (proj2 (proj2
           format_file_size_second_definition_in_force)))) 500
           ltac:(lia)).
Defined.

(** ** Induction on payload trees *)

Lemma Payload_tree_ind (P : Payload -> Prop) :
  (forall mt fn hd bd, P (mkPayload mt fn hd bd None)) ->
  (forall mt fn hd bd ps,
      Forall P ps -> P (mkPayload mt fn hd bd (Some ps))) ->
  forall p, P p.
Proof.
  intros Hleaf Hnode.
  fix IH 1.
  intros [mt fn hd bd [ps|]]; [|apply Hleaf].
  apply Hnode.
  revert ps. fix IHps 1.
  intros [|q ps]; constructor; [apply IH | apply IHps].
Qed.

Lemma forallb_app_true {A} (f : A -> bool) (l1 l2 : list A) :
  forallb f (l1 ++ l2) = true ->
  forallb f l1 = true /\ forallb f l2 = true.
Proof. rewrite forallb_app, andb_true_iff; auto. Qed.

(** ** The attachment list *)

Lemma call_format_file_size (arg : pystr) :
  call_global "format_file_size" arg = Ret (SecondDef.format_file_size arg).
Proof. reflexivity. Qed.

Lemma process_part_node mt fn hd bd ps acc :
  process_part (mkPayload mt fn hd bd (Some ps)) acc = process_parts ps acc.
Proof. reflexivity. Qed.

Lemma process_part_leaf (n : Payload) (acc : list Att.t) :
  parts n = None ->
  keys_present n = true ->
  process_part n acc
  = Ret (acc ++ map record_of (filter listed [n])).
Proof.
  destruct n as [mt fn hd bd ps]; simpl; intros -> Hk.
  unfold keys_present, listed, record_of, body_attachment_id in *;
    simpl in *.
  destruct fn as [[|c fn]|]; simpl in *; try now rewrite app_nil_r.
  destruct bd as [[d a sz]|]; [|discriminate]; simpl in *.
  destruct a as [[|c' aid]|]; simpl in *; try now rewrite app_nil_r.
  destruct mt as [m|]; [reflexivity | discriminate].
Qed.

Lemma process_walk (n : Payload) :
  forall acc,
    forallb keys_present (preorder n) = true ->
    process_part n acc
    = Ret (acc ++ map record_of (filter listed (preorder n))).
Proof.
  induction n as [mt fn hd bd | mt fn hd bd ps IH] using Payload_tree_ind;
    intros acc Hk.
  - apply process_part_leaf; [reflexivity|].
    simpl in Hk. now rewrite andb_true_r in Hk.
  - rewrite process_part_node.
    simpl in Hk.
    change (filter listed (preorder (mkPayload mt fn hd bd (Some ps))))
      with (filter listed (flat_map preorder ps)).
    revert acc Hk.
    induction IH as [|q ps Hq _ IHps]; intros acc Hk; simpl.
    + now rewrite app_nil_r.
    + apply forallb_app_true in Hk as [Hk1 Hk2].
      rewrite (Hq acc Hk1). simpl.
      rewrite (IHps _ Hk2).
      now rewrite filter_app, map_app, app_assoc.
Qed.

Lemma process_parts_walk (ps : list Payload) (acc : list Att.t) :
  forallb keys_present (flat_map preorder ps) = true ->
  process_parts ps acc
  = Ret (acc ++ map record_of (filter listed (flat_map preorder ps))).
Proof.
  revert acc; induction ps as [|q ps IH]; intros acc Hk; simpl.
  - now rewrite app_nil_r.
  - simpl in Hk. apply forallb_app_true in Hk as [Hk1 Hk2].
    rewrite (process_walk q acc Hk1). simpl.
    rewrite (IH _ Hk2).
    now rewrite filter_app, map_app, app_assoc.
Qed.

(** C1, as amended.  For every payload tree whose named leaves carry the
    keys that are read, [get_attachment_info] returns one record for
    each node below the root that has no ['parts'] key, a non-empty
    filename and a non-empty attachment id in its body, in depth-first
    pre-order; a node with a ['parts'] key is not collected but all its
    children are visited, so the length of the output is the number of
    such nodes at any depth.  Inline body data is not a body reference
    for this test. *)
Theorem get_attachment_info_lists_remote_leaves (p : Payload) :
  forallb keys_present (below p) = true ->
  exists l,
    get_attachment_info p = Ret l
    /\ l = map record_of (filter listed (below p))
    /\ List.length l = List.length (filter listed (below p)).
Proof.
  intros Hk.
  exists (map record_of (filter listed (below p))).
  split; [|split; [reflexivity | apply length_map]].
  unfold get_attachment_info, below, children in *.
  destruct (parts p) as [ps|]; simpl in *; [|reflexivity].
  apply (process_parts_walk ps [] Hk).
Qed.

Lemma get_attachment_info_lists_remote_leaves_witness :
  forallb keys_present (below signed_mail) = true
  /\ exists l,
       get_attachment_info signed_mail = Ret l
       /\ l = map record_of (filter listed (below signed_mail))
       /\ List.length l = List.length (filter listed (below signed_mail)).
Proof.
  split; [reflexivity|].
  apply (get_attachment_info_lists_remote_leaves signed_mail).
  reflexivity.
Defined.

(** C1, as stated, fails: a named part with inline body data and no
    attachment id passes the test of the specification and is not
    collected. *)
Lemma inline_named_part_not_collected :
  List.length (filter spec_attachment (preorder inline_named)) = 1%nat
  /\ get_attachment_info inline_named = Ret [].
Proof. split; reflexivity. Qed.

(** C6.  A part with a non-empty filename and an attachment id but no
    ['mimeType'] key makes [get_attachment_info] raise [KeyError]:
    the content type is read with [part['mimeType']].  The walker of
    the search tool reads the same key with a default and reports the
    empty content type. *)
Theorem untyped_attachment_raises_key_error :
  map (fun n => (truthy (filename n), truthy (body_attachment_id n),
                 mimeType n))
      (below untyped_attachment)
  = [(true, true, None)]
  /\ get_attachment_info untyped_attachment
     = Raise (KeyError (str "mimeType"))
  /\ extract_attachments_recursive None untyped_attachment []
     = [Found.mk (str "r.pdf") [] 2048 (str "att1") false None].
Proof. repeat split; reflexivity. Qed.

(** ** Automatic selection *)

(** The loop looks at the parts it is given, one after the other, and
    at nothing below them. *)
Lemma auto_select_first_of_list (ps : list Payload) :
  auto_select ps
  = Ret (option_map (fun n => (n, get_or (body_attachment_id n) []))
                    (find selectable ps)).
Proof.
  induction ps as [|p ps IH]; simpl; [reflexivity|].
  unfold selectable, body_attachment_id.
  destruct p as [mt fn hd [[d a sz]|] pp]; simpl.
  - destruct (supported _); simpl; [|exact IH].
    destruct a as [[|c s]|]; simpl; try exact IH. reflexivity.
  - rewrite andb_false_r. exact IH.
Qed.

(** C2.  In a signed message the PDF is a part of a part.  It is the
    first supported attachment of the tree in depth-first order, and
    [get_attachment_info] lists it, but the automatic selection scans
    the top-level parts only and reports that the message has no
    supported attachment; asked for by the id that was listed, the PDF
    is not found either. *)
Theorem nested_attachment_not_selected :
  find selectable (preorder signed_mail)
  = Some (named "application/pdf" "r.pdf" (remote "att1" 2048))
  /\ get_attachment_info signed_mail
     = Ret [ Att.mk (str "r.pdf") (str "application/pdf") (str "2.0 KB")
                    (str "att1");
             Att.mk (str "smime.p7s") (str "application/pkcs7-signature")
                    (str "2.9 KB") (str "att2") ]
  /\ gmail_read_attchment_content
       (one_message signed_mail None (fun _ => 0) (fun _ => []))
       (str "m1") None
     = str "No supported attachment (.pdf, .docx, .txt) found in this message."
  /\ gmail_read_attchment_content
       (one_message signed_mail None (fun _ => 0) (fun _ => []))
       (str "m1") (Some (str "att1"))
     = str "No attachment with ID att1 found in message m1.".
Proof. repeat split; vm_compute; reflexivity. Qed.

(** ** Tag stripping *)

Lemma closes_sub_tags (s : pystr) :
  closes s = false -> closes (sub_tags false s) = false.
Proof.
  induction s as [|c s IH]; simpl; [reflexivity|].
  intros H. apply orb_false_iff in H as [H1 H2].
  destruct (c =? 10) eqn:E10; simpl in H2.
  - destruct (c =? 60) eqn:E60; [lia|]. simpl.
    now rewrite H1, E10.
  - rewrite H2, andb_false_r. simpl.
    now rewrite H1, E10, (IH H2).
Qed.

(** After the first substitution no [<] is followed by a [>] on its
    line: every tag written on one line is gone. *)
Lemma sub_tags_removes_line_tags (s : pystr) (inside : bool) :
  has_tag (sub_tags inside s) = false.
Proof.
  revert inside; induction s as [|c s IH]; intros inside; simpl;
    [destruct inside; reflexivity|].
  destruct inside.
  - destruct (c =? 62); apply IH.
  - destruct ((c =? 60) && closes s) eqn:E; [apply IH|].
    simpl. rewrite IH, orb_false_r.
    destruct (c =? 60); [|reflexivity].
    simpl in E. now rewrite (closes_sub_tags s E).
Qed.

Lemma unescape_basic_no_ampersand (s : pystr) :
  contains_char 38 s = false -> unescape_basic s = s.
Proof.
  unfold unescape_basic, contains_char.
  induction s as [|c s IH]; cbn [unescape_from existsb]; [reflexivity|].
  intros H. apply orb_false_iff in H as [H1 H2].
  rewrite Z.eqb_sym in H1. rewrite H1. now rewrite (IH H2).
Qed.

(** The example of the specification, for any [unescape] that reads
    the reference to the no-break space. *)
Lemma strip_html_tags_example (unescape : pystr -> pystr) :
  unescape (str "Hi&nbsp;there") = str "Hi" ++ [160] ++ str "there" ->
  strip_html_tags unescape (str "<b>Hi</b>&nbsp;there") = str "Hi there".
Proof.
  intros H. unfold strip_html_tags.
  change (sub_tags false (str "<b>Hi</b>&nbsp;there"))
    with (str "Hi&nbsp;there").
  rewrite H. reflexivity.
Qed.

(** C8.  A tag that contains a line feed is not matched by the pattern
    and stays in the text; only the line feed in it becomes a space.
    This holds for any [unescape] that copies a string without
    ampersand. *)
Theorem tag_across_lines_survives (unescape : pystr -> pystr) :
  (forall s, contains_char 38 s = false -> unescape s = s) ->
  strip_html_tags unescape (str "<a" ++ [10] ++ str "href=x>Hi</a>")
  = str "<a href=x>Hi".
Proof.
  intros H. unfold strip_html_tags.
  change (sub_tags false (str "<a" ++ [10] ++ str "href=x>Hi</a>"))
    with (str "<a" ++ [10] ++ str "href=x>Hi").
  rewrite H; reflexivity.
Qed.

Lemma tag_across_lines_survives_witness :
  strip_html_tags unescape_basic (str "<a" ++ [10] ++ str "href=x>Hi</a>")
  = str "<a href=x>Hi".
Proof.
  apply (tag_across_lines_survives unescape_basic).
  exact unescape_basic_no_ampersand.
Defined.

(** ** Body extraction *)

Lemma extract_unfold mt fn hd bd ps (t : pystr) :
  extract_text_from_payload (mkPayload mt fn hd bd ps) t
  = if opt_str_eqb mt t && truthy (data (get_or bd empty_body)) then
      catch (s <- decode_data (get_or (data (get_or bd empty_body)) []) ;;
             Ret (Ret (Some s)))
            (fun _ => Ret None)
    else for_parts t (get_or ps []).
Proof.
  destruct ps as [ps|]; simpl;
    destruct (opt_str_eqb mt t); simpl;
    destruct (truthy (data (get_or bd empty_body))); reflexivity.
Qed.

Lemma first_some_app {A B} (f : A -> option B) (l1 l2 : list A) :
  first_some f (l1 ++ l2)
  = match first_some f l1 with
    | Some y => Some y
    | None => first_some f l2
    end.
Proof.
  induction l1 as [|x l1 IH]; simpl; [reflexivity|].
  destruct (f x); [reflexivity | exact IH].
Qed.

Lemma preorder_unfold mt fn hd bd ps :
  preorder (mkPayload mt fn hd bd ps)
  = mkPayload mt fn hd bd ps :: flat_map preorder (get_or ps []).
Proof. destruct ps; reflexivity. Qed.

Lemma yields_unfold mt fn hd bd ps (t : pystr) :
  yields t (mkPayload mt fn hd bd ps)
  = if opt_str_eqb mt t && truthy (data (get_or bd empty_body)) then
      match decode_data (get_or (data (get_or bd empty_body)) []) with
      | Ret (c :: s) => Some (c :: s)
      | _ => None
      end
    else None.
Proof. reflexivity. Qed.

(** The extractor never raises. *)
Lemma extract_returns (t : pystr) (p : Payload) :
  exists r, extract_text_from_payload p t = Ret r.
Proof.
  assert (Hall : forall mt fn hd bd ps,
             Forall (fun q => exists r, extract_text_from_payload q t = Ret r)
                    (get_or ps []) ->
             exists r,
               extract_text_from_payload (mkPayload mt fn hd bd ps) t = Ret r).
  { intros mt fn hd bd ps IH. rewrite extract_unfold.
    destruct (opt_str_eqb mt t && truthy (data (get_or bd empty_body))).
    - destruct (decode_data _); simpl; eauto.
    - induction IH as [|q qs [r Hr] _ IHqs]; simpl; eauto.
      rewrite Hr; simpl. destruct (truthy r); eauto. }
  induction p as [mt fn hd bd | mt fn hd bd ps IH] using Payload_tree_ind.
  - apply Hall. constructor.
  - apply Hall. exact IH.
Qed.

(** Where no node holds a text, the result is [None] or empty. *)
Lemma extract_nothing (t : pystr) (p : Payload) :
  first_text t p = None ->
  exists r, extract_text_from_payload p t = Ret r /\ truthy r = false.
Proof.
  unfold first_text.
  assert (Hall : forall mt fn hd bd ps,
    Forall (fun q => first_some (yields t) (preorder q) = None ->
              exists r, extract_text_from_payload q t = Ret r
                        /\ truthy r = false) (get_or ps []) ->
    first_some (yields t) (preorder (mkPayload mt fn hd bd ps)) = None ->
    exists r, extract_text_from_payload (mkPayload mt fn hd bd ps) t = Ret r
              /\ truthy r = false).
  { intros mt fn hd bd ps IH.
    rewrite preorder_unfold, extract_unfold.
    cbn [first_some]. rewrite yields_unfold.
    destruct (opt_str_eqb mt t && truthy (data (get_or bd empty_body))).
    - destruct (decode_data _) as [[|c s]|e]; simpl; intros H;
        try discriminate; eauto.
    - induction IH as [|q qs Hq _ IHqs]; simpl; intros H; eauto.
      rewrite first_some_app in H.
      destruct (first_some (yields t) (preorder q)) eqn:E; [discriminate|].
      destruct (Hq eq_refl) as [r [Hr Hf]].
      rewrite Hr; simpl. rewrite Hf. apply IHqs. exact H. }
  induction p as [mt fn hd bd | mt fn hd bd ps IH] using Payload_tree_ind.
  - apply Hall. constructor.
  - apply Hall. exact IH.
Qed.

Lemma leaf_data_unfold mt fn hd bd ps :
  leaf_data (mkPayload mt fn hd bd ps) = true ->
  (truthy (data (get_or bd empty_body)) = true -> get_or ps [] = [])
  /\ Forall (fun q => leaf_data q = true) (get_or ps []).
Proof.
  unfold leaf_data. rewrite preorder_unfold. cbn [forallb].
  intros H. apply andb_true_iff in H as [H1 H2]. split.
  - intros Hd. unfold data_on_leaf, body_data, children in H1.
    cbn in H1. rewrite Hd in H1. simpl in H1.
    destruct (get_or ps []); [reflexivity | discriminate].
  - clear H1. induction (get_or ps []) as [|q qs IH]; constructor.
    + simpl in H2. now apply forallb_app_true in H2 as [H2 _].
    + apply IH. simpl in H2. now apply forallb_app_true in H2 as [_ H2].
Qed.

Lemma content_truthy (r : option pystr) :
  truthy r = true -> content r = r.
Proof. unfold content. now intros ->. Qed.

Lemma content_falsy (r : option pystr) :
  truthy r = false -> content r = None.
Proof. unfold content. now intros ->. Qed.

(** The loop returns the first text its parts hold, if each part does. *)
Lemma for_parts_first_text (t : pystr) (qs : list Payload) :
  Forall (fun q => exists r, extract_text_from_payload q t = Ret r
                             /\ content r = first_text t q) qs ->
  exists r, for_parts t qs = Ret r
            /\ content r = first_some (yields t) (flat_map preorder qs).
Proof.
  induction 1 as [|q qs [r [Hr Hc]] _ [r' [Hr' Hc']]]; simpl; eauto.
  rewrite Hr; simpl. rewrite first_some_app.
  fold (first_text t q). rewrite <- Hc.
  destruct (truthy r) eqn:Er.
  - exists r. split; [reflexivity|].
    rewrite (content_truthy r Er).
    destruct r; [reflexivity | discriminate].
  - rewrite (content_falsy r Er). eauto.
Qed.

(** On a tree that keeps body data on its leaves, what the caller sees
    of the result is the text of the first node in pre-order that holds
    one. *)
Lemma extract_first_text (t : pystr) (p : Payload) :
  leaf_data p = true ->
  exists r, extract_text_from_payload p t = Ret r
            /\ content r = first_text t p.
Proof.
  assert (Hall : forall mt fn hd bd ps,
    Forall (fun q => leaf_data q = true ->
              exists r, extract_text_from_payload q t = Ret r
                        /\ content r = first_text t q)
           (get_or ps []) ->
    leaf_data (mkPayload mt fn hd bd ps) = true ->
    exists r, extract_text_from_payload (mkPayload mt fn hd bd ps) t = Ret r
              /\ content r = first_text t (mkPayload mt fn hd bd ps)).
  { intros mt fn hd bd ps IH Hl.
    apply leaf_data_unfold in Hl as [Hleaf Hsub].
    assert (Hloop : exists r,
               for_parts t (get_or ps []) = Ret r
               /\ content r
                  = first_some (yields t) (flat_map preorder (get_or ps []))).
    { apply for_parts_first_text.
      clear Hleaf. induction IH as [|q qs Hq _ IHqs]; constructor;
        inversion Hsub; subst; auto. }
    unfold first_text.
    rewrite preorder_unfold, extract_unfold.
    cbn [first_some]. rewrite yields_unfold.
    destruct (opt_str_eqb mt t && truthy (data (get_or bd empty_body)))
      eqn:E; [|exact Hloop].
    apply andb_true_iff in E as [_ Ed].
    rewrite (Hleaf Ed). simpl.
    destruct (decode_data _) as [[|c s]|e]; simpl; eauto. }
  induction p as [mt fn hd bd | mt fn hd bd ps IH] using Payload_tree_ind.
  - apply Hall. constructor.
  - apply Hall. exact IH.
Qed.

(** C3, as amended.  Where no node holds a non-empty text of either
    type, be it that no node matches or that the matching nodes decode
    to the empty string, the body is the fixed message, which is not
    the empty string. *)
Theorem extract_email_body_no_readable_content
    (unescape : pystr -> pystr) (p : Payload) :
  first_text (str "text/plain") p = None ->
  first_text (str "text/html") p = None ->
  extract_email_body unescape p = Ret (str "No readable text content found.")
  /\ str "No readable text content found." <> [].
Proof.
  intros Hp Hh. split; [|discriminate].
  unfold extract_email_body.
  destruct (extract_nothing _ _ Hp) as [r1 [E1 F1]].
  destruct (extract_nothing _ _ Hh) as [r2 [E2 F2]].
  rewrite E1; simpl. rewrite F1, E2; simpl. now rewrite F2.
Qed.

Lemma extract_email_body_no_readable_content_witness :
  first_text (str "text/plain") empty_plain = None
  /\ first_text (str "text/html") empty_plain = None
  /\ extract_email_body unescape_basic empty_plain
     = Ret (str "No readable text content found.").
Proof.
  split; [reflexivity|]. split; [reflexivity|].
  apply (extract_email_body_no_readable_content unescape_basic empty_plain);
    reflexivity.
Defined.

(** C3, as stated, fails: a tree whose text part decodes to the empty
    string and a tree without any text part give the same body, and the
    same result of the extraction itself. *)
Lemma found_empty_same_as_not_found :
  map mimeType (below empty_plain) = [Some (str "text/plain")]
  /\ decode_data (str "/w==") = Ret []
  /\ map mimeType (below no_text) = [Some (str "image/png")]
  /\ extract_text_from_payload empty_plain (str "text/plain")
     = extract_text_from_payload no_text (str "text/plain")
  /\ extract_email_body unescape_basic empty_plain
     = extract_email_body unescape_basic no_text.
Proof. repeat split; reflexivity. Qed.

Lemma for_parts_map (t : pystr) (f : Payload -> Payload) (qs : list Payload) :
  Forall (fun q => extract_text_from_payload (f q) t
                   = extract_text_from_payload q t) qs ->
  for_parts t (map f qs) = for_parts t qs.
Proof.
  induction 1 as [|q qs Hq _ IH]; simpl; [reflexivity|].
  now rewrite Hq, IH.
Qed.

(** Dropping the body data of the malformed nodes does not change the
    result, on a tree that keeps body data on its leaves. *)
Lemma extract_without_malformed (t : pystr) (p : Payload) :
  leaf_data p = true ->
  extract_text_from_payload (without_malformed p) t
  = extract_text_from_payload p t.
Proof.
  induction p as [mt fn hd bd | mt fn hd bd ps IH] using Payload_tree_ind;
    intros Hl.
  - apply leaf_data_unfold in Hl as [_ _].
    cbn [without_malformed option_map]. rewrite !extract_unfold.
    unfold malformed, body_data. cbn [body get_or].
    destruct (truthy (data (get_or bd empty_body))) eqn:Ed;
      [|cbn [andb]; rewrite Ed; reflexivity].
    destruct (decode_data _) as [s|e] eqn:Edec;
      cbn [andb]; [rewrite Ed, Edec; reflexivity|].
    destruct bd as [b|]; [|discriminate Ed].
    cbn. rewrite andb_false_r.
    destruct (opt_str_eqb mt t); cbn; reflexivity.
  - apply leaf_data_unfold in Hl as [Hleaf Hsub]. cbn [get_or] in *.
    assert (Hloop : for_parts t (map without_malformed ps) = for_parts t ps).
    { apply for_parts_map.
      clear Hleaf. induction IH as [|q qs Hq _ IHqs]; constructor;
        inversion Hsub; subst; auto. }
    cbn [without_malformed option_map]. rewrite !extract_unfold.
    unfold malformed, body_data. cbn [body get_or].
    destruct (truthy (data (get_or bd empty_body))) eqn:Ed;
      [|cbn [andb]; rewrite Ed, !andb_false_r; exact Hloop].
    destruct (decode_data _) as [s|e] eqn:Edec;
      cbn [andb]; [rewrite Ed, Edec|].
    + destruct (opt_str_eqb mt t); cbn [andb]; [reflexivity | exact Hloop].
    + destruct bd as [b|]; [|discriminate Ed].
      cbn. rewrite andb_false_r.
      destruct (opt_str_eqb mt t); cbn; [|exact Hloop].
      rewrite (Hleaf eq_refl). reflexivity.
Qed.

Lemma yields_malformed (t : pystr) (n : Payload) :
  malformed n = true -> yields t n = None.
Proof.
  unfold malformed, yields. intros H.
  apply andb_true_iff in H as [Hd He]. rewrite Hd, andb_true_r.
  destruct (opt_str_eqb (mimeType n) t); [|reflexivity].
  destruct (decode_data _); [discriminate | reflexivity].
Qed.

Lemma first_some_skips_malformed (t : pystr) (l : list Payload) :
  first_some (yields t) (filter (fun n => negb (malformed n)) l)
  = first_some (yields t) l.
Proof.
  induction l as [|n l IH]; cbn [filter first_some]; [reflexivity|].
  destruct (malformed n) eqn:E; cbn [negb first_some].
  - now rewrite (yields_malformed t n E).
  - now rewrite IH.
Qed.

(** C4.  On a payload tree (body data on leaves only), the extractor
    returns a result, never an exception, and what the caller sees of
    the result is the text of the first node, in depth-first pre-order
    and among the nodes whose body data is not malformed, that has the
    content type and decodes to a non-empty text: a node with malformed
    body data counts as a node without content, wherever it stands, and
    the walk goes on with the nodes after it.  The result is also the
    one on the tree in which every malformed node has lost its body
    data. *)
Theorem extract_recovers_from_malformed_data (t : pystr) (p : Payload) :
  leaf_data p = true ->
  exists r,
    extract_text_from_payload p t = Ret r
    /\ content r
       = first_some (yields t)
           (filter (fun n => negb (malformed n)) (preorder p))
    /\ extract_text_from_payload (without_malformed p) t = Ret r.
Proof.
  intros Hl.
  destruct (extract_first_text t p Hl) as [r [Hr Hc]].
  exists r. split; [exact Hr|]. split.
  - rewrite first_some_skips_malformed. exact Hc.
  - now rewrite extract_without_malformed.
Qed.

Lemma extract_recovers_from_malformed_data_witness :
  leaf_data bad_then_hello = true
  /\ map malformed (preorder bad_then_hello) = [false; true; false]
  /\ extract_text_from_payload bad_then_hello (str "text/plain")
     = Ret (Some (str "Hello"))
  /\ extract_text_from_payload (without_malformed bad_then_hello)
                               (str "text/plain")
     = Ret (Some (str "Hello")).
Proof.
  split; [reflexivity|]. split; [reflexivity|].
  destruct (extract_recovers_from_malformed_data (str "text/plain")
              bad_then_hello eq_refl) as (r & Hr & Hc & Hw).
  assert (Hh : first_some (yields (str "text/plain"))
                 (filter (fun n => negb (malformed n))
                         (preorder bad_then_hello))
               = Some (str "Hello")) by reflexivity.
  rewrite Hh in Hc. unfold content in Hc.
  destruct (truthy r); [|discriminate Hc].
  rewrite Hr, Hw, Hc. split; reflexivity.
Defined.

(** C5, as amended.  On a payload tree (body data on leaves only) with
    a plain-text node whose body data decodes to a non-empty string,
    the body is the decoded text of the first such node in depth-first
    pre-order, as it is: no HTML node is consulted and no tag is
    stripped. *)
Theorem extract_email_body_prefers_plain_text
    (unescape : pystr -> pystr) (p : Payload) (s : pystr) :
  leaf_data p = true ->
  first_text (str "text/plain") p = Some s ->
  extract_email_body unescape p = Ret s.
Proof.
  intros Hl Hs. unfold extract_email_body.
  destruct (extract_first_text (str "text/plain") p Hl) as [r [Hr Hc]].
  rewrite Hr; simpl. rewrite Hs in Hc. unfold content in Hc.
  destruct (truthy r); [|discriminate]. now subst r.
Qed.

Lemma extract_email_body_prefers_plain_text_witness :
  leaf_data plain_and_html = true
  /\ first_text (str "text/plain") plain_and_html = Some (str "Hello")
  /\ extract_email_body unescape_basic plain_and_html = Ret (str "Hello").
Proof.
  split; [reflexivity|]. split; [reflexivity|].
  apply (extract_email_body_prefers_plain_text unescape_basic plain_and_html
           (str "Hello")); reflexivity.
Defined.

(** C5, as stated, fails: the plain-text part is decodable, to the empty
    string, and the body is the text of the HTML part, tags stripped. *)
Lemma empty_plain_text_falls_back_to_html :
  map mimeType (below empty_plain_with_html)
  = [Some (str "text/plain"); Some (str "text/html")]
  /\ decode_data (str "/w==") = Ret []
  /\ decode_data (str "PGI-eDwvYj4=") = Ret (str "<b>x</b>")
  /\ extract_email_body unescape_basic empty_plain_with_html
     = Ret (str "x").
Proof. repeat split; reflexivity. Qed.

(** ** Result caps *)

Section Caps.

Variable svc : Services.
Variable max_results : Z.


Lemma separate_length (items : list DriveFile.t) :
  forall fs gs,
    separate items = Ret (fs, gs) ->
    (List.length fs + List.length gs = List.length items)%nat.
Proof.
  induction items as [|i items IH]; simpl; intros fs gs H.
  - injection H as <- <-. reflexivity.
  - destruct (getitem "mimeType" (DriveFile.mimeType i)) as [m|e];
      simpl in H; [|discriminate].
    destruct (separate items) as [[fs' gs']|e]; simpl in H; [|discriminate].
    specialize (IH fs' gs' eq_refl).
    destruct (str_eqb m folder_mime); injection H as <- <-; simpl; lia.
Qed.

Lemma each_length {A B} (f : A -> Res B) (l : list A) :
  forall l', each f l = Ret l' -> List.length l' = List.length l.
Proof.
  induction l as [|x l IH]; simpl; intros l' H.
  - injection H as <-. reflexivity.
  - destruct (f x) as [y|e]; simpl in H; [|discriminate].
    destruct (each f l) as [ys|e]; simpl in H; [|discriminate].
    injection H as <-. simpl. now rewrite (IH ys eq_refl).
Qed.

Lemma list_all_body_length (query order_by : pystr) (r : drive_response) :
  honours_page_size svc ->
  list_all_body svc query max_results order_by = Ret r ->
  Z.of_nat (List.length (drive_items r))
  <= Z.max 0 (Z.min max_results 1000).
Proof.
  intros Hp. unfold list_all_body.
  destruct (files_list svc query (Z.min max_results 1000) order_by)
    as [items|e] eqn:El; cbn [bind]; [|discriminate].
  specialize (Hp _ _ _ _ El).
  destruct items as [|i items]; [intros H; injection H as <-; simpl; lia|].
  cbv beta iota. remember (i :: items) as l eqn:Hl. clear Hl El.
  destruct (separate l) as [[fs gs]|e] eqn:Es;
    cbn [bind fst snd]; [|discriminate].
  apply separate_length in Es.
  destruct (each folder_line fs) as [folders|e] eqn:Ef;
    cbn [bind]; [|discriminate].
  destruct (each file_line gs) as [files|e] eqn:Eg;
    cbn [bind]; [|discriminate].
  apply each_length in Ef, Eg.
  destruct (size_totals l) as [tc|e]; cbn [bind]; [|discriminate].
  destruct (0 <? snd tc); rewrite ?call_format_file_size; cbn [bind];
    intros H; injection H as <-; cbn [drive_items];
    rewrite length_app; lia.
Qed.

End Caps.








(** The cap is reached: the service is asked for ten candidates, returns
    ten messages that all carry an attachment, and two are kept; the
    Drive holds five files and two are shown. *)
Lemma caps_reached :
  List.length
    (found_messages
       (gmail_find_messages_with_attachments (paged_services 5) 2
          None None None None None None None)) = 2%nat
  /\ List.length
       (drive_items
          (drive_list_all_files (paged_services 5) 2 None (str "name")))
     = 2%nat.
Proof. split; reflexivity. Qed.

(** ** The token limit *)

Lemma read_attachment_body_selected (svc : Services)
    (message_id : pystr) (attachment_id : option pystr)
    (encoding : pystr -> Res Z) (message : Message)
    (part : Payload) (aid : pystr) :
  tiktoken_get_encoding svc = Ret encoding ->
  messages_get svc message_id = Ret message ->
  selected_part (message_parts message) attachment_id = Some (part, aid) ->
  read_attachment_body svc message_id attachment_id
  = read_matched svc encoding message_id part aid.
Proof.
  intros He Hm Hs. unfold read_attachment_body.
  rewrite He; cbn [bind]. rewrite Hm; cbn [bind].
  unfold selected_part, message_parts in Hs.
  destruct (truthy attachment_id); cbn [negb].
  - destruct (select_by_id _ _) as [n|]; [|discriminate].
    now injection Hs as <- <-.
  - rewrite auto_select_first_of_list; cbn [bind].
    destruct (find selectable _) as [n|]; [|discriminate].
    now injection Hs as <- <-.
Qed.

(** C7, as amended.  When the text extracted from the selected
    attachment is not blank and its token count exceeds the limit, the
    handler returns the message that names the file, the measured count
    and the limit; the message is built from these three alone, so
    nothing of the text comes back, whole or cut. *)
Theorem oversized_text_is_reported_not_returned (svc : Services)
    (message_id : pystr) (attachment_id : option pystr)
    (encoding : pystr -> Res Z) (message : Message)
    (part : Payload) (aid encoded : pystr) (data : bytes)
    (text : pystr) (token_count : Z) :
  tiktoken_get_encoding svc = Ret encoding ->
  messages_get svc message_id = Ret message ->
  selected_part (message_parts message) attachment_id = Some (part, aid) ->
  attachments_get svc message_id aid = Ret (Some encoded) ->
  urlsafe_b64decode encoded = Ret data ->
  extract_text svc (lower (get_or (filename part) (str "attachment"))) data
  = Ret (Some text) ->
  strip text <> [] ->
  encoding text = Ret token_count ->
  MAX_TOKENS < token_count ->
  gmail_read_attchment_content svc message_id attachment_id
  = too_large (lower (get_or (filename part) (str "attachment"))) token_count.
Proof.
  intros He Hm Hs Ha Hd Hx Hb Ht Hn.
  unfold gmail_read_attchment_content.
  rewrite (read_attachment_body_selected _ _ _ _ _ _ _ He Hm Hs).
  unfold read_matched.
  rewrite Ha; cbn [bind getitem]. rewrite Hd; cbn [bind].
  rewrite Hx; cbn [bind].
  destruct (strip text) as [|c s] eqn:Es; [contradiction|].
  cbn [nonempty negb]. rewrite Ht; cbn [bind].
  apply Z.ltb_lt in Hn. rewrite Hn. reflexivity.
Qed.

Lemma oversized_text_is_reported_not_returned_witness :
  gmail_read_attchment_content greedy_services (str "m1") None
  = str "File 'notes.txt' is too large (40000 tokens). Maximum allowed is 30000 tokens. The file will not be loaded.".
Proof.
  apply (oversized_text_is_reported_not_returned greedy_services
           (str "m1") None (fun _ => Ret 40000)
           (mkMessage (Some hello_txt) None)
           (named "text/plain" "Notes.TXT" (remote "att1" 5))
           (str "att1") (str "SGVsbG8=") (str "Hello") (str "Hello") 40000);
    first [reflexivity | discriminate].
Defined.

(** *** A blank text of any length *)

Lemma spaces_b64_ascii (k : nat) :
  forallb (fun c => (0 <=? c) && (c <? 128)) (spaces_b64 k) = true.
Proof.
  unfold spaces_b64. induction k as [|k IH]; [reflexivity|].
  cbn [repeat List.concat]. rewrite forallb_app, IH. reflexivity.
Qed.

Lemma a2b_base64_spaces (k : nat) :
  a2b_base64 (spaces_b64 k) 0 0 0 = Ret (repeat 32 (k * 3)).
Proof.
  unfold spaces_b64. induction k as [|k IH]; [reflexivity|].
  cbn [repeat List.concat].
  change (str "ICAg" ++ List.concat (repeat (str "ICAg") k))
    with (73 :: 67 :: 65 :: 103 :: List.concat (repeat (str "ICAg") k)).
  cbn [a2b_base64]. cbn -[a2b_base64 repeat List.concat str].
  rewrite IH. reflexivity.
Qed.

Lemma urlsafe_b64decode_spaces (k : nat) :
  urlsafe_b64decode (spaces_b64 k) = Ret (repeat 32 (k * 3)).
Proof.
  unfold urlsafe_b64decode.
  now rewrite spaces_b64_ascii, a2b_base64_spaces.
Qed.

Lemma decode_utf8_spaces (n : nat) :
  decode_utf8_ignore (repeat 32 n) = repeat 32 n.
Proof. induction n as [|n IH]; [reflexivity|]. cbn. now rewrite IH. Qed.

Lemma strip_spaces (n : nat) : strip (repeat 32 n) = [].
Proof.
  unfold strip, strip_by.
  assert (H : lstrip_by isspace (repeat 32 n) = []).
  { induction n as [|n IH]; [reflexivity|]. cbn. exact IH. }
  now rewrite H.
Qed.

Lemma count_by_128_spaces (n : nat) :
  count_by_128 (repeat 32 n) = (Z.of_nat n + 127) / 128.
Proof. unfold count_by_128. now rewrite repeat_length. Qed.

Lemma blank_attachment_reported_empty (k : nat) :
  gmail_read_attchment_content (blank_services_of k) (str "m1") None
  = str "Attachment was processed but no extractable text was found.".
Proof.
  unfold gmail_read_attchment_content.
  rewrite (read_attachment_body_selected (blank_services_of k) (str "m1") None
             (fun text => Ret (count_by_128 text))
             (mkMessage (Some blank_txt) None)
             (named "text/plain" "blank.txt" (remote "att1" 3840129))
             (str "att1") eq_refl eq_refl eq_refl).
  unfold read_matched.
  change (attachments_get (blank_services_of k) (str "m1") (str "att1"))
    with (Ret (A := option pystr) (Some (spaces_b64 k))).
  cbn [bind getitem]. rewrite urlsafe_b64decode_spaces. cbn [bind].
  change (extract_text (blank_services_of k)
            (lower (get_or (filename (named "text/plain" "blank.txt"
                                        (remote "att1" 3840129)))
                           (str "attachment")))
            (repeat 32 (k * 3)))
    with (Ret (A := option pystr) (Some (decode_utf8_ignore (repeat 32 (k * 3))))).
  cbn [bind]. rewrite decode_utf8_spaces, strip_spaces. reflexivity.
Qed.

(** C7, as stated, fails: a text attachment of 3840129 spaces is more
    than 30000 tokens for any tokenizer whose tokens span at most 128
    code points, and what comes back is the message for an attachment
    without text, which names neither the limit nor the count. *)
Lemma blank_text_over_limit_not_reported :
  (b <- urlsafe_b64decode (spaces_b64 (Z.to_nat 1280043)) ;;
   Ret (decode_utf8_ignore b))
  = Ret (repeat 32 (Z.to_nat 1280043 * 3))
  /\ MAX_TOKENS < count_by_128 (repeat 32 (Z.to_nat 1280043 * 3))
  /\ gmail_read_attchment_content blank_services (str "m1") None
     = str "Attachment was processed but no extractable text was found.".
Proof.
  split; [|split].
  - rewrite urlsafe_b64decode_spaces. cbn [bind].
    now rewrite decode_utf8_spaces.
  - rewrite count_by_128_spaces.
    replace (Z.of_nat (Z.to_nat 1280043 * 3)) with 3840129 by lia.
    reflexivity.
  - apply blank_attachment_reported_empty.
Qed.

(* ================================================================== *)
(** * Further properties *)
(* ================================================================== *)

(** ** The walker of the search tool *)

Lemma extract_attachments_node flt mt fn hd bd ps acc :
  extract_attachments_recursive flt (mkPayload mt fn hd bd (Some ps)) acc
  = fold_left (fun a q => extract_attachments_recursive flt q a) ps acc.
Proof.
  cbn [extract_attachments_recursive].
  revert acc. induction ps as [|q ps IH]; intros acc; [reflexivity|].
  exact (IH _).
Qed.

Lemma extract_attachments_leaf flt (n : Payload) acc :
  parts n = None ->
  extract_attachments_recursive flt n acc
  = acc ++ map found_of (filter (found_test flt) [n]).
Proof.
  destruct n as [mt fn hd bd ps]; cbn [parts]; intros ->.
  cbn [extract_attachments_recursive filter].
  unfold found_test, found_of, body_attachment_id.
  cbn [parts filename mimeType body].
  destruct (nonempty (strip (get_or fn []))); cbn [andb];
    [|now rewrite app_nil_r].
  destruct (truthy flt && negb (opt_str_eqb flt (get_or mt [])));
    cbn [negb map]; [now rewrite app_nil_r | reflexivity].
Qed.

Lemma extract_attachments_walk (flt : option pystr) (p : Payload) :
  forall acc,
    extract_attachments_recursive flt p acc
    = acc ++ map found_of (filter (found_test flt) (preorder p)).
Proof.
  induction p as [mt fn hd bd | mt fn hd bd ps IH] using Payload_tree_ind;
    intros acc.
  - now apply extract_attachments_leaf.
  - rewrite extract_attachments_node.
    change (filter (found_test flt)
              (preorder (mkPayload mt fn hd bd (Some ps))))
      with (filter (found_test flt) (flat_map preorder ps)).
    revert acc. induction IH as [|q ps Hq _ IHps]; intros acc; cbn.
    + now rewrite app_nil_r.
    + rewrite Hq, IHps, filter_app, map_app. now rewrite app_assoc.
Qed.

(** X1.  The walker of the search tool returns, behind what it was
    given, one dictionary for each node of the tree, the root included,
    that has no ['parts'] key, a filename that is not blank and, under
    a filter, the content type of the filter, in depth-first
    pre-order. *)
Theorem extract_attachments_recursive_lists_named_leaves
    (flt : option pystr) (p : Payload) (acc : list Found.t) :
  extract_attachments_recursive flt p acc
  = acc ++ map found_of (filter (found_test flt) (preorder p)).
Proof. apply extract_attachments_walk. Qed.

(** ** The search tool *)

Lemma message_loop_firstn (svc : Services) (max_results : Z)
    (flt : option pystr) (message_list : list MsgRef) :
  forall valid,
    message_loop svc max_results flt message_list valid
    = valid ++ firstn (Z.to_nat max_results - List.length valid)
                      (kept_messages svc flt message_list).
Proof.
  induction message_list as [|m ml IH]; intros valid; cbn [message_loop].
  - cbn. now rewrite firstn_nil, app_nil_r.
  - unfold kept_messages; cbn [flat_map]; fold (kept_messages svc flt ml).
    destruct (max_results <=? Z.of_nat (List.length valid)) eqn:E.
    + apply Z.leb_le in E.
      replace (Z.to_nat max_results - List.length valid)%nat with 0%nat
        by lia.
      cbn. now rewrite app_nil_r.
    + apply Z.leb_gt in E.
      destruct (process_message svc flt m) as [[md|]|e]; cbn [app];
        try apply IH.
      rewrite IH, length_app. cbn [List.length].
      destruct (Z.to_nat max_results - List.length valid)%nat as [|k] eqn:K;
        [lia|].
      cbn [firstn]. rewrite <- app_assoc. cbn [app].
      do 3 f_equal. lia.
Qed.

Lemma find_messages_kept (svc : Services) (max_results : Z)
    (query sender subject_contains date_after date_before
     attachment_type mime_type flt : option pystr)
    (candidates : list MsgRef) :
  filter_mime_type attachment_type mime_type = inl flt ->
  messages_list svc (max_results * 5)
    (search_query query sender subject_contains date_after date_before)
  = Ret candidates ->
  gmail_find_messages_with_attachments svc max_results query sender
    subject_contains date_after date_before attachment_type mime_type
  = FindSuccess
      (Z.of_nat (List.length
                   (firstn (Z.to_nat max_results)
                           (kept_messages svc flt candidates))))
      (search_query query sender subject_contains date_after date_before)
      (firstn (Z.to_nat max_results) (kept_messages svc flt candidates)).
Proof.
  intros Hf Hl. unfold gmail_find_messages_with_attachments.
  rewrite Hf, Hl.
  destruct candidates as [|m ml]; [now rewrite firstn_nil|].
  rewrite message_loop_firstn. cbn [app List.length].
  now rewrite Nat.sub_0_r.
Qed.

(** X2.  When the filter is accepted and the search answers, the tool
    returns the first [max_results] of the candidates that can be
    fetched and hold a matching attachment, in the order of the search
    result, and [count] is their number. *)
Theorem search_returns_first_matches (svc : Services) (max_results : Z)
    (query sender subject_contains date_after date_before
     attachment_type mime_type flt : option pystr)
    (candidates : list MsgRef) :
  filter_mime_type attachment_type mime_type = inl flt ->
  messages_list svc (max_results * 5)
    (search_query query sender subject_contains date_after date_before)
  = Ret candidates ->
  gmail_find_messages_with_attachments svc max_results query sender
    subject_contains date_after date_before attachment_type mime_type
  = FindSuccess
      (Z.of_nat (List.length
                   (firstn (Z.to_nat max_results)
                           (kept_messages svc flt candidates))))
      (search_query query sender subject_contains date_after date_before)
      (firstn (Z.to_nat max_results) (kept_messages svc flt candidates)).
Proof. apply find_messages_kept. Qed.

Lemma search_returns_first_matches_witness :
  gmail_find_messages_with_attachments (paged_services 5) 2
    None None None None None None None
  = FindSuccess 2 (str "has:attachment")
      (firstn 2 (kept_messages (paged_services 5) None
                   (repeat (mkMsgRef (Some (str "m1"))) 10))).
Proof.
  apply (search_returns_first_matches (paged_services 5) 2
           None None None None None None None None
           (repeat (mkMsgRef (Some (str "m1"))) 10));
    reflexivity.
Defined.

Lemma filter_mime_type_nonempty (attachment_type mime_type : option pystr)
    (f : pystr) :
  filter_mime_type attachment_type mime_type = inl (Some f) ->
  truthy (Some f) = true.
Proof.
  unfold filter_mime_type, given, stripped.
  destruct (truthy mime_type && nonempty (strip (get_or mime_type [])))
    eqn:Em.
  - intros H; injection H as <-.
    now apply andb_true_iff in Em as [_ Em].
  - destruct (truthy attachment_type
              && nonempty (strip (get_or attachment_type []))); [|discriminate].
    destruct (dict_find ATTACHMENT_MIME_TYPES _) as [m|] eqn:Ed;
      [|discriminate].
    intros H; injection H as <-.
    unfold dict_find in Ed.
    destruct (find _ ATTACHMENT_MIME_TYPES) as [kv|] eqn:Ek; [|discriminate].
    injection Ed as <-.
    apply find_some in Ek as [Hin _].
    assert (Hall : forallb (fun kv => nonempty (snd kv))
                           ATTACHMENT_MIME_TYPES = true)
      by (vm_compute; reflexivity).
    rewrite forallb_forall in Hall. exact (Hall kv Hin).
Qed.

Lemma process_message_well_counted (svc : Services) (flt : option pystr)
    (m : MsgRef) (md : MessageData.t) :
  process_message svc flt m = Ret (Some md) -> well_counted flt md.
Proof.
  unfold process_message.
  destruct (getitem "id" (id m)) as [i|e]; cbn [bind]; [|discriminate].
  destruct (messages_get svc i) as [msg|e]; cbn [bind]; [|discriminate].
  destruct (headers_loop _ _) as [hd|e]; cbn [bind]; [|discriminate].
  rewrite (extract_attachments_walk flt _ []).
  cbn [app].
  set (root := get_or (payload msg) empty_payload).
  destruct (map found_of (filter (found_test flt) (preorder root)))
    as [|a l] eqn:E; cbn [negb]; [discriminate|].
  intros H; injection H as <-. unfold well_counted; cbn.
  repeat split; try discriminate.
  intros Ht. rewrite <- E.
  apply Forall_map, Forall_forall. intros n Hn.
  apply filter_In in Hn as [_ Hn].
  unfold found_test in Hn. destruct (parts n); [discriminate|].
  apply andb_true_iff in Hn as [_ Hn].
  rewrite Ht in Hn. cbn in Hn. apply negb_true_iff, negb_false_iff in Hn.
  destruct flt as [f|]; [|discriminate]. cbn in *.
  apply str_eqb_eq in Hn. now symmetry.
Qed.

Lemma in_firstn {A} (n : nat) (l : list A) (x : A) :
  In x (firstn n l) -> In x l.
Proof.
  intros H. rewrite <- (firstn_skipn n l). apply in_or_app. now left.
Qed.

Lemma found_messages_well_counted (svc : Services) (max_results : Z)
    (query sender subject_contains date_after date_before
     attachment_type mime_type flt : option pystr) :
  filter_mime_type attachment_type mime_type = inl flt ->
  Forall (well_counted flt)
    (found_messages
       (gmail_find_messages_with_attachments svc max_results query sender
          subject_contains date_after date_before attachment_type
          mime_type)).
Proof.
  intros Hf.
  destruct (messages_list svc (max_results * 5)
              (search_query query sender subject_contains date_after
                            date_before)) as [candidates|e] eqn:Hl.
  - rewrite (find_messages_kept _ _ _ _ _ _ _ _ _ _ _ Hf Hl).
    cbn [found_messages]. apply Forall_forall. intros md Hin.
    apply in_firstn in Hin. unfold kept_messages in Hin.
    apply in_flat_map in Hin as [m [_ Hm]].
    destruct (process_message svc flt m) as [[md'|]|e] eqn:E;
      try contradiction.
    destruct Hm as [<-|[]].
    exact (process_message_well_counted _ _ _ _ E).
  - unfold gmail_find_messages_with_attachments. rewrite Hf, Hl.
    destruct e; constructor.
Qed.

(** X3.  Every message the search tool returns holds at least one
    attachment, its [attachment_count] is the number of its attachments
    and its [total_size_bytes] the sum of their sizes. *)
Theorem found_messages_count_their_attachments (svc : Services)
    (max_results : Z)
    (query sender subject_contains date_after date_before
     attachment_type mime_type flt : option pystr) :
  filter_mime_type attachment_type mime_type = inl flt ->
  Forall (fun md =>
            MessageData.attachments md <> []
            /\ MessageData.attachment_count md
               = Z.of_nat (List.length (MessageData.attachments md))
            /\ MessageData.total_size_bytes md
               = fold_left Z.add
                   (map Found.size_bytes (MessageData.attachments md)) 0)
    (found_messages
       (gmail_find_messages_with_attachments svc max_results query sender
          subject_contains date_after date_before attachment_type
          mime_type)).
Proof.
  intros Hf.
  eapply Forall_impl; [|exact (found_messages_well_counted svc max_results
    query sender subject_contains date_after date_before _ _ _ Hf)].
  intros md (H1 & H2 & H3 & _). auto.
Qed.

Lemma found_messages_count_their_attachments_witness :
  Forall (fun md =>
            MessageData.attachments md <> []
            /\ MessageData.attachment_count md
               = Z.of_nat (List.length (MessageData.attachments md))
            /\ MessageData.total_size_bytes md
               = fold_left Z.add
                   (map Found.size_bytes (MessageData.attachments md)) 0)
    (found_messages
       (gmail_find_messages_with_attachments (paged_services 5) 2
          None None None None None None None)).
Proof.
  apply (found_messages_count_their_attachments (paged_services 5) 2
           None None None None None None None None).
  reflexivity.
Defined.

(** X4.  Under a filter, given as an exact MIME type or as an attachment
    type of the table, every attachment of every returned message has
    the MIME type of the filter. *)
Theorem found_attachments_match_filter (svc : Services) (max_results : Z)
    (query sender subject_contains date_after date_before
     attachment_type mime_type : option pystr) (f : pystr) :
  filter_mime_type attachment_type mime_type = inl (Some f) ->
  Forall (fun md =>
            Forall (fun a => Found.mime_type a = f)
                   (MessageData.attachments md))
    (found_messages
       (gmail_find_messages_with_attachments svc max_results query sender
          subject_contains date_after date_before attachment_type
          mime_type)).
Proof.
  intros Hf.
  eapply Forall_impl; [|exact (found_messages_well_counted svc max_results
    query sender subject_contains date_after date_before _ _ _ Hf)].
  intros md (_ & _ & _ & H). apply H.
  exact (filter_mime_type_nonempty _ _ _ Hf).
Qed.

Lemma found_attachments_match_filter_witness :
  filter_mime_type (Some (str "PDF")) None
  = inl (Some (str "application/pdf"))
  /\ Forall (fun md =>
               Forall (fun a => Found.mime_type a = str "application/pdf")
                      (MessageData.attachments md))
       (found_messages
          (gmail_find_messages_with_attachments (paged_services 5) 2
             None None None None None (Some (str "PDF")) None)).
Proof.
  split; [reflexivity|].
  apply (found_attachments_match_filter (paged_services 5) 2
           None None None None None (Some (str "PDF")) None
           (str "application/pdf")).
  reflexivity.
Defined.

(** ** Failure of the attachment list *)

Lemma process_part_leaf_fails (n : Payload) (acc : list Att.t) :
  parts n = None ->
  keys_present n = false ->
  missing_key (process_part n acc).
Proof.
  destruct n as [mt fn hd bd ps]; cbn [parts]; intros -> Hk.
  unfold keys_present, body_attachment_id, missing_key in *.
  cbn [parts filename body mimeType] in Hk. cbn [process_part].
  destruct fn as [[|c f]|]; cbn in *; try discriminate.
  destruct bd as [[d a sz]|]; cbn in *; [|now left].
  destruct a as [[|c' a]|]; cbn in *; try discriminate.
  destruct mt as [m|]; [discriminate | now right].
Qed.

Lemma process_part_fails (n : Payload) :
  forall acc,
    forallb keys_present (preorder n) = false ->
    missing_key (process_part n acc).
Proof.
  induction n as [mt fn hd bd | mt fn hd bd ps IH] using Payload_tree_ind;
    intros acc Hk.
  - apply process_part_leaf_fails; [reflexivity|].
    cbn in Hk. now rewrite andb_true_r in Hk.
  - rewrite process_part_node.
    rewrite preorder_unfold in Hk. cbn [forallb get_or] in Hk.
    change (keys_present (mkPayload mt fn hd bd (Some ps))) with true in Hk.
    cbn [andb] in Hk.
    revert acc Hk.
    induction IH as [|q qs Hq _ IHqs]; intros acc Hk; [discriminate|].
    cbn [flat_map] in Hk. rewrite forallb_app in Hk.
    cbn [process_parts].
    destruct (forallb keys_present (preorder q)) eqn:Eq.
    + rewrite (process_walk q acc Eq). cbn [bind]. apply IHqs. exact Hk.
    + destruct (Hq acc eq_refl) as [E|E]; rewrite E; [now left | now right].
Qed.

Lemma get_attachment_info_fails (p : Payload) :
  forallb keys_present (below p) = false ->
  missing_key (get_attachment_info p).
Proof.
  unfold get_attachment_info, below, children.
  destruct p as [mt fn hd bd [ps|]]; cbn [parts get_or];
    [|discriminate].
  intros Hk.
  pose proof (process_part_fails (mkPayload None None None None (Some ps)) []) as H.
  rewrite process_part_node in H. apply H.
  rewrite preorder_unfold. cbn [forallb get_or]. exact Hk.
Qed.

Lemma get_attachment_info_walk (p : Payload) :
  forallb keys_present (below p) = true ->
  get_attachment_info p = Ret (map record_of (filter listed (below p))).
Proof.
  intros Hk. unfold get_attachment_info, below, children in *.
  destruct (parts p) as [ps|]; simpl in *; [|reflexivity].
  apply (process_parts_walk ps [] Hk).
Qed.

(** X5.  The attachment list fails exactly when some part below the
    root has a non-empty filename and no ['body'] key, or a non-empty
    filename and attachment id and no ['mimeType'] key; the failure is
    the [KeyError] of one of these two keys, and no partial list comes
    back.  When no part is such, the list comes back, with one record
    for each listed part. *)
Theorem get_attachment_info_fails_on_missing_key (p : Payload) :
  (forallb keys_present (below p) = false ->
   get_attachment_info p = Raise (KeyError (str "body"))
   \/ get_attachment_info p = Raise (KeyError (str "mimeType")))
  /\ (forallb keys_present (below p) = true ->
      get_attachment_info p
      = Ret (map record_of (filter listed (below p))))
  /\ ((exists l, get_attachment_info p = Ret l) ->
      forallb keys_present (below p) = true).
Proof.
  split; [apply get_attachment_info_fails|].
  split; [apply get_attachment_info_walk|].
  intros [l Hl].
  destruct (forallb keys_present (below p)) eqn:E; [reflexivity|].
  destruct (get_attachment_info_fails p E) as [H|H];
    rewrite H in Hl; discriminate.
Qed.

Lemma get_attachment_info_fails_on_missing_key_witness :
  forallb keys_present (below untyped_attachment) = false
  /\ (get_attachment_info untyped_attachment
      = Raise (KeyError (str "body"))
      \/ get_attachment_info untyped_attachment
         = Raise (KeyError (str "mimeType")))
  /\ forallb keys_present (below signed_mail) = true
  /\ get_attachment_info signed_mail
     = Ret (map record_of (filter listed (below signed_mail))).
Proof.
  split; [reflexivity|]. split.
  - apply (proj1 (get_attachment_info_fails_on_missing_key
                    untyped_attachment)).
    reflexivity.
  - split; [reflexivity|].
    apply (proj1 (proj2 (get_attachment_info_fails_on_missing_key
                           signed_mail))).
    reflexivity.
Defined.

(** ** Reading an attachment within the limit *)

(** X6.  When the text extracted from the selected attachment is not
    blank and its token count does not exceed the limit, the handler
    returns the text without its leading and trailing white space. *)
Theorem text_within_limit_is_returned_stripped (svc : Services)
    (message_id : pystr) (attachment_id : option pystr)
    (encoding : pystr -> Res Z) (message : Message)
    (part : Payload) (aid encoded : pystr) (data : bytes)
    (text : pystr) (token_count : Z) :
  tiktoken_get_encoding svc = Ret encoding ->
  messages_get svc message_id = Ret message ->
  selected_part (message_parts message) attachment_id = Some (part, aid) ->
  attachments_get svc message_id aid = Ret (Some encoded) ->
  urlsafe_b64decode encoded = Ret data ->
  extract_text svc (lower (get_or (filename part) (str "attachment"))) data
  = Ret (Some text) ->
  strip text <> [] ->
  encoding text = Ret token_count ->
  token_count <= MAX_TOKENS ->
  gmail_read_attchment_content svc message_id attachment_id = strip text.
Proof.
  intros He Hm Hs Ha Hd Hx Hb Ht Hn.
  unfold gmail_read_attchment_content.
  rewrite (read_attachment_body_selected _ _ _ _ _ _ _ He Hm Hs).
  unfold read_matched.
  rewrite Ha; cbn [bind getitem]. rewrite Hd; cbn [bind].
  rewrite Hx; cbn [bind].
  destruct (strip text) as [|c s] eqn:Es; [contradiction|].
  cbn [nonempty negb]. rewrite Ht; cbn [bind].
  apply Z.ltb_ge in Hn. rewrite Hn. reflexivity.
Qed.

Lemma text_within_limit_is_returned_stripped_witness :
  gmail_read_attchment_content
    (one_message hello_txt (Some (str "IEhlbGxvCg==")) (fun _ => 3)
                 (fun _ => []))
    (str "m1") None
  = str "Hello".
Proof.
  apply (text_within_limit_is_returned_stripped
           (one_message hello_txt (Some (str "IEhlbGxvCg==")) (fun _ => 3)
                        (fun _ => []))
           (str "m1") None (fun _ => Ret 3)
           (mkMessage (Some hello_txt) None)
           (named "text/plain" "Notes.TXT" (remote "att1" 5))
           (str "att1") (str "IEhlbGxvCg==")
           ([32] ++ str "Hello" ++ [10]) ([32] ++ str "Hello" ++ [10]) 3);
    first [reflexivity | discriminate].
Defined.

Lemma auto_select_some (ps : list Payload) (part : Payload) (aid : pystr) :
  auto_select ps = Ret (Some (part, aid)) ->
  In part ps
  /\ body_attachment_id part = Some aid
  /\ aid <> []
  /\ supported (lower (get_or (filename part) (str "attachment"))) = true.
Proof.
  rewrite auto_select_first_of_list.
  destruct (find selectable ps) as [n|] eqn:E; cbn [option_map];
    [|discriminate].
  intros H; injection H as <- <-.
  apply find_some in E as [Hin Hsel].
  unfold selectable in Hsel. apply andb_true_iff in Hsel as [Hs Ha].
  assert (Hf : get_or (filename n) (str "attachment")
               = get_or (filename n) []).
  { destruct (filename n); [reflexivity|]. cbn in Hs. discriminate. }
  rewrite Hf.
  split; [exact Hin|].
  destruct (body_attachment_id n) as [[|c s]|]; cbn in *;
    try discriminate.
  repeat split; [discriminate | exact Hs].
Qed.

Lemma extract_text_of_supported (svc : Services) (filename : pystr)
    (data : bytes) :
  supported filename = true ->
  extract_text svc filename data <> Ret None.
Proof.
  unfold extract_text, supported.
  destruct (endswith _ (str ".pdf"));
    [destruct (pdf_pages svc data); cbn; discriminate|].
  destruct (endswith _ (str ".docx"));
    [destruct (docx_paragraphs svc data); cbn; discriminate|].
  destruct (endswith _ (str ".txt")); discriminate.
Qed.

Lemma read_matched_of_supported (svc : Services) (encoding : pystr -> Res Z)
    (message_id : pystr) (part : Payload) (aid : pystr) :
  supported (lower (get_or (filename part) (str "attachment"))) = true ->
  (exists e, read_matched svc encoding message_id part aid = Raise e)
  \/ exists encoded data text,
       attachments_get svc message_id aid = Ret (Some encoded)
       /\ urlsafe_b64decode encoded = Ret data
       /\ extract_text svc
            (lower (get_or (filename part) (str "attachment"))) data
          = Ret (Some text)
       /\ (read_matched svc encoding message_id part aid
           = Ret (str "Attachment was processed but no extractable text was found.")
           \/ (exists n,
                 read_matched svc encoding message_id part aid
                 = Ret (too_large
                          (lower (get_or (filename part) (str "attachment")))
                          n))
           \/ read_matched svc encoding message_id part aid
              = Ret (strip text)).
Proof.
  intros Hs. unfold read_matched. cbv zeta.
  destruct (attachments_get svc message_id aid) as [[encoded|]|e];
    cbn [bind getitem]; [| left; eauto | left; eauto].
  destruct (urlsafe_b64decode encoded) as [data|e] eqn:Ed; cbn [bind];
    [| left; eauto].
  pose proof (extract_text_of_supported svc _ data Hs) as Hx.
  destruct (extract_text svc _ data) as [[text|]|e] eqn:Ex; cbn [bind];
    [| contradiction | left; eauto].
  destruct (nonempty (strip text)); cbn [negb].
  - destruct (encoding text) as [n|e]; cbn [bind]; [| left; eauto].
    right. exists encoded, data, text.
    split; [reflexivity|]. split; [exact Ed|]. split; [exact Ex|].
    destruct (MAX_TOKENS <? n); [right; left; exists n | right; right];
      reflexivity.
  - right. exists encoded, data, text.
    split; [reflexivity|]. split; [exact Ed|]. split; [exact Ex|].
    now left.
Qed.

(** X7.  The part the loop of the automatic selection settles on is
    one of the parts it was given, has a non-empty attachment id and a
    name with one of the three supported endings, so that its text is
    extracted.  Hence without an attachment id the handler answers with
    an error text, with the text for no supported attachment, or, for a
    top-level part with a supported name whose text was extracted, with
    the text for no extractable text, the text for a file over the
    limit or the stripped text: the branch for an unsupported file type
    is out of reach. *)
Theorem auto_selected_part_is_supported (svc : Services)
    (message_id : pystr) :
  (forall ps part aid data,
     auto_select ps = Ret (Some (part, aid)) ->
     In part ps
     /\ body_attachment_id part = Some aid
     /\ aid <> []
     /\ supported (lower (get_or (filename part) (str "attachment"))) = true
     /\ extract_text svc
          (lower (get_or (filename part) (str "attachment"))) data
        <> Ret None)
  /\ ((exists e,
         gmail_read_attchment_content svc message_id None
         = str "Error extracting attachment text: " ++ exn_str svc e)
      \/ gmail_read_attchment_content svc message_id None
         = str "No supported attachment (.pdf, .docx, .txt) found in this message."
      \/ exists message part aid encoded data text,
           messages_get svc message_id = Ret message
           /\ auto_select (message_parts message) = Ret (Some (part, aid))
           /\ In part (message_parts message)
           /\ supported (lower (get_or (filename part) (str "attachment")))
              = true
           /\ attachments_get svc message_id aid = Ret (Some encoded)
           /\ urlsafe_b64decode encoded = Ret data
           /\ extract_text svc
                (lower (get_or (filename part) (str "attachment"))) data
              = Ret (Some text)
           /\ (gmail_read_attchment_content svc message_id None
               = str "Attachment was processed but no extractable text was found."
               \/ (exists n,
                     gmail_read_attchment_content svc message_id None
                     = too_large
                         (lower (get_or (filename part) (str "attachment")))
                         n)
               \/ gmail_read_attchment_content svc message_id None
                  = strip text)).
Proof.
  split.
  - intros ps part aid data H.
    destruct (auto_select_some ps part aid H) as (H1 & H2 & H3 & H4).
    repeat split; try assumption.
    now apply extract_text_of_supported.
  - unfold gmail_read_attchment_content, read_attachment_body.
    destruct (tiktoken_get_encoding svc) as [encoding|e]; cbn [bind];
      [| left; exists e; reflexivity].
    destruct (messages_get svc message_id) as [message|e] eqn:Em;
      cbn [bind]; [| left; exists e; reflexivity].
    cbv zeta. cbn [truthy negb].
    fold (message_parts message).
    destruct (auto_select (message_parts message)) as [[[part aid]|]|e]
      eqn:Ea; cbn [bind]; [| right; left; reflexivity
                           | left; exists e; reflexivity].
    destruct (auto_select_some _ part aid Ea) as (H1 & _ & _ & H4).
    destruct (read_matched_of_supported svc encoding message_id part aid H4)
      as [[e He] | (encoded & data & text & Hg & Hd & Hx & Hr)].
    + rewrite He. left. exists e. reflexivity.
    + right. right. exists message, part, aid, encoded, data, text.
      repeat split; try assumption.
      destruct Hr as [Hr | [[n Hr] | Hr]]; rewrite Hr; cbn [catch];
        [left | right; left; exists n | right; right]; reflexivity.
Qed.

Lemma auto_selected_part_is_supported_witness :
  auto_select (children hello_txt)
  = Ret (Some (named "text/plain" "Notes.TXT" (remote "att1" 5), str "att1"))
  /\ supported (str "notes.txt") = true
  /\ extract_text greedy_services (str "notes.txt") [] <> Ret None.
Proof.
  split; [reflexivity|].
  destruct (proj1 (auto_selected_part_is_supported greedy_services
                     (str "m1"))
              (children hello_txt)
              (named "text/plain" "Notes.TXT" (remote "att1" 5))
              (str "att1") [] eq_refl)
    as (_ & _ & _ & Hs & Hx).
  split; [exact Hs | exact Hx].
Defined.

(** ** The HTML fallback *)

(** X8.  On a payload tree (body data on leaves only) without a
    non-empty plain text, the body is the text of the first HTML node
    that holds one, in depth-first pre-order, after [strip_html_tags]. *)
Theorem extract_email_body_falls_back_to_html
    (unescape : pystr -> pystr) (p : Payload) (h : pystr) :
  leaf_data p = true ->
  first_text (str "text/plain") p = None ->
  first_text (str "text/html") p = Some h ->
  extract_email_body unescape p = Ret (strip_html_tags unescape h).
Proof.
  intros Hl Hp Hh. unfold extract_email_body.
  destruct (extract_nothing _ _ Hp) as [r1 [E1 F1]].
  destruct (extract_first_text (str "text/html") p Hl) as [r2 [E2 C2]].
  rewrite E1; cbn [bind]. rewrite F1, E2; cbn [bind].
  rewrite Hh in C2. unfold content in C2.
  destruct (truthy r2); [|discriminate]. now subst r2.
Qed.

Lemma extract_email_body_falls_back_to_html_witness :
  leaf_data empty_plain_with_html = true
  /\ first_text (str "text/plain") empty_plain_with_html = None
  /\ first_text (str "text/html") empty_plain_with_html
     = Some (str "<b>x</b>")
  /\ extract_email_body unescape_basic empty_plain_with_html
     = Ret (str "x").
Proof.
  repeat (split; [reflexivity|]).
  apply (extract_email_body_falls_back_to_html unescape_basic
           empty_plain_with_html (str "<b>x</b>")); reflexivity.
Defined.

(** X9.  After the tag substitution of [strip_html_tags] no [<] is left
    with a [>] behind it on the same line. *)
Theorem tag_substitution_leaves_no_line_tag (html_content : pystr) :
  has_tag (sub_tags false html_content) = false.
Proof. apply sub_tags_removes_line_tags. Qed.

(** ** The Drive listing *)

Lemma separate_filters (items : list DriveFile.t) :
  forall fs gs,
    separate items = Ret (fs, gs) ->
    fs = filter is_folder items
    /\ gs = filter (fun i => negb (is_folder i)) items.
Proof.
  induction items as [|i items IH]; cbn [separate filter]; intros fs gs H.
  - now injection H as <- <-.
  - destruct (DriveFile.mimeType i) as [m|] eqn:Em; cbn [getitem bind] in H;
      [|discriminate].
    destruct (separate items) as [[fs' gs']|e]; cbn [bind fst snd] in H;
      [|discriminate].
    destruct (IH fs' gs' eq_refl) as [-> ->].
    assert (Hi : is_folder i = str_eqb m folder_mime)
      by (unfold is_folder; now rewrite Em).
    rewrite Hi.
    destruct (str_eqb m folder_mime); cbn [negb];
      injection H as <- <-; split; reflexivity.
Qed.

Lemma each_folder_line_ids (fs : list DriveFile.t) :
  forall ls,
    each folder_line fs = Ret ls ->
    map (fun l => Some (line_id l)) ls = map DriveFile.id fs.
Proof.
  induction fs as [|f fs IH]; cbn [each]; intros ls H.
  - now injection H as <-.
  - unfold folder_line at 1 in H.
    destruct (DriveFile.name f) as [n|]; cbn [getitem bind] in H;
      [|discriminate].
    destruct (DriveFile.id f) as [i|] eqn:Ei; cbn [getitem bind] in H;
      [|discriminate].
    destruct (each folder_line fs) as [ls'|e]; cbn [bind] in H;
      [|discriminate].
    injection H as <-. cbn. now rewrite Ei, (IH ls' eq_refl).
Qed.

Lemma each_file_line_ids (gs : list DriveFile.t) :
  forall ls,
    each file_line gs = Ret ls ->
    map (fun l => Some (line_id l)) ls = map DriveFile.id gs
    /\ map (fun l => Some (line_mime l)) ls = map DriveFile.mimeType gs.
Proof.
  induction gs as [|g gs IH]; cbn [each]; intros ls H.
  - now injection H as <-.
  - unfold file_line at 1 in H.
    rewrite call_format_file_size in H.
    destruct (truthy (DriveFile.size g)); cbn [bind] in H;
      (destruct (DriveFile.mimeType g) as [m|] eqn:Em;
         cbn [getitem bind] in H; [|discriminate];
       destruct (DriveFile.name g) as [n|]; cbn [getitem bind] in H;
         [|discriminate];
       destruct (DriveFile.id g) as [i|] eqn:Ei; cbn [getitem bind] in H;
         [|discriminate];
       destruct (each file_line gs) as [ls'|e]; cbn [bind] in H;
         [|discriminate];
       injection H as <-; cbn; rewrite Ei, Em;
       destruct (IH ls' eq_refl) as [-> ->]; now split).
Qed.

Lemma list_all_body_shows_items (svc : Services) (query order_by : pystr)
    (max_results shown : Z) (folders files : list drive_line)
    (total : option pystr) :
  list_all_body svc query max_results order_by
  = Ret (DriveListing shown folders files total) ->
  exists items,
    files_list svc query (Z.min max_results 1000) order_by = Ret items
    /\ shown = Z.of_nat (List.length items)
    /\ map (fun l => Some (line_id l)) folders
       = map DriveFile.id (filter is_folder items)
    /\ map (fun l => Some (line_id l)) files
       = map DriveFile.id (filter (fun i => negb (is_folder i)) items)
    /\ Forall (fun l => str_eqb (line_mime l) folder_mime = false) files.
Proof.
  unfold list_all_body.
  destruct (files_list svc query (Z.min max_results 1000) order_by)
    as [items|e] eqn:El; cbn [bind]; [|discriminate].
  destruct items as [|i items]; [discriminate|].
  cbv beta iota. remember (i :: items) as l eqn:Hl. clear Hl.
  destruct (separate l) as [[fs gs]|e] eqn:Es;
    cbn [bind fst snd]; [|discriminate].
  apply separate_filters in Es as [-> ->].
  destruct (each folder_line _) as [fls|e] eqn:Ef;
    cbn [bind]; [|discriminate].
  destruct (each file_line _) as [gls|e] eqn:Eg;
    cbn [bind]; [|discriminate].
  apply each_folder_line_ids in Ef.
  apply each_file_line_ids in Eg as [Eg1 Eg2].
  destruct (size_totals l) as [tc|e]; cbn [bind]; [|discriminate].
  rewrite call_format_file_size.
  intros H. exists l. split; [reflexivity|].
  assert (Hshape : shown = Z.of_nat (List.length l)
                   /\ folders = fls /\ files = gls).
  { destruct (0 <? snd tc); cbn [bind] in H; injection H as <- <- <- _;
      auto. }
  destruct Hshape as (-> & -> & ->).
  repeat split; try assumption.
  apply Forall_forall. intros ln Hin.
  apply (in_map (fun l => Some (line_mime l))) in Hin.
  rewrite Eg2 in Hin. apply in_map_iff in Hin as [g [Hg Hin]].
  apply filter_In in Hin as [_ Hn]. unfold is_folder in Hn.
  rewrite Hg in Hn. cbn in Hn. now apply negb_true_iff in Hn.
Qed.

(** X10.  A listing the Drive tool returns shows every file of the
    service's answer once: the folders among them, in their order, as
    the folder lines, the others, in their order, as the file lines, no
    folder among the latter; and the number it announces is the number
    of files in the answer. *)
Theorem drive_listing_shows_each_item_once (svc : Services)
    (max_results shown : Z) (file_type : option pystr) (order_by : pystr)
    (folders files : list drive_line) (total : option pystr) :
  drive_list_all_files svc max_results file_type order_by
  = DriveListing shown folders files total ->
  exists query items,
    files_list svc query (Z.min max_results 1000) order_by = Ret items
    /\ shown = Z.of_nat (List.length items)
    /\ map (fun l => Some (line_id l)) folders
       = map DriveFile.id (filter is_folder items)
    /\ map (fun l => Some (line_id l)) files
       = map DriveFile.id (filter (fun i => negb (is_folder i)) items)
    /\ Forall (fun l => str_eqb (line_mime l) folder_mime = false) files.
Proof.
  unfold drive_list_all_files.
  destruct (truthy file_type); [destruct (dict_find _ _) as [q|]|];
    try discriminate;
    match goal with
    | |- catch (list_all_body svc ?q _ _) _ = _ -> _ =>
        destruct (list_all_body svc q max_results order_by) as [r|e] eqn:E;
        cbn [catch]; [|discriminate];
        intros ->; exists q;
        exact (list_all_body_shows_items _ _ _ _ _ _ _ _ E)
    end.
Qed.

Lemma drive_listing_shows_each_item_once_witness :
  exists query items,
    files_list (paged_services 5) query (Z.min 2 1000) (str "name")
    = Ret items
    /\ 2 = Z.of_nat (List.length items)
    /\ [Some (str "0"); Some (str "1")]
       = map DriveFile.id (filter (fun i => negb (is_folder i)) items).
Proof.
  destruct (drive_listing_shows_each_item_once (paged_services 5) 2 2 None
              (str "name") []
              [ mkLine (str "file") (str "0") (str "text/plain")
                       (Some (str "2.0 KB")) (str "2024-01-01") false;
                mkLine (str "file") (str "1") (str "text/plain")
                       (Some (str "2.0 KB")) (str "2024-01-01") false ]
              (Some (str "4.0 KB")) eq_refl)
    as (q & items & H1 & H2 & _ & H4 & _).
  exists q, items. repeat split; assumption.
Defined.

(** ** White space in the stripped text *)

Lemma lstrip_by_snoc (sp : Z -> bool) (l : pystr) (c : Z) :
  lstrip_by sp (l ++ [c])
  = match lstrip_by sp l with
    | [] => if sp c then [] else [c]
    | r => r ++ [c]
    end.
Proof.
  induction l as [|x l IH]; cbn [app lstrip_by]; [reflexivity|].
  destruct (sp x); [exact IH | reflexivity].
Qed.

Lemma strip_by_rstrip (sp : Z -> bool) (s : pystr) :
  strip_by sp s = rstrip_by sp (lstrip_by sp s).
Proof.
  unfold strip_by. generalize (lstrip_by sp s) as t. clear s.
  induction t as [|c t IH]; [reflexivity|].
  cbn [rev rstrip_by]. rewrite lstrip_by_snoc, <- IH.
  destruct (lstrip_by sp (rev t)) as [|x r]; cbn [rev].
  - destruct (sp c); reflexivity.
  - rewrite rev_app_distr. cbn [rev app].
    destruct (rev r ++ [x]) eqn:E; [|reflexivity].
    now destruct (rev r).
Qed.

Lemma sub_spaces_single (s : pystr) :
  forall in_run,
    spaces_single (sub_spaces in_run s) = true
    /\ (in_run = true -> starts_clean (sub_spaces in_run s) = true).
Proof.
  induction s as [|c s IH]; intros in_run; cbn [sub_spaces];
    [now split|].
  destruct (isspace c) eqn:Ec.
  - destruct in_run.
    + exact (IH true).
    + destruct (IH true) as [H1 H2]. specialize (H2 eq_refl).
      split; [|discriminate].
      cbn [spaces_single]. rewrite H1.
      change (isspace 32) with true. cbn.
      unfold starts_clean in H2.
      now rewrite H2.
  - destruct (IH false) as [H1 _].
    cbn [spaces_single starts_clean]. rewrite Ec, H1. now split.
Qed.

Lemma lstrip_single (s : pystr) :
  spaces_single s = true ->
  spaces_single (lstrip_by isspace s) = true
  /\ starts_clean (lstrip_by isspace s) = true.
Proof.
  induction s as [|c s IH]; cbn [lstrip_by]; [now split|].
  intros H. destruct (isspace c) eqn:Ec.
  - apply IH. cbn [spaces_single] in H.
    now apply andb_true_iff in H as [_ H].
  - split; [exact H|]. cbn. now rewrite Ec.
Qed.

Lemma rstrip_head (s : pystr) (c : Z) (r : pystr) :
  rstrip_by isspace s = c :: r -> exists s', s = c :: s'.
Proof.
  destruct s as [|x s]; cbn [rstrip_by]; [discriminate|].
  destruct (rstrip_by isspace s); [destruct (isspace x)|];
    intros H; try discriminate; injection H as <- _; eauto.
Qed.

Lemma rstrip_inside (s : pystr) :
  spaces_single s = true ->
  spaces_inside (rstrip_by isspace s) = true.
Proof.
  induction s as [|c s IH]; cbn [rstrip_by spaces_single]; [reflexivity|].
  intros H. apply andb_true_iff in H as [Hc Hs].
  specialize (IH Hs).
  destruct (rstrip_by isspace s) as [|d r] eqn:Er.
  - destruct (isspace c) eqn:Ec; [reflexivity|].
    cbn. now rewrite Ec.
  - cbn [spaces_inside]. cbn [spaces_inside] in IH. rewrite IH.
    destruct (rstrip_head s d r Er) as [s' ->].
    destruct (isspace c); [|reflexivity].
    apply andb_true_iff in Hc as [-> Hd]. now rewrite Hd.
Qed.

Lemma rstrip_starts_clean (s : pystr) :
  starts_clean s = true -> starts_clean (rstrip_by isspace s) = true.
Proof.
  destruct s as [|c s]; cbn [rstrip_by starts_clean]; [reflexivity|].
  intros H. destruct (rstrip_by isspace s); [|exact H].
  destruct (isspace c) eqn:E; [reflexivity|]. cbn. now rewrite E.
Qed.

Lemma strip_sub_spaces_normal (t : pystr) :
  ws_normal (strip (sub_spaces false t)) = true.
Proof.
  unfold strip. rewrite strip_by_rstrip.
  destruct (sub_spaces_single t false) as [H _].
  destruct (lstrip_single _ H) as [H1 H2].
  unfold ws_normal.
  fold (starts_clean (rstrip_by isspace
                        (lstrip_by isspace (sub_spaces false t)))).
  now rewrite (rstrip_starts_clean _ H2), (rstrip_inside _ H1).
Qed.

(** X11.  Whatever the text and whatever [html.unescape] does, in the
    result of [strip_html_tags] white space is single spaces between
    other characters: no white space first or last, no white-space
    character but the space, no two spaces in a row. *)
Theorem strip_html_tags_normalises_white_space
    (unescape : pystr -> pystr) (html_content : pystr) :
  ws_normal (strip_html_tags unescape html_content) = true.
Proof.
  unfold strip_html_tags.
  destruct (nonempty html_content); [|reflexivity].
  apply strip_sub_spaces_normal.
Qed.

(** ** Decimal strings *)

Lemma uint_codes_digits (d : Decimal.uint) :
  forallb isdigit_char (uint_codes d) = true.
Proof. induction d; cbn [uint_codes forallb]; try rewrite IHd; reflexivity. Qed.

Lemma digit_not_space (c : Z) :
  isdigit_char c = true -> int_space c = false.
Proof.
  unfold isdigit_char. rewrite andb_true_iff, !Z.leb_le. intros H.
  assert (Hc : c = 48 \/ c = 49 \/ c = 50 \/ c = 51 \/ c = 52 \/ c = 53
               \/ c = 54 \/ c = 55 \/ c = 56 \/ c = 57) by lia.
  repeat (destruct Hc as [->|Hc]; [reflexivity|]). now subst.
Qed.

Lemma lstrip_by_clean (sp : Z -> bool) (s : pystr) :
  forallb (fun c => negb (sp c)) s = true -> lstrip_by sp s = s.
Proof.
  destruct s as [|c s]; cbn; [reflexivity|].
  now destruct (sp c).
Qed.

Lemma rstrip_by_clean (sp : Z -> bool) (s : pystr) :
  forallb (fun c => negb (sp c)) s = true -> rstrip_by sp s = s.
Proof.
  induction s as [|c s IH]; cbn [forallb rstrip_by]; [reflexivity|].
  intros H. apply andb_true_iff in H as [Hc Hs].
  rewrite (IH Hs). destruct s; [|reflexivity].
  now destruct (sp c).
Qed.

Lemma strip_by_clean (sp : Z -> bool) (s : pystr) :
  forallb (fun c => negb (sp c)) s = true -> strip_by sp s = s.
Proof.
  intros H. rewrite strip_by_rstrip, (lstrip_by_clean sp s H).
  now apply rstrip_by_clean.
Qed.

Lemma int_digits_acc (d : Decimal.uint) :
  forall acc,
    int_digits (uint_codes d) true (Z.pos acc)
    = Ret (Z.pos (Pos.of_uint_acc d acc)).
Proof.
  induction d as [|d IH|d IH|d IH|d IH|d IH|d IH|d IH|d IH|d IH|d IH];
    intros acc; cbn [uint_codes int_digits Pos.of_uint_acc];
    [reflexivity|..];
    match goal with
    | |- context [isdigit_char ?c] => change (isdigit_char c) with true
    end; cbv iota;
    match goal with
    | |- int_digits _ true ?z = Ret (Z.pos (Pos.of_uint_acc _ ?a)) =>
        replace z with (Z.pos a) by lia
    end; apply IH.
Qed.

Lemma int_digits_zero (d : Decimal.uint) :
  forall prev,
    (d = Decimal.Nil -> prev = true) ->
    int_digits (uint_codes d) prev 0 = Ret (Z.of_N (Pos.of_uint d)).
Proof.
  induction d as [|d IH|d IH|d IH|d IH|d IH|d IH|d IH|d IH|d IH|d IH];
    intros prev Hp; cbn [uint_codes int_digits Pos.of_uint];
    [rewrite (Hp eq_refl); reflexivity | now apply IH |..];
    match goal with
    | |- context [isdigit_char ?c] => change (isdigit_char c) with true
    end; cbv iota;
    match goal with
    | |- int_digits _ true ?z = Ret (Z.of_N (N.pos (Pos.of_uint_acc _ ?a))) =>
        change z with (Z.pos a)
    end; apply int_digits_acc.
Qed.

Lemma to_uint_not_nil (m : N) : N.to_uint m <> Decimal.Nil.
Proof.
  intros H. pose proof (DecimalN.Unsigned.of_to m) as E.
  rewrite H in E. cbn in E. subst m. discriminate H.
Qed.

(** [int(str(n))] is [n]. *)
Lemma py_int_dec (n : Z) : 0 <= n -> py_int (dec n) = Ret n.
Proof.
  intros Hn. unfold dec.
  destruct (n <? 0) eqn:E; [apply Z.ltb_lt in E; lia|].
  set (d := N.to_uint (Z.to_N n)).
  assert (Hd : d <> Decimal.Nil) by apply to_uint_not_nil.
  assert (Hv : Z.of_N (Pos.of_uint d) = n).
  { unfold d. change (Pos.of_uint (N.to_uint (Z.to_N n)))
      with (N.of_uint (N.to_uint (Z.to_N n))).
    rewrite DecimalN.Unsigned.of_to. lia. }
  unfold py_int. rewrite strip_by_clean.
  - rewrite <- Hv.
    destruct d; try contradiction;
      match goal with
      | |- _ = Ret (Z.of_N (Pos.of_uint ?dd)) =>
          exact (int_digits_zero dd false ltac:(discriminate))
      end.
  - pose proof (uint_codes_digits d) as Hall.
    rewrite forallb_forall in *. intros c Hc.
    now rewrite (digit_not_space c (Hall c Hc)).
Qed.

Lemma dec_isdigit (n : Z) : 0 <= n -> isdigit (dec n) = true.
Proof.
  intros Hn. unfold dec, isdigit.
  destruct (n <? 0) eqn:E; [apply Z.ltb_lt in E; lia|].
  rewrite uint_codes_digits, andb_true_r.
  pose proof (to_uint_not_nil (Z.to_N n)) as Hd.
  destruct (N.to_uint (Z.to_N n)); try contradiction; reflexivity.
Qed.

Lemma dec_not_na (n : Z) : 0 <= n -> str_eqb (dec n) (str "N/A") = false.
Proof.
  intros Hn. unfold dec.
  destruct (n <? 0) eqn:E; [apply Z.ltb_lt in E; lia|].
  destruct (N.to_uint (Z.to_N n)); reflexivity.
Qed.

(** ** Sizes in both definitions *)

Lemma round53_small (a : Z) : 0 <= a < 2 ^ 53 -> round53 a = a.
Proof.
  intros [H0 H1]. unfold round53.
  destruct (Z.log2 a + 1 <=? 53) eqn:E; [reflexivity|].
  apply Z.leb_gt in E.
  destruct (Z.eq_dec a 0) as [->|Hz]; [cbn in E; lia|].
  assert (Z.log2 a < 53) by (apply Z.log2_lt_pow2; lia). lia.
Qed.

Lemma int_truediv_exact (n k : Z) :
  0 <= n < 2 ^ 53 -> 0 <= k ->
  int_truediv_pow2 n k = Ret (Qmake n (Z.to_pos (2 ^ k))).
Proof.
  intros Hn Hk. unfold int_truediv_pow2.
  rewrite Z.abs_eq by lia. rewrite (round53_small n Hn).
  rewrite Z.shiftl_1_l.
  assert (Hp : 2 ^ 53 <= 2 ^ (1024 + k))
    by (apply Z.pow_le_mono_r; lia).
  destruct (2 ^ (1024 + k) <=? n) eqn:E; [apply Z.leb_le in E; lia|].
  do 2 f_equal. destruct (Z.eq_dec n 0) as [->|Hz]; [reflexivity|].
  rewrite Z.sgn_pos by lia. lia.
Qed.

Lemma second_definition_scaled (n : Z) :
  0 <= n < 2 ^ 53 ->
  SecondDef.format_file_size (dec n) = scaled_text n.
Proof.
  intros Hn. unfold SecondDef.format_file_size, scaled_text.
  rewrite py_int_dec by lia. cbn [bind SecondDef.unit_loop num_lt_1024].
  destruct (n <? 1024) eqn:E1.
  { cbn [num_format_1f]. rewrite int_truediv_exact by lia. reflexivity. }
  cbn [num_div_1024]. rewrite int_truediv_exact by lia.
  cbn [bind SecondDef.unit_loop num_lt_1024 Qnum Qden].
  change (1024 * Z.pos (Z.to_pos (2 ^ 10))) with 1048576.
  destruct (n <? 1048576) eqn:E2; [reflexivity|].
  cbn [num_div_1024 bind SecondDef.unit_loop num_lt_1024 Qnum Qden].
  change (1024 * Z.pos (Z.to_pos (2 ^ 10) * 1024)) with 1073741824.
  destruct (n <? 1073741824) eqn:E3; [reflexivity|].
  cbn [num_div_1024 bind SecondDef.unit_loop num_lt_1024 Qnum Qden].
  change (1024 * Z.pos (Z.to_pos (2 ^ 10) * 1024 * 1024))
    with 1099511627776.
  destruct (n <? 1099511627776) eqn:E4; reflexivity.
Qed.

Lemma first_definition_scaled (n : Z) :
  0 <= n < 2 ^ 53 ->
  FirstDef.format_file_size (dec n)
  = if n <? 1024 then dec n ++ str " B"
    else if n <? 1048576 then format_1f (Qmake n 1024) ++ str " KB"
    else if n <? 1073741824 then format_1f (Qmake n 1048576) ++ str " MB"
    else format_1f (Qmake n 1073741824) ++ str " GB".
Proof.
  intros Hn. unfold FirstDef.format_file_size, FirstDef.format_file_size_body.
  rewrite dec_not_na, dec_isdigit by lia.
  assert (Hne : nonempty (dec n) = true).
  { pose proof (dec_isdigit n (proj1 Hn)) as H. unfold isdigit in H.
    now apply andb_true_iff in H as [H _]. }
  rewrite Hne. cbn [negb orb]. rewrite py_int_dec by lia. cbn [bind].
  destruct (n <? 1024); [reflexivity|].
  change (1024 * 1024) with 1048576.
  destruct (n <? 1048576);
    [rewrite int_truediv_exact by lia; reflexivity|].
  change (1048576 * 1024) with 1073741824.
  destruct (n <? 1073741824);
    rewrite int_truediv_exact by lia; reflexivity.
Qed.

(** X12.  For a size [n] below [2**53], written in decimal, the
    definition in force shows [n] divided by the largest power of 1024
    that is at most [n] (the fourth power from 1 TB on), rounded to one
    decimal, ties to even, with the unit of that power; it never falls
    back to the raw string. *)
Theorem format_file_size_scales_by_1024 (n : Z) :
  0 <= n < 2 ^ 53 ->
  call_global "format_file_size" (dec n) = Ret (scaled_text n).
Proof.
  intros Hn. rewrite call_format_file_size.
  now rewrite second_definition_scaled.
Qed.

Lemma format_file_size_scales_by_1024_witness :
  0 <= 5368709120 < 2 ^ 53
  /\ call_global "format_file_size" (str "5368709120")
     = Ret (str "5.0 GB").
Proof.
  split; [lia|].
  apply (format_file_size_scales_by_1024 5368709120). lia.
Defined.

(** X13.  On the decimal string of a size from 1024 up to, not
    including, 1 TB the two definitions return the same text; below
    1024 the first writes the integer and the second adds a decimal, and
    from 1 TB on the first stays with GB where the second goes to TB. *)
Theorem definitions_agree_from_1KB_to_1TB (n : Z) :
  0 <= n < 2 ^ 53 ->
  (1024 <= n < 1099511627776 ->
   FirstDef.format_file_size (dec n) = SecondDef.format_file_size (dec n))
  /\ (n < 1024 ->
      FirstDef.format_file_size (dec n) = dec n ++ str " B"
      /\ SecondDef.format_file_size (dec n)
         = format_1f (Qmake n 1) ++ str " B")
  /\ (1099511627776 <= n ->
      FirstDef.format_file_size (dec n)
      = format_1f (Qmake n 1073741824) ++ str " GB"
      /\ SecondDef.format_file_size (dec n)
         = format_1f (Qmake n 1099511627776) ++ str " TB").
Proof.
  intros Hn.
  rewrite first_definition_scaled, second_definition_scaled by exact Hn.
  unfold scaled_text.
  repeat split; intros;
    repeat match goal with
    | |- context [?a <? ?b] =>
        let E := fresh "E" in
        destruct (a <? b) eqn:E;
        [apply Z.ltb_lt in E | apply Z.ltb_ge in E]
    end; try reflexivity; lia.
Qed.

Lemma definitions_agree_from_1KB_to_1TB_witness :
  FirstDef.format_file_size (str "1536") = str "1.5 KB"
  /\ SecondDef.format_file_size (str "1536") = str "1.5 KB".
Proof.
  pose proof (proj1 (definitions_agree_from_1KB_to_1TB 1536 ltac:(lia))
                    ltac:(lia)) as H.
  split; [reflexivity | exact (eq_trans (eq_sym H) eq_refl)].
Defined.

(** ** Sender names *)

Lemma contains_char_app (c : Z) (a b : pystr) :
  contains_char c (a ++ b) = contains_char c a || contains_char c b.
Proof. unfold contains_char. apply existsb_app. Qed.

Lemma before_char_app (c : Z) (a b : pystr) :
  contains_char c a = false ->
  before_char c (a ++ b) = a ++ before_char c b.
Proof.
  unfold contains_char.
  induction a as [|x a IH]; cbn [existsb app before_char]; [reflexivity|].
  intros H. apply orb_false_iff in H as [Hx Ha].
  rewrite Z.eqb_sym, Hx. now rewrite (IH Ha).
Qed.

Lemma after_char_app (c : Z) (a b : pystr) :
  contains_char c a = false ->
  after_char c (a ++ c :: b) = b.
Proof.
  unfold contains_char.
  induction a as [|x a IH]; cbn [existsb app after_char].
  - intros _. now rewrite Z.eqb_refl.
  - intros H. apply orb_false_iff in H as [Hx Ha].
    rewrite Z.eqb_sym, Hx. exact (IH Ha).
Qed.

Lemma before_char_stop (c : Z) (a b : pystr) :
  contains_char c a = false ->
  before_char c (a ++ c :: b) = a.
Proof.
  intros H. rewrite before_char_app by exact H.
  cbn [before_char]. now rewrite Z.eqb_refl, app_nil_r.
Qed.

(** X14.  From a sender of the form name, [<], address, [>], the search
    tool shows the name without surrounding white space and quotes, and
    the address when that is empty; the listing, reading and summary
    tools show the name even when it is empty.  A sender without angle
    brackets is shown as it is. *)
Theorem sender_name_of_address (display address rest : pystr) :
  contains_char 60 display = false ->
  contains_char 60 address = false ->
  contains_char 62 address = false ->
  sender_name (display ++ [60] ++ address ++ [62] ++ rest)
  = (if nonempty (strip_quotes (strip display))
     then strip_quotes (strip display) else address)
  /\ sender_clean (display ++ [60] ++ address ++ [62] ++ rest)
     = strip_quotes (strip display).
Proof.
  intros Hd Ha1 Ha2.
  assert (Hlt : contains_char 60 (display ++ [60] ++ address ++ [62] ++ rest)
                = true).
  { rewrite contains_char_app. cbn. now rewrite orb_true_r. }
  assert (Hgt : contains_char 62 (display ++ [60] ++ address ++ [62] ++ rest)
                = true).
  { rewrite !contains_char_app. cbn. now rewrite !orb_true_r. }
  unfold sender_name, sender_clean. rewrite Hlt, Hgt. cbn [andb].
  cbn [app]. rewrite (before_char_stop 60 display _ Hd).
  rewrite (after_char_app 60 display _ Hd).
  rewrite (before_char_app 60 address _ Ha1).
  cbn [before_char]. change (62 =? 60) with false. cbv iota.
  rewrite (before_char_stop 62 address _ Ha2).
  now split.
Qed.

Lemma sender_name_of_address_witness :
  sender_name (str "<ann@example.org>") = str "ann@example.org"
  /\ sender_clean (str "<ann@example.org>") = [].
Proof.
  exact (sender_name_of_address [] (str "ann@example.org") []
           eq_refl eq_refl eq_refl).
Defined.

(** ** File type emoji *)

(** X15.  Every MIME type of the families image, video, audio and text
    gets the emoji of its family, whatever the subtype. *)
Theorem emoji_by_family (subtype : pystr) :
  get_file_type_emoji (str "image/" ++ subtype) = [128444; 65039]
  /\ get_file_type_emoji (str "video/" ++ subtype) = [127909]
  /\ get_file_type_emoji (str "audio/" ++ subtype) = [127925]
  /\ get_file_type_emoji (str "text/" ++ subtype) = [128196].
Proof. repeat split; destruct subtype; reflexivity. Qed.

(** ** The Drive search query *)

Lemma escaped_query_cons (c : Z) (q : pystr) :
  escaped_query (c :: q)
  = (if c =? 92 then [92; 92] else if c =? 39 then [92; 39] else [c])
    ++ escaped_query q.
Proof.
  unfold escaped_query, replace_char. cbn [flat_map].
  rewrite flat_map_app.
  destruct (c =? 92) eqn:E92; [reflexivity|].
  cbn [flat_map]. destruct (c =? 39); reflexivity.
Qed.

Lemma read_escaped_query (q rest : pystr) :
  read_literal false (escaped_query q ++ [39] ++ rest) = Some (q, rest).
Proof.
  induction q as [|c q IH].
  - reflexivity.
  - rewrite escaped_query_cons.
    destruct (c =? 92) eqn:E92.
    + apply Z.eqb_eq in E92 as ->.
      cbn [app read_literal]. change (92 =? 92) with true. cbv iota.
      cbn [app] in IH. now rewrite IH.
    + destruct (c =? 39) eqn:E39.
      * apply Z.eqb_eq in E39 as ->.
        cbn [app read_literal]. change (92 =? 92) with true. cbv iota.
        cbn [app] in IH. now rewrite IH.
      * cbn [app read_literal]. rewrite E92, E39.
        cbn [app] in IH. now rewrite IH.
Qed.

(** X16.  The query sent for a search text is a quoted literal that
    reads back as the text: with a backslash taking the next character
    as it is, the literal ends at the closing quote the tool writes, not
    before, and holds the search text unchanged, quotes and backslashes
    included. *)
Theorem search_text_reads_back (query : pystr) :
  exists prefix,
    formatted_query query = prefix ++ [39] ++ escaped_query query ++ [39]
    /\ read_literal false (escaped_query query ++ [39]) = Some (query, []).
Proof.
  exists (str "fullText contains ").
  split; [reflexivity|].
  exact (read_escaped_query query []).
Qed.

(** ** Listing messages *)

Section ListMessagesFacts.

Variable list_call : Z -> option pystr -> Res (list MsgRef).
Variable get_metadata : pystr -> Res Message.
Variable exn_text : exn -> pystr.

Lemma list_entry_with_id (msg : MsgRef) (i : pystr) :
  id msg = Some i ->
  exists tail,
    list_entry get_metadata exn_text msg = Ret (str "ID: " ++ i ++ nl ++ tail).
Proof.
  intros Hi. unfold list_entry, list_entry_body. rewrite Hi.
  cbn [getitem bind].
  destruct (get_metadata i) as [m|e]; cbn [bind];
    [|eexists; reflexivity].
  repeat match goal with
         | |- context [header_value ?h ?w ?d] =>
             destruct (header_value h w d); cbn [bind];
             [|eexists; reflexivity]
         end.
  eexists; reflexivity.
Qed.

Lemma list_entry_without_id (msg : MsgRef) :
  id msg = None ->
  list_entry get_metadata exn_text msg = Raise (KeyError (str "id")).
Proof.
  intros Hi. unfold list_entry, list_entry_body. now rewrite Hi.
Qed.

Lemma each_list_entry_with_ids (refs : list MsgRef) :
  Forall (fun r => id r <> None) refs ->
  exists entries,
    each (list_entry get_metadata exn_text) refs = Ret entries
    /\ Forall2 (fun r e =>
                  exists tail,
                    e = str "ID: " ++ get_or (id r) [] ++ nl ++ tail)
               refs entries.
Proof.
  induction 1 as [|r refs Hr _ [entries [He Hall]]]; cbn [each].
  - exists []. split; [reflexivity | constructor].
  - destruct (id r) as [i|] eqn:Ei; [|contradiction].
    destruct (list_entry_with_id r i Ei) as [tail Ht].
    rewrite Ht, He. cbn [bind].
    eexists. split; [reflexivity|].
    constructor; [|exact Hall]. rewrite Ei. eauto.
Qed.

Lemma each_list_entry_without_id (refs : list MsgRef) :
  existsb (fun r => match id r with None => true | Some _ => false end) refs
  = true ->
  each (list_entry get_metadata exn_text) refs = Raise (KeyError (str "id")).
Proof.
  induction refs as [|r refs IH]; cbn [existsb each]; [discriminate|].
  destruct (id r) as [i|] eqn:Ei.
  - cbn [orb]. intros H.
    destruct (list_entry_with_id r i Ei) as [tail ->]. cbn [bind].
    now rewrite (IH H).
  - intros _. now rewrite (list_entry_without_id r Ei).
Qed.

End ListMessagesFacts.

(** X17.  When every message of the answer has an id, the listing
    returns a text with one entry for each message, in the order of the
    answer, each entry starting with the id of its message: a message
    whose details cannot be fetched, or whose headers lack a key, gets
    an entry of its own and the others are not affected. *)
Theorem listing_has_an_entry_for_each_message
    (list_call : Z -> option pystr -> Res (list MsgRef))
    (get_metadata : pystr -> Res Message) (exn_text : exn -> pystr)
    (max_results : Z) (query : option pystr) (refs : list MsgRef) :
  list_call max_results (if truthy query then query else None) = Ret refs ->
  refs <> [] ->
  Forall (fun r => id r <> None) refs ->
  exists entries,
    gmail_list_messages list_call get_metadata exn_text max_results query
    = Ret (nl ++ repeat 61 50 ++ join nl entries)
    /\ Forall2 (fun r e =>
                  exists tail,
                    e = str "ID: " ++ get_or (id r) [] ++ nl ++ tail)
               refs entries.
Proof.
  intros Hl Hne Hid. unfold gmail_list_messages. rewrite Hl.
  destruct (each_list_entry_with_ids get_metadata exn_text refs Hid)
    as [entries [He Hall]].
  exists entries. split; [|exact Hall].
  destruct refs; [contradiction|]. now rewrite He.
Qed.

Lemma listing_has_an_entry_for_each_message_witness :
  exists entries,
    gmail_list_messages (fun _ _ => Ret two_refs) second_fails
      (fun _ => str "not found") 10 None
    = Ret (nl ++ repeat 61 50 ++ join nl entries)
    /\ Forall2 (fun r e =>
                  exists tail,
                    e = str "ID: " ++ get_or (id r) [] ++ nl ++ tail)
               two_refs entries.
Proof.
  apply (listing_has_an_entry_for_each_message
           (fun _ _ => Ret two_refs) second_fails
           (fun _ => str "not found") 10 None two_refs).
  - reflexivity.
  - discriminate.
  - repeat constructor; discriminate.
Defined.

(** X18.  When a message of the answer has no id, the listing raises
    [KeyError]: the handler of the failed fetch reads the id again, and
    the tool catches [HttpError] only. *)
Theorem listing_raises_without_id
    (list_call : Z -> option pystr -> Res (list MsgRef))
    (get_metadata : pystr -> Res Message) (exn_text : exn -> pystr)
    (max_results : Z) (query : option pystr) (refs : list MsgRef) :
  list_call max_results (if truthy query then query else None) = Ret refs ->
  existsb (fun r => match id r with None => true | Some _ => false end) refs
  = true ->
  gmail_list_messages list_call get_metadata exn_text max_results query
  = Raise (KeyError (str "id")).
Proof.
  intros Hl Hid. unfold gmail_list_messages. rewrite Hl.
  rewrite (each_list_entry_without_id get_metadata exn_text refs Hid).
  destruct refs; [discriminate | reflexivity].
Qed.

Lemma listing_raises_without_id_witness :
  gmail_list_messages
    (fun _ _ => Ret [mkMsgRef (Some (str "m1")); mkMsgRef None])
    second_fails (fun _ => str "not found") 10 None
  = Raise (KeyError (str "id")).
Proof.
  apply (listing_raises_without_id
           (fun _ _ => Ret [mkMsgRef (Some (str "m1")); mkMsgRef None])
           second_fails (fun _ => str "not found") 10 None
           [mkMsgRef (Some (str "m1")); mkMsgRef None]);
    reflexivity.
Defined.

(** ** Reading a message *)

Section ReadMessageFacts.

Variable unescape : pystr -> pystr.
Variable svc : Services.

Lemma read_message_body_with_attachments (message_id details : pystr)
    (message : Message) :
  messages_get svc message_id = Ret message ->
  read_message_body unescape svc message_id false = Ret details ->
  read_message_body unescape svc message_id true
  = (attachments <-
       get_attachment_info (get_or (payload message) empty_payload) ;;
     match attachments with
     | [] => Ret (details ++ nl ++ str "No attachments found." ++ nl)
     | _ =>
         Ret (details ++ nl ++ str "ATTACHMENTS ("
              ++ dec (Z.of_nat (List.length attachments)) ++ str "):" ++ nl
              ++ attachment_lines 1 attachments)
     end).
Proof.
  intros Hm. unfold read_message_body. rewrite Hm. cbn [bind].
  repeat match goal with
         | |- context [header_value ?h ?w ?d] =>
             destruct (header_value h w d); cbn [bind]; [|discriminate]
         end.
  destruct (extract_email_body unescape _); cbn [bind]; [|discriminate].
  intros H; injection H as <-. reflexivity.
Qed.

End ReadMessageFacts.

(** X19.  When the attachment list of a message fails with a
    [KeyError], reading the message with the attachment summary returns
    the error text and nothing of the message, although the same
    message reads well without the summary. *)
Theorem attachment_failure_hides_message
    (unescape : pystr -> pystr) (svc : Services)
    (get_profile : Res (option pystr)) (profile : option pystr)
    (message_id details key : pystr) (message : Message) :
  get_profile = Ret profile ->
  messages_get svc message_id = Ret message ->
  read_message_body unescape svc message_id false = Ret details ->
  get_attachment_info (get_or (payload message) empty_payload)
  = Raise (KeyError key) ->
  gmail_read_message_without_attachments unescape svc get_profile
    message_id false = details
  /\ gmail_read_message_without_attachments unescape svc get_profile
       message_id true
     = str "Error reading message: " ++ exn_str svc (KeyError key).
Proof.
  intros Hp Hm Hd Ha. unfold gmail_read_message_without_attachments.
  rewrite Hp, Hd.
  rewrite (read_message_body_with_attachments _ _ _ _ _ Hm Hd), Ha.
  now split.
Qed.

Lemma attachment_failure_hides_message_witness :
  gmail_read_message_without_attachments unescape_basic
    (one_message untyped_attachment None (fun _ => 0) (fun _ => []))
    (Ret None) (str "m1") true
  = str "Error reading message: error".
Proof.
  apply (attachment_failure_hides_message unescape_basic
           (one_message untyped_attachment None (fun _ => 0) (fun _ => []))
           (Ret None) None (str "m1")
           (message_details (str "m1") (str "No Subject")
              (str "Unknown Sender") (str "Unknown Recipient")
              (str "Unknown Date") (str "No readable text content found."))
           (str "mimeType") (mkMessage (Some untyped_attachment) None));
    reflexivity.
Defined.

(** X20.  When the attachment list of a message succeeds, the text with
    the attachment summary is the text without it followed by the
    summary: the line for no attachment when the list is empty, and
    otherwise a title with the length of the list and the numbered
    lines. *)
Theorem attachment_summary_is_appended
    (unescape : pystr -> pystr) (svc : Services)
    (get_profile : Res (option pystr)) (profile : option pystr)
    (message_id details : pystr) (message : Message)
    (attachments : list Att.t) :
  get_profile = Ret profile ->
  messages_get svc message_id = Ret message ->
  read_message_body unescape svc message_id false = Ret details ->
  get_attachment_info (get_or (payload message) empty_payload)
  = Ret attachments ->
  gmail_read_message_without_attachments unescape svc get_profile
    message_id false = details
  /\ gmail_read_message_without_attachments unescape svc get_profile
       message_id true
     = details ++ nl
       ++ (if Nat.eqb (List.length attachments) 0
           then str "No attachments found." ++ nl
           else str "ATTACHMENTS ("
                ++ dec (Z.of_nat (List.length attachments)) ++ str "):"
                ++ nl ++ attachment_lines 1 attachments).
Proof.
  intros Hp Hm Hd Ha. unfold gmail_read_message_without_attachments.
  rewrite Hp, Hd.
  rewrite (read_message_body_with_attachments _ _ _ _ _ Hm Hd), Ha.
  split; [reflexivity|].
  destruct attachments; reflexivity.
Qed.

Lemma attachment_summary_is_appended_witness :
  exists details,
    gmail_read_message_without_attachments unescape_basic
      (one_message hello_with_pdf None (fun _ => 0) (fun _ => []))
      (Ret None) (str "m1") true
    = details ++ nl ++ str "ATTACHMENTS (1):" ++ nl
      ++ str "1. r.pdf (2.0 KB, application/pdf)" ++ nl.
Proof.
  eexists.
  apply (attachment_summary_is_appended unescape_basic
           (one_message hello_with_pdf None (fun _ => 0) (fun _ => []))
           (Ret None) None (str "m1")
           (message_details (str "m1") (str "No Subject")
              (str "Unknown Sender") (str "Unknown Recipient")
              (str "Unknown Date") (str "Hello"))
           (mkMessage (Some hello_with_pdf) None)
           [Att.mk (str "r.pdf") (str "application/pdf") (str "2.0 KB")
                   (str "att1")]);
    reflexivity.
Defined.

(** ** The preview of a body *)

Lemma lstrip_by_length (sp : Z -> bool) (s : pystr) :
  (List.length (lstrip_by sp s) <= List.length s)%nat.
Proof.
  induction s as [|c s IH]; cbn [lstrip_by List.length]; [lia|].
  destruct (sp c); cbn [List.length]; lia.
Qed.

Lemma rstrip_by_length (sp : Z -> bool) (s : pystr) :
  (List.length (rstrip_by sp s) <= List.length s)%nat.
Proof.
  induction s as [|c s IH]; cbn [rstrip_by List.length]; [lia|].
  destruct (rstrip_by sp s); [destruct (sp c)|]; cbn [List.length] in *; lia.
Qed.

Lemma lstrip_by_in (sp : Z -> bool) (s : pystr) (x : Z) :
  In x (lstrip_by sp s) -> In x s.
Proof.
  induction s as [|c s IH]; cbn [lstrip_by]; [tauto|].
  destruct (sp c); [right; auto | auto].
Qed.

Lemma rstrip_by_in (sp : Z -> bool) (s : pystr) (x : Z) :
  In x (rstrip_by sp s) -> In x s.
Proof.
  induction s as [|c s IH]; cbn [rstrip_by]; [tauto|].
  destruct (rstrip_by sp s) as [|d r].
  - destruct (sp c); cbn; tauto.
  - cbn [In] in *. intros [H|H]; [now left | right; apply IH; exact H].
Qed.

Lemma replace_line_feeds (s : pystr) :
  List.length (replace_char 10 [32] s) = List.length s
  /\ ~ In 10 (replace_char 10 [32] s).
Proof.
  unfold replace_char.
  induction s as [|c s [IH1 IH2]]; cbn [flat_map]; [split; auto|].
  destruct (c =? 10) eqn:E; cbn [app List.length In]; split; try lia.
  - intros [H|H]; [discriminate | auto].
  - apply Z.eqb_neq in E. intros [H|H]; [lia | auto].
Qed.

(** X21.  The preview of a body of more than 200 characters has at most
    203 characters, ends with three dots and holds no line feed; a body
    of 200 characters or fewer is its own preview, line feeds
    included. *)
Theorem body_preview_is_bounded (body : pystr) :
  ((List.length body <= 200)%nat -> body_preview body = body)
  /\ ((200 < List.length body)%nat ->
      (List.length (body_preview body) <= 203)%nat
      /\ ~ In 10 (body_preview body)
      /\ endswith (body_preview body) (str "...") = true).
Proof.
  unfold body_preview. split; intros H.
  - destruct (200 <? Z.of_nat (List.length body)) eqn:E; [|reflexivity].
    apply Z.ltb_lt in E. lia.
  - destruct (200 <? Z.of_nat (List.length body)) eqn:E;
      [|apply Z.ltb_ge in E; lia].
    set (t := replace_char 10 [32] (firstn 200 body)).
    destruct (replace_line_feeds (firstn 200 body)) as [Hlen Hnl].
    fold t in Hlen, Hnl. clearbody t.
    assert (Hs : (List.length (strip t) <= 200)%nat).
    { unfold strip. rewrite strip_by_rstrip.
      pose proof (rstrip_by_length isspace (lstrip_by isspace t)).
      pose proof (lstrip_by_length isspace t).
      pose proof (firstn_le_length 200 body). lia. }
    repeat split.
    + rewrite length_app. cbn. lia.
    + intros Hin. apply in_app_or in Hin as [Hin|Hin].
      * apply Hnl. unfold strip in Hin. rewrite strip_by_rstrip in Hin.
        now apply rstrip_by_in, lstrip_by_in in Hin.
      * cbn in Hin. intuition discriminate.
    + unfold endswith. rewrite rev_app_distr.
      change (rev (str "...")) with [46; 46; 46].
      cbn [app startswith]. now destruct (rev (strip t)).
Qed.

Lemma body_preview_is_bounded_witness :
  (200 < List.length long_body)%nat
  /\ (List.length (body_preview long_body) <= 203)%nat
  /\ ~ In 10 (body_preview long_body)
  /\ endswith (body_preview long_body) (str "...") = true.
Proof.
  assert (H : (200 < List.length long_body)%nat)
    by (unfold long_body; cbn [List.length]; rewrite repeat_length; lia).
  split; [exact H|].
  exact (proj2 (body_preview_is_bounded long_body) H).
Defined.

(** ** The contents of a folder *)

Section ListFolderFacts.

Variable svc : Services.
Variable folder_name_of : pystr -> Res (option pystr).
Variable list_unordered : pystr -> Z -> Res (list DriveFile.t).

Lemma separate_infos_length (items : list DriveFile.t) :
  forall fs gs,
    separate_infos items = Ret (fs, gs) ->
    (List.length fs + List.length gs = List.length items)%nat.
Proof.
  induction items as [|i items IH]; cbn [separate_infos]; intros fs gs H.
  - injection H as <- <-. reflexivity.
  - destruct (getitem "name" (DriveFile.name i)); cbn [bind] in H;
      [|discriminate].
    destruct (getitem "id" (DriveFile.id i)); cbn [bind] in H;
      [|discriminate].
    destruct (getitem "mimeType" (DriveFile.mimeType i)) as [m|];
      cbn [bind] in H; [|discriminate].
    destruct (separate_infos items) as [[fs' gs']|]; cbn [bind fst snd] in H;
      [|discriminate].
    specialize (IH fs' gs' eq_refl).
    destruct (str_eqb m folder_mime); injection H as <- <-;
      cbn [List.length]; lia.
Qed.

Lemma sub_item_lines_length (items : list DriveFile.t) :
  (List.length (fst (sub_item_lines items)) <= List.length items)%nat
  /\ (snd (sub_item_lines items) = false ->
      List.length (fst (sub_item_lines items)) = List.length items).
Proof.
  induction items as [|i items [IH1 IH2]]; cbn [sub_item_lines];
    [split; reflexivity|].
  match goal with
  | |- context [match ?m with Ret _ => _ | Raise _ => _ end] =>
      destruct m
  end; cbn [fst snd List.length]; split; try lia; try discriminate.
  intros H. now rewrite (IH2 H).
Qed.

Lemma sub_section_of_bounded (folder : item_info) :
  sub_section_bounded (sub_section_of list_unordered folder).
Proof.
  unfold sub_section_of, sub_section_bounded.
  destruct (list_unordered _ 20) as [[|i items]|e];
    try (cbn [sub_lines sub_title sub_more sub_failed List.length];
         repeat split; try lia; discriminate).
  remember (i :: items) as l eqn:Hl. clear Hl. cbv zeta.
  destruct (sub_item_lines_length (firstn 10 l)) as [H1 H2].
  pose proof (firstn_le_length 10 l) as H3.
  destruct (snd (sub_item_lines (firstn 10 l))) eqn:Es;
    cbn [sub_lines sub_title sub_more sub_failed].
  - repeat split; try lia; discriminate.
  - specialize (H2 eq_refl).
    split; [lia|]. split; [discriminate|].
    intros m Hm.
    destruct (10 <? Z.of_nat (List.length l)) eqn:E; [|discriminate].
    apply Z.ltb_lt in E. injection Hm as <-.
    split; [reflexivity|]. split.
    + rewrite H2, length_firstn. lia.
    + eexists. split; [f_equal; f_equal; lia | lia].
Qed.

Lemma list_folder_body_shape (folder_id : pystr) (include : bool)
    (name : pystr) (total n_folders n_files : Z) (folders : list item_info)
    (files : list (pystr * item_info * option pystr))
    (subs : option (list sub_section * option Z)) :
  list_folder_body svc folder_name_of list_unordered folder_id include
  = Ret (FolderContents name total n_folders n_files folders files subs) ->
  total = n_folders + n_files
  /\ n_folders = Z.of_nat (List.length folders)
  /\ n_files = Z.of_nat (List.length files)
  /\ (exists items,
        files_list svc (parents_query folder_id) 100 (str "folder,name")
        = Ret items
        /\ total = Z.of_nat (List.length items))
  /\ match subs with
     | None => True
     | Some (sections, more) =>
         include = true
         /\ sections = map (sub_section_of list_unordered) (firstn 3 folders)
         /\ more = (if 3 <? n_folders then Some (n_folders - 3) else None)
     end.
Proof.
  unfold list_folder_body.
  destruct (files_list svc _ 100 _) as [items|e] eqn:El; cbn [bind];
    [|discriminate].
  destruct items as [|i items]; [discriminate|].
  cbv beta iota zeta. remember (i :: items) as l eqn:Hl in *. clear Hl.
  destruct (separate_infos l) as [[fs gs]|e] eqn:Es;
    cbn [bind fst snd]; [|discriminate].
  apply separate_infos_length in Es.
  destruct (each folder_file_line gs) as [fl|e] eqn:Ef;
    cbn [bind]; [|discriminate].
  apply each_length in Ef.
  intros H. injection H as <- <- <- <- <- <- <-.
  repeat split; try lia.
  - exists l. split; reflexivity.
  - destruct include; cbn [andb]; [|exact I].
    destruct fs; [exact I|]. repeat split.
Qed.

End ListFolderFacts.

(** X22.  In the contents of a folder the announced total is the number
    of items of the service's answer, and it is the number of folder
    lines plus the number of file lines: each item is shown as one or
    the other. *)
Theorem folder_contents_count_every_item (svc : Services)
    (folder_name_of : pystr -> Res (option pystr))
    (list_unordered : pystr -> Z -> Res (list DriveFile.t))
    (folder_id : pystr) (include_subfolders : bool)
    (name : pystr) (total n_folders n_files : Z) (folders : list item_info)
    (files : list (pystr * item_info * option pystr))
    (subs : option (list sub_section * option Z)) :
  drive_list_folder_contents svc folder_name_of list_unordered folder_id
    include_subfolders
  = FolderContents name total n_folders n_files folders files subs ->
  total = Z.of_nat (List.length folders) + Z.of_nat (List.length files)
  /\ n_folders = Z.of_nat (List.length folders)
  /\ n_files = Z.of_nat (List.length files)
  /\ exists items,
       files_list svc (parents_query folder_id) 100 (str "folder,name")
       = Ret items
       /\ total = Z.of_nat (List.length items).
Proof.
  unfold drive_list_folder_contents.
  destruct (list_folder_body _ _ _ _ _) as [r|e] eqn:E; cbn [catch];
    [|discriminate].
  intros ->.
  destruct (list_folder_body_shape _ _ _ _ _ _ _ _ _ _ _ _ E)
    as (H1 & H2 & H3 & H4 & _).
  repeat split; try assumption. lia.
Qed.

Lemma folder_contents_count_every_item_witness :
  5 = Z.of_nat (List.length shelf_folders)
      + Z.of_nat (List.length shelf_files)
  /\ 4 = Z.of_nat (List.length shelf_folders)
  /\ 1 = Z.of_nat (List.length shelf_files)
  /\ exists items,
       files_list shelf_services (parents_query (str "shelf")) 100
         (str "folder,name")
       = Ret items
       /\ 5 = Z.of_nat (List.length items).
Proof.
  exact (folder_contents_count_every_item shelf_services shelf_name
           twelve_files (str "shelf") true (str "Shelf") 5 4 1
           shelf_folders shelf_files (Some (shelf_sections, Some 1))
           eq_refl).
Defined.

(** X23.  The contents of a folder expand at most three subfolders, the
    first three in the order of the listing, and show at most ten items
    of each; the line for the items left out of a subfolder is written
    only when all ten are shown and gives the number of items minus
    ten; the line for the subfolders left out gives the number of
    folders minus three. *)
Theorem folder_contents_bound_subfolders (svc : Services)
    (folder_name_of : pystr -> Res (option pystr))
    (list_unordered : pystr -> Z -> Res (list DriveFile.t))
    (folder_id : pystr) (include_subfolders : bool)
    (name : pystr) (total n_folders n_files : Z) (folders : list item_info)
    (files : list (pystr * item_info * option pystr))
    (sections : list sub_section) (more : option Z) :
  drive_list_folder_contents svc folder_name_of list_unordered folder_id
    include_subfolders
  = FolderContents name total n_folders n_files folders files
      (Some (sections, more)) ->
  (List.length sections <= 3)%nat
  /\ List.length sections = Nat.min 3 (List.length folders)
  /\ Forall sub_section_bounded sections
  /\ match more with
     | Some m => m = Z.of_nat (List.length folders) - 3 /\ 0 < m
     | None => (List.length folders <= 3)%nat
     end.
Proof.
  unfold drive_list_folder_contents.
  destruct (list_folder_body _ _ _ _ _) as [r|e] eqn:E; cbn [catch];
    [|discriminate].
  intros ->.
  destruct (list_folder_body_shape _ _ _ _ _ _ _ _ _ _ _ _ E)
    as (_ & H2 & _ & _ & _ & -> & ->).
  rewrite length_map, length_firstn.
  repeat split; try lia.
  - apply Forall_forall. intros sec Hin.
    apply in_map_iff in Hin as [f [<- _]].
    apply sub_section_of_bounded.
  - destruct (3 <? n_folders) eqn:E3;
      [apply Z.ltb_lt in E3 | apply Z.ltb_ge in E3]; lia.
Qed.

Lemma folder_contents_bound_subfolders_witness :
  (List.length shelf_sections <= 3)%nat
  /\ List.length shelf_sections = Nat.min 3 (List.length shelf_folders)
  /\ Forall sub_section_bounded shelf_sections
  /\ (1 = Z.of_nat (List.length shelf_folders) - 3 /\ 0 < 1).
Proof.
  exact (folder_contents_bound_subfolders shelf_services shelf_name
           twelve_files (str "shelf") true (str "Shelf") 5 4 1
           shelf_folders shelf_files shelf_sections (Some 1) eq_refl).
Defined.

(** ** The summary of a search *)

Section SearchAndSummarizeFacts.

Variable unescape : pystr -> pystr.
Variable svc : Services.

Lemma summary_entry_with_id (i : Z) (msg : MsgRef) (msg_id : pystr) :
  id msg = Some msg_id ->
  exists before after,
    summary_entry unescape svc i msg
    = Ret (dec i ++ str ". " ++ before ++ msg_id ++ after).
Proof.
  intros Hi. unfold summary_entry, summary_entry_body. rewrite Hi.
  cbn [getitem bind].
  assert (Herr : forall e,
            exists before after,
              Ret (dec i ++ str ". Error processing email " ++ msg_id
                   ++ str ": " ++ exn_str svc e ++ nl ++ nl)
              = Ret (dec i ++ str ". " ++ before ++ msg_id ++ after)).
  { intros e. exists (str "Error processing email ").
    exists (str ": " ++ exn_str svc e ++ nl ++ nl).
    change (str ". Error processing email ")
      with (str ". " ++ str "Error processing email ").
    now rewrite <- app_assoc. }
  destruct (messages_get svc msg_id) as [m|e]; cbn [bind]; [|apply Herr].
  destruct (payload m) as [root|]; cbn [getitem bind]; [|apply Herr].
  destruct (header_value _ (str "Subject") _) as [subject|e]; cbn [bind];
    [|apply Herr].
  destruct (header_value _ (str "From") _) as [sender|e]; cbn [bind];
    [|apply Herr].
  destruct (header_value _ (str "Date") _) as [date|e]; cbn [bind];
    [|apply Herr].
  destruct (extract_email_body unescape root) as [b|e]; cbn [bind];
    [|apply Herr].
  exists (subject ++ nl ++ str "   From: " ++ sender_clean sender ++ nl
          ++ str "   Date: " ++ date ++ nl
          ++ str "   Preview: " ++ body_preview b ++ nl ++ str "   ID: ").
  exists (nl ++ nl).
  repeat rewrite <- app_assoc. reflexivity.
Qed.

Lemma summary_loop_with_ids (refs : list MsgRef) :
  Forall (fun r => id r <> None) refs ->
  forall i response,
  exists entries,
    summary_loop unescape svc i refs response
    = Ret (response ++ List.concat entries)
    /\ numbered_from i refs entries.
Proof.
  induction 1 as [|r refs Hr _ IH]; intros i response; cbn [summary_loop].
  - exists []. cbn [List.concat]. rewrite app_nil_r. split; [reflexivity|].
    exact I.
  - destruct (id r) as [msg_id|] eqn:Ei; [|contradiction].
    destruct (summary_entry_with_id i r msg_id Ei) as (b & a & He).
    rewrite He. cbn [bind].
    destruct (IH (i + 1)
                (response ++ dec i ++ str ". " ++ b ++ msg_id ++ a))
      as (entries & Hl & Hn).
    exists ((dec i ++ str ". " ++ b ++ msg_id ++ a) :: entries).
    split.
    + rewrite Hl. cbn [List.concat]. now rewrite <- app_assoc.
    + cbn [numbered_from]. rewrite Ei. cbn [get_or]. split; [|exact Hn].
      exists b, a. reflexivity.
Qed.

Lemma summary_loop_without_id (refs : list MsgRef) :
  existsb (fun r => match id r with None => true | Some _ => false end) refs
  = true ->
  forall i response,
    summary_loop unescape svc i refs response = Raise (KeyError (str "id")).
Proof.
  induction refs as [|r refs IH]; cbn [existsb summary_loop];
    [discriminate|].
  intros H i response.
  destruct (id r) as [msg_id|] eqn:Ei.
  - cbn [orb] in H.
    destruct (summary_entry_with_id i r msg_id Ei) as (b & a & ->).
    cbn [bind]. apply (IH H).
  - unfold summary_entry, summary_entry_body. rewrite Ei. reflexivity.
Qed.

End SearchAndSummarizeFacts.

(** X24.  When every message of the answer has an id, the summary is
    the header, which gives the number of messages and the query text,
    followed by one entry for each message in the order of the answer,
    numbered from 1, each holding the id of its message: a message that
    cannot be fetched or read gets an entry of its own and the others
    are not affected. *)
Theorem summary_has_a_numbered_entry_for_each_message
    (unescape : pystr -> pystr) (svc : Services)
    (query sender recipient subject_contains : option pystr)
    (max_results : Z) (refs : list MsgRef) :
  messages_list svc max_results
    (gmail_query query sender recipient subject_contains) = Ret refs ->
  refs <> [] ->
  Forall (fun r => id r <> None) refs ->
  exists entries,
    gmail_search_and_summarize unescape svc query sender recipient
      subject_contains max_results
    = summary_header (List.length refs)
        (gmail_query query sender recipient subject_contains)
      ++ List.concat entries
    /\ numbered_from 1 refs entries.
Proof.
  intros Hl Hne Hid. unfold gmail_search_and_summarize. cbv zeta.
  rewrite Hl. cbn [bind].
  destruct (summary_loop_with_ids unescape svc refs Hid 1
              (summary_header (List.length refs)
                 (gmail_query query sender recipient subject_contains)))
    as (entries & He & Hn).
  exists entries. split; [|exact Hn].
  destruct refs as [|r refs]; [contradiction|].
  unfold summary_header in He. rewrite He. reflexivity.
Qed.

Lemma summary_has_a_numbered_entry_for_each_message_witness :
  exists entries,
    gmail_search_and_summarize unescape_basic (paged_services 0) None None
      None None 2
    = summary_header 2 (str "in:inbox") ++ List.concat entries
    /\ numbered_from 1
         [mkMsgRef (Some (str "m1")); mkMsgRef (Some (str "m1"))] entries.
Proof.
  apply (summary_has_a_numbered_entry_for_each_message unescape_basic
           (paged_services 0) None None None None 2
           [mkMsgRef (Some (str "m1")); mkMsgRef (Some (str "m1"))]).
  - reflexivity.
  - discriminate.
  - repeat constructor; discriminate.
Defined.

(** X25.  When a message of the answer has no id, the summary built so
    far is dropped and the tool answers with the search error for the
    missing key alone. *)
Theorem summary_is_dropped_without_id
    (unescape : pystr -> pystr) (svc : Services)
    (query sender recipient subject_contains : option pystr)
    (max_results : Z) (refs : list MsgRef) :
  messages_list svc max_results
    (gmail_query query sender recipient subject_contains) = Ret refs ->
  existsb (fun r => match id r with None => true | Some _ => false end) refs
  = true ->
  gmail_search_and_summarize unescape svc query sender recipient
    subject_contains max_results
  = str "Search error: " ++ exn_str svc (KeyError (str "id")).
Proof.
  intros Hl Hid. unfold gmail_search_and_summarize. cbv zeta.
  rewrite Hl. cbn [bind].
  destruct refs as [|r refs]; [discriminate|].
  now rewrite (summary_loop_without_id unescape svc (r :: refs) Hid).
Qed.

Lemma summary_is_dropped_without_id_witness :
  gmail_search_and_summarize unescape_basic
    (with_refs [mkMsgRef (Some (str "m1")); mkMsgRef None]
       (paged_services 0))
    None None None None 10
  = str "Search error: " ++ str "error".
Proof.
  apply (summary_is_dropped_without_id unescape_basic
           (with_refs [mkMsgRef (Some (str "m1")); mkMsgRef None]
              (paged_services 0))
           None None None None 10
           [mkMsgRef (Some (str "m1")); mkMsgRef None]);
    reflexivity.
Defined.
